(** * kvikdos: the guest-host bridge of a minimal DOS emulator on KVM

    A shallow embedding of the second (current) revision of [kvikdos.c]:
    the bootstrap of guest memory ([load_guest], the magic interrupt table,
    the PSP and [copy_args_to_dos_args]) and the body of the [KVM_RUN] loop
    of [main], which classifies a VM exit and serves the DOS interrupts.

    Machine integers are [Z] with the wrap-around of each C type written
    out; guest memory is a function from host offsets (relative to [mem])
    to bytes, and every access made through a guest-controlled pointer is
    checked against the 2 MiB arena, an access outside it being the
    outcome [Fault].  Host system calls are recorded as events; what the
    host answers is a parameter of the embedding. *)

From Stdlib Require Import ZArith List String Ascii Bool Lia.
Import ListNotations.
Local Open Scope Z_scope.

(** ** Machine integers *)

(** [(unsigned char)x], [(unsigned short)x], [(unsigned)x]. *)
Definition u8 (x : Z) : Z := x mod 2 ^ 8.
Definition u16 (x : Z) : Z := x mod 2 ^ 16.
Definition u32 (x : Z) : Z := x mod 2 ^ 32.

(** [*(unsigned short* )&r = v] on a little-endian 64-bit field [r]:
    the low 16 bits are replaced, the rest is kept. *)
Definition store_lo16 (r v : Z) : Z := r - u16 r + u16 v.

(** [*(unsigned* )&r = v]. *)
Definition store_lo32 (r v : Z) : Z := r - u32 r + u32 v.

(** The carry flag is bit 0 of FLAGS. *)
Definition CF (rflags : Z) : bool := Z.testbit rflags 0.

(** [*(unsigned short* )&regs.rflags |= 1 << 0]. *)
Definition set_cf (rflags : Z) : Z :=
  store_lo16 rflags (Z.lor (u16 rflags) (Z.shiftl 1 0)).

(** [*(unsigned short* )&regs.rflags &= ~(1 << 0)]. *)
Definition clear_cf (rflags : Z) : Z :=
  store_lo16 rflags (Z.land (u16 rflags) (Z.lnot (Z.shiftl 1 0))).

(** ** Constants of the source *)

Definition MEM_SIZE : Z := Z.shiftl 2 20.
Definition BASE_PARA : Z := 0x100.

(** ** Guest memory *)

Definition memory : Type := Z -> Z.

Definition zero_memory : memory := fun _ => 0.

(** [n] bytes from host offset [a] lie in the arena. *)
Definition in_arena (a n : Z) : bool := (0 <=? a) && (a + n <=? MEM_SIZE).

Definition peek8 (m : memory) (a : Z) : Z := u8 (m a).
Definition peek16 (m : memory) (a : Z) : Z := peek8 m a + 256 * peek8 m (a + 1).

Definition load8 (m : memory) (a : Z) : option Z :=
  if in_arena a 1 then Some (peek8 m a) else None.

Definition load16 (m : memory) (a : Z) : option Z :=
  if in_arena a 2 then Some (peek16 m a) else None.

Fixpoint peek_list (m : memory) (a : Z) (n : nat) : list Z :=
  match n with
  | O => []
  | S n' => peek8 m a :: peek_list m (a + 1) n'
  end.

(** The [n] bytes from offset [a], as [write] sees them. *)
Definition peek_bytes (m : memory) (a : Z) (n : Z) : list Z :=
  peek_list m a (Z.to_nat n).

Definition store8 (m : memory) (a v : Z) : memory :=
  fun x => if x =? a then u8 v else m x.

Definition store16 (m : memory) (a v : Z) : memory :=
  store8 (store8 m a v) (a + 1) (Z.shiftr v 8).

Definition store32 (m : memory) (a v : Z) : memory :=
  store16 (store16 m a v) (a + 2) (Z.shiftr v 16).

Fixpoint store_bytes (m : memory) (a : Z) (bs : list Z) : memory :=
  match bs with
  | [] => m
  | b :: bs' => store_bytes (store8 m a b) (a + 1) bs'
  end.

Definition memset (m : memory) (a c n : Z) : memory :=
  store_bytes m a (repeat c (Z.to_nat n)).

(** ** Registers: the fields of [struct kvm_regs] and [struct kvm_sregs]
    that [main] reads or writes *)

Record kvm_regs : Type := mk_regs {
  rax : Z; rbx : Z; rcx : Z; rdx : Z;
  rsi : Z; rdi : Z; rsp : Z; rbp : Z;
  rip : Z; rflags : Z
}.

Record kvm_segment : Type := mk_segment { selector : Z; base : Z }.

Record kvm_sregs : Type := mk_sregs {
  cs : kvm_segment; ds : kvm_segment; es : kvm_segment;
  fs : kvm_segment; gs : kvm_segment; ss : kvm_segment
}.

Definition set_rax (r : kvm_regs) (v : Z) : kvm_regs :=
  mk_regs v (rbx r) (rcx r) (rdx r) (rsi r) (rdi r) (rsp r) (rbp r) (rip r) (rflags r).
Definition set_rbx (r : kvm_regs) (v : Z) : kvm_regs :=
  mk_regs (rax r) v (rcx r) (rdx r) (rsi r) (rdi r) (rsp r) (rbp r) (rip r) (rflags r).
Definition set_rcx (r : kvm_regs) (v : Z) : kvm_regs :=
  mk_regs (rax r) (rbx r) v (rdx r) (rsi r) (rdi r) (rsp r) (rbp r) (rip r) (rflags r).
Definition set_rsp (r : kvm_regs) (v : Z) : kvm_regs :=
  mk_regs (rax r) (rbx r) (rcx r) (rdx r) (rsi r) (rdi r) v (rbp r) (rip r) (rflags r).
Definition set_rip (r : kvm_regs) (v : Z) : kvm_regs :=
  mk_regs (rax r) (rbx r) (rcx r) (rdx r) (rsi r) (rdi r) (rsp r) (rbp r) v (rflags r).
Definition set_rflags (r : kvm_regs) (v : Z) : kvm_regs :=
  mk_regs (rax r) (rbx r) (rcx r) (rdx r) (rsi r) (rdi r) (rsp r) (rbp r) (rip r) v.

(** [SET_SEGMENT_REG(name, para_value)]:
    [sregs.name.base = (sregs.name.selector = para_value) << 4].
    The selector field is a [__u16]; the value of the assignment is the
    stored selector. *)
Definition SET_SEGMENT_REG (para_value : Z) : kvm_segment :=
  let sel := u16 para_value in mk_segment sel (Z.shiftl sel 4).

Definition set_cs (s : kvm_sregs) (v : kvm_segment) : kvm_sregs :=
  mk_sregs v (ds s) (es s) (fs s) (gs s) (ss s).

(** The selector fields hold 16-bit values (their C type is [__u16]). *)
Definition wf_segment (g : kvm_segment) : Prop := 0 <= selector g < 2 ^ 16.

Definition wf_sregs (s : kvm_sregs) : Prop :=
  wf_segment (cs s) /\ wf_segment (ds s) /\ wf_segment (es s) /\
  wf_segment (fs s) /\ wf_segment (gs s) /\ wf_segment (ss s).

(** The 16-bit views of the general registers. *)
Definition AX (r : kvm_regs) : Z := u16 (rax r).
Definition BX (r : kvm_regs) : Z := u16 (rbx r).
Definition CX (r : kvm_regs) : Z := u16 (rcx r).
Definition DX (r : kvm_regs) : Z := u16 (rdx r).
Definition SP (r : kvm_regs) : Z := u16 (rsp r).
Definition AL (r : kvm_regs) : Z := u8 (rax r).

(** ** Host system calls *)

(** What the emulator asks of the host, in program order.  [EvWrite fd data]
    is [write(fd, buf, n)] with [data] the [n] bytes at [buf]. *)
Inductive event : Type :=
| EvWrite (fd : Z) (data : list Z)
| EvRead (fd : Z) (size : Z)
| EvStderr (msg : string)
| EvSleep (seconds : Z)
| EvClose.

(** What the host answers: the return value of [write], and the return
    value [got] of [read] together with the bytes on the descriptor, of
    which the first [got] are placed in the buffer. *)
Record host : Type := mk_host {
  host_write : Z -> list Z -> Z;
  host_read : Z -> Z -> Z * list Z
}.

(** ** The interrupt handlers of [main] *)

(** How a handler leaves the [if] chain of the [KVM_EXIT_HLT] case. *)
Inductive handled : Type :=
| Returns (r : kvm_regs) (m : memory) (tr : list event)
| Exits (status : Z) (tr : list event)
| GotoExit (tr : list event)
| Faults.

(** [const char c = v; (void)!write(fd, &c, 1);] *)
Definition put_char (fd v : Z) : list event := [EvWrite fd [u8 v]].

(** [(char* )mem + ((unsigned)sregs.ds.selector << 4)], as an offset from [mem]. *)
Definition ds_base (s : kvm_sregs) : Z := u32 (Z.shiftl (u32 (selector (ds s))) 4).

(** [... + ((unsigned)regs.rdx & 0xffff)]. *)
Definition dsdx_addr (s : kvm_sregs) (r : kvm_regs) : Z :=
  ds_base s + Z.land (u32 (rdx r)) 0xffff.

(** [if (fd == 3) fd = 2; else if (fd == 4) fd = 0;] *)
Definition map_handle (fd : Z) : Z :=
  if fd =? 3 then 2 else if fd =? 4 then 0 else fd.

(** The label [error_on_21]. *)
Definition error_on_21 (r : kvm_regs) : kvm_regs :=
  set_rflags r (set_cf (rflags r)).

(** AH=0x40, write using handle. *)
Definition int21_write (h : host) (m : memory) (s : kvm_sregs) (r : kvm_regs) : handled :=
  let fd := u16 (rbx r) in
  if fd >? 4 then
    Returns (error_on_21 (set_rax r (store_lo16 (rax r) 6))) m []
  else
    let p := dsdx_addr s r in
    let size := u16 (rcx r) in
    let fd := map_handle fd in
    if in_arena p size then
      let data := peek_bytes m p size in
      let got := host_write h fd data in
      if got <? 0 then
        Returns (error_on_21 (set_rax r (store_lo16 (rax r) 0x1d))) m [EvWrite fd data]
      else
        let r1 := set_rflags r (clear_cf (rflags r)) in
        Returns (set_rax r1 (store_lo16 (rax r1) got)) m [EvWrite fd data]
    else Faults.

(** AH=0x3f, read using handle. *)
Definition int21_read (h : host) (m : memory) (s : kvm_sregs) (r : kvm_regs) : handled :=
  let fd := u16 (rbx r) in
  if fd >? 4 then
    Returns (error_on_21 (set_rax r (store_lo16 (rax r) 6))) m []
  else
    let p := dsdx_addr s r in
    let size := u16 (rcx r) in
    let fd := map_handle fd in
    if in_arena p size then
      let '(got, data) := host_read h fd size in
      if got <? 0 then
        Returns (error_on_21 (set_rax r (store_lo16 (rax r) 0x1e))) m [EvRead fd size]
      else
        let r1 := set_rflags r (clear_cf (rflags r)) in
        Returns (set_rax r1 (store_lo16 (rax r1) got))
                (store_bytes m p (firstn (Z.to_nat got) data)) [EvRead fd size]
    else Faults.

(** The [for (;;)] loop of AH=0x09 over the [unsigned short dx]. *)
Inductive scan : Type :=
| ScanBreak (dx : Z)
| ScanOverflow
| ScanFault
| ScanFuel.

Fixpoint print_scan (m : memory) (p : Z) (fuel : nat) (dx : Z) : scan :=
  match fuel with
  | O => ScanFuel
  | S fuel' =>
    match load8 m (p + dx) with
    | None => ScanFault
    | Some c =>
      if c =? 36 then ScanBreak dx
      else
        let dx' := u16 (dx + 1) in
        if dx' =? 0 then ScanOverflow else print_scan m p fuel' dx'
    end
  end.

(** The offsets left in the segment from [dx0] on: the loop increments the
    16-bit [dx] at each turn and stops when it wraps, so it cannot turn
    more often. *)
Definition scan_fuel (dx0 : Z) : nat := Z.to_nat (0x10000 - dx0).

(** AH=0x09, print string. *)
Definition int21_print (m : memory) (s : kvm_sregs) (r : kvm_regs) : handled :=
  let dx0 := u16 (rdx r) in
  let p := ds_base s in
  match print_scan m p (scan_fuel dx0) dx0 with
  | ScanBreak dx =>
    if in_arena (p + dx0) (dx - dx0) then
      Returns r m [EvWrite 1 (peek_bytes m (p + dx0) (dx - dx0))]
    else Faults
  | ScanOverflow => Exits 252 [EvStderr "fatal: !! offset overflow in print"]
  | ScanFault => Faults
  | ScanFuel => Faults
  end.

(** The branch [int_num == 0x21]. *)
Definition int21 (h : host) (m : memory) (s : kvm_sregs) (r : kvm_regs) (ah : Z) : handled :=
  if ah =? 0x4c then Exits (Z.land (u32 (rax r)) 0xff) []
  else if (ah =? 0x06) && negb (u8 (rdx r) =? 0xff) then Returns r m (put_char 1 (u8 (rdx r)))
  else if ah =? 0x04 then Returns r m (put_char 2 (u8 (rdx r)))
  else if ah =? 0x05 then Returns r m (put_char 1 (u8 (rdx r)))
  else if ah =? 0x30 then
    let r1 := set_rax r (store_lo16 (rax r) (Z.lor 5 (Z.shiftl 0 8))) in
    let r2 := set_rbx r1 (store_lo16 (rbx r1) 0xff00) in
    Returns (set_rcx r2 (store_lo16 (rcx r2) 0)) m []
  else if ah =? 0x40 then int21_write h m s r
  else if ah =? 0x3f then int21_read h m s r
  else if ah =? 0x09 then int21_print m s r
  else Returns r m [].

(** The whole [if] chain on [int_num]. *)
Definition int_handler (h : host) (m : memory) (s : kvm_sregs) (r : kvm_regs)
    (int_num ah : Z) : handled :=
  if int_num =? 0x29 then Returns r m (put_char 1 (rax r))
  else if int_num =? 0x20 then Exits 0 []
  else if int_num =? 0x21 then int21 h m s r ah
  else if int_num =? 0x10 then
    if ah =? 0x0e then Returns r m (put_char 1 (rax r)) else GotoExit []
  else GotoExit [].

(** ** One iteration of the run loop, after [KVM_RUN] has returned *)

Inductive kvm_exit : Type :=
| KVM_EXIT_IO
| KVM_EXIT_SHUTDOWN
| KVM_EXIT_HLT
| KVM_EXIT_MMIO
| KVM_EXIT_other (reason : Z).

(** [Resume] is [goto set_sregs_regs_and_continue] with the new register
    files; [Continue] is the [break] that runs the guest again as it is;
    [Exit] ends the host process; [Fault] is an access outside the arena. *)
Inductive outcome : Type :=
| Resume (s : kvm_sregs) (r : kvm_regs) (m : memory) (tr : list event)
| Continue (tr : list event)
| Exit (status : Z) (tr : list event)
| Fault.

(** The label [exit]. *)
Definition exit_label (tr : list event) : outcome :=
  Exit 252 (tr ++ [EvClose; EvStderr "fatal: unexpected exit from KVM"]).

(** [(unsigned)sregs.cs.selector == 0x40 && (unsigned)((unsigned)regs.rip - 1) < 0x100] *)
Definition is_magic_hlt (s : kvm_sregs) (r : kvm_regs) : bool :=
  (u32 (selector (cs s)) =? 0x40) && (u32 (u32 (rip r) - 1) <? 0x100).

(** [((unsigned)regs.rip - 1) & 0xff] *)
Definition int_num_of (r : kvm_regs) : Z := Z.land (u32 (u32 (rip r) - 1)) 0xff.

(** [((unsigned)regs.rax >> 8) & 0xff] *)
Definition ah_of (r : kvm_regs) : Z := Z.land (Z.shiftr (u32 (rax r)) 8) 0xff.

(** [csip_ptr], as an offset from [mem]. *)
Definition csip_ptr (s : kvm_sregs) (r : kvm_regs) : Z :=
  u32 (Z.shiftl (u32 (selector (ss s))) 4) + Z.land (u32 (rsp r)) 0xffff.

(** [int_ip = csip_ptr[0], int_cs = csip_ptr[1]]. *)
Definition read_frame (m : memory) (s : kvm_sregs) (r : kvm_regs) : option (Z * Z) :=
  match load16 m (csip_ptr s r), load16 m (csip_ptr s r + 2) with
  | Some int_ip, Some int_cs => Some (int_ip, int_cs)
  | _, _ => None
  end.

(** [regs.rip = int_ip; *(unsigned* )&regs.rsp += 6;] *)
Definition iret_regs (r : kvm_regs) (int_ip : Z) : kvm_regs :=
  let r1 := set_rip r int_ip in
  set_rsp r1 (store_lo32 (rsp r1) (u32 (rsp r1) + 6)).

(** The end of the magic-interrupt branch: a handler that falls out of the
    [if] chain reaches "Return from the interrupt",
    [SET_SEGMENT_REG(cs, int_cs); regs.rip = int_ip; ... += 6;
    goto set_sregs_regs_and_continue]. *)
Definition return_from_interrupt (s : kvm_sregs) (int_ip int_cs : Z)
    (hd : handled) : outcome :=
  match hd with
  | Returns r1 m1 tr =>
    Resume (set_cs s (SET_SEGMENT_REG int_cs)) (iret_regs r1 int_ip) m1 tr
  | Exits status tr => Exit status tr
  | GotoExit tr => exit_label tr
  | Faults => Fault
  end.

(** The magic-interrupt branch of [case KVM_EXIT_HLT]: the return address
    is read before the handler runs. *)
Definition dispatch_int (h : host) (m : memory) (s : kvm_sregs) (r : kvm_regs) : outcome :=
  let int_num := int_num_of r in
  match read_frame m s r with
  | None => Fault
  | Some (int_ip, int_cs) =>
    let ah := ah_of r in
    return_from_interrupt s int_ip int_cs (int_handler h m s r int_num ah)
  end.

(** The [switch (run->exit_reason)]. *)
Definition handle_exit (h : host) (reason : kvm_exit) (m : memory)
    (s : kvm_sregs) (r : kvm_regs) : outcome :=
  match reason with
  | KVM_EXIT_IO => Continue [EvSleep 1]
  | KVM_EXIT_SHUTDOWN => Exit 252 [EvStderr "fatal: shutdown"]
  | KVM_EXIT_HLT =>
    if is_magic_hlt s r then dispatch_int h m s r
    else exit_label [EvStderr "fatal: hlt"]
  | KVM_EXIT_MMIO => exit_label [EvStderr "fatal: mmio"]
  | KVM_EXIT_other _ => exit_label [EvStderr "fatal: KVM exit_reason"]
  end.

(** ** Bootstrap: the program image, the magic interrupt table, the PSP *)

(** A step of the bootstrap either goes on or ends the host process. *)
Inductive result (A : Type) : Type :=
| Done (a : A)
| Died (status : Z) (tr : list event).

Arguments Done {A} a.
Arguments Died {A} status tr.

(** A host argument is the C string's bytes before its terminating NUL. *)
Fixpoint bytes_of (s : string) : list Z :=
  match s with
  | EmptyString => []
  | String c s' => Z.of_nat (nat_of_ascii c) :: bytes_of s'
  end.

Definition strlen (s : string) : Z := Z.of_nat (String.length s).

(** [load_guest]: the file's bytes are placed from [(BASE_PARA << 4) + 0x100];
    [None] is a file that cannot be opened.  The function checks no bound:
    for a file that does not fit between the load address and the end of
    the mapping, the [read] whose buffer starts past the mapping fails, and
    the loop prints its error and calls [exit(252)]. *)
Definition load_guest (file : option (list Z)) (m : memory) : result memory :=
  match file with
  | None => Died 252 [EvStderr "fatal: can not open binary file"]
  | Some image =>
    let p := Z.shiftl BASE_PARA 4 + 0x100 in
    if in_arena p (Z.of_nat (List.length image))
    then Done (store_bytes m p image)
    else Died 252 [EvStderr "read"]
  end.

(** The [while ( *args)] loop of [copy_args_to_dos_args]; [None] is the
    branch that prints the message and calls [exit(252)]. *)
Fixpoint copy_args_loop (m : memory) (p size : Z) (args : list string)
    : option (memory * Z) :=
  match args with
  | [] => Some (m, size)
  | arg :: args' =>
    let arg_size := u32 (strlen arg) in
    if (u32 (size + arg_size) <? size) || (u32 (size + arg_size) >? 127) then None
    else
      let m1 := store8 m (p + size) 32 in
      let size1 := u32 (size + 1) in
      let m2 := store_bytes m1 (p + size1) (firstn (Z.to_nat arg_size) (bytes_of arg)) in
      copy_args_loop m2 p (u32 (size1 + arg_size)) args'
  end.

Definition copy_args_to_dos_args (m : memory) (p : Z) (args : list string)
    : result memory :=
  match copy_args_loop m p 1 args with
  | None => Died 252 [EvStderr "fatal: DOS command line args too long"]
  | Some (m1, size) =>
    let m2 := store8 m1 (p + size) 13 in
    let size' := u32 (size - 1) in
    Done (store8 m2 p size')
  end.

(** [for (u = 0; u < 0x100; ++u) ((unsigned* )mem)[u] = 0x400000 | u;
    memset((char* )mem + 0x400, 0xf4, 256);] *)
Definition fill_magic_interrupt_table (m : memory) : memory :=
  let m1 := fold_left
      (fun m' u => store32 m' (4 * Z.of_nat u) (Z.lor 0x400000 (Z.of_nat u)))
      (seq 0 256) m in
  memset m1 0x400 0xf4 256.

(** [psp = (char* )mem + (BASE_PARA << 4)] *)
Definition psp : Z := Z.shiftl BASE_PARA 4.

(** The part of [main] before the label [set_sregs_regs_and_continue] that
    builds guest memory and the register files: [file] is the guest image
    named by [argv[1]], [args] is [argv + 2], [s0] and [r0] are what
    [KVM_GET_SREGS] and [KVM_GET_REGS] returned. *)
Definition main_init (file : option (list Z)) (args : list string) (m : memory)
    (s0 : kvm_sregs) (r0 : kvm_regs) : result (memory * kvm_sregs * kvm_regs) :=
  match load_guest file m with
  | Died st tr => Died st tr
  | Done m1 =>
    let m2 := fill_magic_interrupt_table m1 in
    let seg := SET_SEGMENT_REG BASE_PARA in
    let s1 := mk_sregs seg seg seg seg seg seg in
    let sp := 0xfffe in
    let r1 := set_rsp r0 sp in
    let m3 := store16 m2 (psp + sp) 0 in
    let m4 := store16 m3 psp 0x20cd in
    let m5 := store16 m4 (psp + 2) 0xa000 in
    let m6 := store8 m5 (psp + 0x80) 0 in
    match copy_args_to_dos_args m6 (psp + 0x80) args with
    | Died st tr => Died st tr
    | Done m7 =>
      let r2 := set_rflags r1 (Z.shiftl 1 1) in
      let r3 := set_rip r2 0x100 in
      Done (m7, s1, r3)
    end
  end.

(** ** The command-line tail as the DOS convention describes it *)

(** One space before each argument. *)
Fixpoint encoded_tail (args : list string) : list Z :=
  match args with
  | [] => []
  | arg :: args' => 32 :: bytes_of arg ++ encoded_tail args'
  end.

Definition encoded_length (args : list string) : Z :=
  Z.of_nat (List.length (encoded_tail args)).

(** Every argument is shorter than 4 GiB, so that [unsigned arg_size =
    strlen(arg)] loses nothing (Linux bounds an argument by 128 KiB). *)
Definition args_fit (args : list string) : Prop :=
  Forall (fun arg => strlen arg < 2 ^ 32) args.

(** ** Vocabulary of the statements *)

(** The image fits between the load address and the end of the arena. *)
Definition image_fits (image : list Z) : Prop :=
  Z.of_nat (List.length image) <= MEM_SIZE - (Z.shiftl BASE_PARA 4 + 0x100).

(** The VM exit is the halt that [INT n] reaches through the magic table. *)
Definition guest_int (s : kvm_sregs) (r : kvm_regs) (n : Z) : Prop :=
  is_magic_hlt s r = true /\ int_num_of r = n.

(** [dx] is the offset of the first ['$'] at or after [dx0] in the segment
    that starts at [p]. *)
Definition first_dollar (m : memory) (p dx0 dx : Z) : Prop :=
  dx0 <= dx < 2 ^ 16 /\ peek8 m (p + dx) = 36 /\
  forall k, dx0 <= k < dx -> peek8 m (p + k) <> 36.

(** No ['$'] from [dx0] to the end of the segment. *)
Definition no_dollar (m : memory) (p dx0 : Z) : Prop :=
  forall k, dx0 <= k < 2 ^ 16 -> peek8 m (p + k) <> 36.

(** The AH values that the [int_num == 0x21] branch tests for. *)
Definition int21_listed (ah : Z) : bool :=
  existsb (Z.eqb ah) [0x04; 0x05; 0x06; 0x09; 0x30; 0x3f; 0x40; 0x4c].

(** What the host answers to the [write] of AH=0x40 and the [read] of
    AH=0x3f when the handle in BX is at most 4. *)
Definition write_result (h : host) (m : memory) (s : kvm_sregs) (r : kvm_regs) : Z :=
  host_write h (map_handle (BX r)) (peek_bytes m (dsdx_addr s r) (CX r)).

Definition read_result (h : host) (r : kvm_regs) : Z :=
  fst (host_read h (map_handle (BX r)) (CX r)).

(** ** Concrete machines used by the examples *)

Definition seg_of (para : Z) : kvm_segment := mk_segment para (Z.shiftl para 4).

(** The guest has executed [INT n]: CS is the magic selector, the stack
    and data segments are the program's. *)
Definition sregs_in_int : kvm_sregs :=
  let g := seg_of BASE_PARA in mk_sregs (seg_of 0x40) g g g g g.

(** Registers at the halt of [INT n], with AX, BX, CX, DX and FLAGS given;
    SP is [0xfff8], below the three pushed words. *)
Definition regs_in_int (n ax bx cx dx fl : Z) : kvm_regs :=
  mk_regs ax bx cx dx 0 0 0xfff8 0 (n + 1) fl.

(** A guest memory holding the frame IP=0x1234, CS=0x5678, FLAGS=0x0203 at
    SS:SP and the text [Hi$] at DS:0x200. *)
Definition mem_in_int : memory :=
  let m1 := store16 zero_memory 0x10ff8 0x1234 in
  let m2 := store16 m1 0x10ffa 0x5678 in
  let m3 := store16 m2 0x10ffc 0x0203 in
  store_bytes m3 0x1200 [72; 105; 36].

(** A data segment whose only ['$'] is its last byte, DS:0xffff. *)
Definition mem_dollar_last : memory := store8 zero_memory 0x10fff 36.

(** A host on which every [write] and [read] transfers all that is asked. *)
Definition host_ok : host :=
  mk_host (fun _ data => Z.of_nat (List.length data))
          (fun _ size => (size, repeat 65 (Z.to_nat size))).

(** A host on which every [write] and [read] fails. *)
Definition host_failing : host :=
  mk_host (fun _ _ => -1) (fun _ _ => (-1, [])).

(** Ten decimal digits, twelve times over: 120 bytes. *)
Definition digits120 : string :=
  String.concat "" (repeat "0123456789"%string 12).

(** One argument of 126 bytes, a tail of 127 bytes; and one byte more. *)
Definition args127 : list string := [(digits120 ++ "012345")%string].
Definition args128 : list string := [(digits120 ++ "0123456")%string].

(** A two-byte program image: [NOP; RET]. *)
Definition image_nop_ret : list Z := [0x90; 0xc3].

(** ** The read loop of [load_guest] *)

(** What one [read(img_fd, p, 8192)] answers: [Some bs] places the bytes
    [bs] at [p] and returns their number, [None] is a negative return.
    The end of the list is the end of the file. *)
Fixpoint load_guest_reads (m : memory) (p : Z) (reads : list (option (list Z)))
    : result memory :=
  match reads with
  | [] => Done m
  | None :: _ => Died 252 [EvStderr "read"]
  | Some [] :: _ => Done m
  | Some bs :: reads' =>
    load_guest_reads (store_bytes m p bs) (p + Z.of_nat (List.length bs)) reads'
  end.

(** ** The run loop of [main] *)

(** The state the guest and the host share: guest memory and the two
    register files. *)
Record vm : Type := mk_vm {
  vm_mem : memory;
  vm_sregs : kvm_sregs;
  vm_regs : kvm_regs
}.

(** What the host sees of one turn of the guest: [KVM_SET_SREGS],
    [KVM_SET_REGS], [KVM_RUN], [KVM_GET_REGS] and [KVM_GET_SREGS] either
    all succeed, and the guest has run from the state it was given to its
    next exit, or one of them fails. *)
Inductive kvm_run : Type :=
| RunExits (reason : kvm_exit) (v : vm)
| RunFails (msg : string).

(** The guest is a parameter: any function from the state it is resumed
    in to what it does next. *)
Definition guest : Type := vm -> kvm_run.

(** How the loop has ended after a number of turns. *)
Inductive run_end : Type :=
| Ended (status : Z) (tr : list event)
| Running (v : vm) (tr : list event)
| Faulted (tr : list event).

Definition after (tr : list event) (e : run_end) : run_end :=
  match e with
  | Ended status tr' => Ended status (tr ++ tr')
  | Running v tr' => Running v (tr ++ tr')
  | Faulted tr' => Faulted (tr ++ tr')
  end.

(** [turns] turns of the [for (;;)] loop from turn number [i]; the host's
    answers may differ from turn to turn.  A failed ioctl prints its
    message and calls [exit(252)]. *)
Fixpoint run_loop (g : guest) (hs : nat -> host) (turns : nat) (i : nat) (v : vm)
    : run_end :=
  match turns with
  | O => Running v []
  | S turns' =>
    match g v with
    | RunFails msg => Ended 252 [EvStderr msg]
    | RunExits reason v1 =>
      match handle_exit (hs i) reason (vm_mem v1) (vm_sregs v1) (vm_regs v1) with
      | Resume s r m tr => after tr (run_loop g hs turns' (S i) (mk_vm m s r))
      | Continue tr => after tr (run_loop g hs turns' (S i) v1)
      | Exit status tr => Ended status tr
      | Fault => Faulted []
      end
    end
  end.

(** The register files that [KVM_GET_SREGS] fills have 16-bit selectors. *)
Definition guest_wf (g : guest) : Prop :=
  forall v reason v1, g v = RunExits reason v1 -> wf_sregs (vm_sregs v1).

(** ** More vocabulary *)

Definition DL (r : kvm_regs) : Z := u8 (rdx r).

(** What the emulator keeps of a segment register: a 16-bit selector and
    the base [selector << 4]. *)
Definition segment_ok (g : kvm_segment) : Prop :=
  wf_segment g /\ base g = Z.shiftl (selector g) 4.

Definition sregs_ok (s : kvm_sregs) : Prop :=
  segment_ok (cs s) /\ segment_ok (ds s) /\ segment_ok (es s) /\
  segment_ok (fs s) /\ segment_ok (gs s) /\ segment_ok (ss s).

(** A guest that asks for the DOS version and then terminates with
    INT 20h, whatever state it is resumed in. *)
Definition guest_version_then_exit : guest :=
  fun v =>
    if AX (vm_regs v) =? 5
    then RunExits KVM_EXIT_HLT
           (mk_vm (vm_mem v) sregs_in_int (regs_in_int 0x20 5 0 0 0 2))
    else RunExits KVM_EXIT_HLT
           (mk_vm (vm_mem v) sregs_in_int (regs_in_int 0x21 0x3000 0 0 0 2)).

(** ** The first revision of the emulator

    The file also holds the earlier revision of [kvikdos.c]: no DOS
    services yet, the image loaded at [CODE_LOAD_OFS] with the stack below
    it in segment 0, and every message printed on standard output. *)

Module Rev1.

Definition BASE_PARA : Z := 0x500.
Definition CODE_LOAD_OFS : Z := Z.shiftl BASE_PARA 4.

(** [printf] with its format and arguments, [fflush(stdout)], [sleep]
    and [close(kvm_fd)]. *)
Inductive event : Type :=
| EvPrintf (fmt : string) (args : list Z)
| EvFflush
| EvSleep (seconds : Z)
| EvClose.

(** [R16(name)] and [S16(name)]. *)
Definition R16 (x : Z) : Z := Z.land (u32 x) 0xffff.
Definition S16 (g : kvm_segment) : Z := Z.land (u32 (selector g)) 0xffff.

Definition dump_regs (r : kvm_regs) (s : kvm_sregs) : list event :=
  [EvPrintf "regs: ax:%04x bx:%04x cx:%04x dx:%04x si:%04x di:%04x sp:%04x bp:%04x ip:%04x flags:%08x cs:%04x ds:%04x es:%04x fs:%04x gs:%04x ss:%04x"
     [R16 (rax r); R16 (rbx r); R16 (rcx r); R16 (rdx r); R16 (rsi r); R16 (rdi r);
      R16 (rsp r); R16 (rbp r); R16 (rip r); R16 (rflags r);
      S16 (cs s); S16 (ds s); S16 (es s); S16 (fs s); S16 (gs s); S16 (ss s)];
   EvFflush].

(** The exit record, with the fields the revision prints. *)
Inductive kvm_exit : Type :=
| KVM_EXIT_IO (port data size direction : Z)
| KVM_EXIT_SHUTDOWN
| KVM_EXIT_HLT
| KVM_EXIT_MMIO (phys_addr data1 data0 len is_write : Z)
| KVM_EXIT_other (reason : Z).

(** [Resume] is [goto set_sregs_regs_and_continue], [Continue] the
    [break] of the [switch], [Return] the [return 0] after the label
    [exit]; [Fault] is a frame outside the arena. *)
Inductive outcome : Type :=
| Resume (s : kvm_sregs) (r : kvm_regs) (tr : list event)
| Continue (tr : list event)
| Return (status : Z) (tr : list event)
| Fault.

Definition exit_label (tr : list event) : outcome := Return 0 (tr ++ [EvClose]).

(** The body of the [for (;;)] loop after the register files are read. *)
Definition handle_exit (reason : kvm_exit) (m : memory) (s : kvm_sregs)
    (r : kvm_regs) : outcome :=
  let dump := dump_regs r s in
  match reason with
  | KVM_EXIT_IO port data size direction =>
    Continue (dump ++
              [EvPrintf "IO port: port=0x%02x data=%04x size=%d direction=%d"
                 [port; data; size; direction];
               EvFflush; EvSleep 1])
  | KVM_EXIT_SHUTDOWN => exit_label (dump ++ [EvPrintf "shutdown" []])
  | KVM_EXIT_HLT =>
    if is_magic_hlt s r then
      let int_num := int_num_of r in
      match read_frame m s r with
      | None => Fault
      | Some (int_ip, int_cs) =>
        Resume (set_cs s (SET_SEGMENT_REG int_cs)) (set_rip r int_ip)
               (dump ++ [EvPrintf "int 0x%02x cs:%04x ip:%04x" [int_num; int_cs; int_ip]])
      end
    else exit_label (dump ++ [EvPrintf "hlt" []])
  | KVM_EXIT_MMIO phys_addr data1 data0 len is_write =>
    Continue (dump ++
              [EvPrintf "mmio phys_addr=%08x value=%08x%08x size=%d is_write=%d"
                 [phys_addr; data1; data0; len; is_write]])
  | KVM_EXIT_other reason' =>
    exit_label (dump ++ [EvPrintf "exit_reason: %d" [reason']; EvFflush])
  end.

(** [regs.rsp = sp = (CODE_LOAD_OFS >> 16 ? 1 << 16 : CODE_LOAD_OFS) - 2] *)
Definition initial_sp : Z :=
  (if Z.shiftr CODE_LOAD_OFS 16 =? 0 then CODE_LOAD_OFS else Z.shiftl 1 16) - 2.

(** [load_guest] of this revision: the file's bytes are placed from
    [CODE_LOAD_OFS], and every failure is [exit(1)]: a file that cannot be
    opened ([None]), and a [read] that fails, as the one whose buffer
    starts past the end of the mapping does when the file does not fit
    between [CODE_LOAD_OFS] and the end of the arena. *)
Definition load_guest (file : option (list Z)) (m : memory) : result memory :=
  match file with
  | None => Died 1 [EvStderr "can not open binary file"]
  | Some image =>
    if in_arena CODE_LOAD_OFS (Z.of_nat (List.length image))
    then Done (store_bytes m CODE_LOAD_OFS image)
    else Died 1 [EvStderr "read"]
  end.

(** [main] from [load_guest] to the label [set_sregs_regs_and_continue]:
    [s0] and [r0] are the register files that [KVM_GET_SREGS] and
    [KVM_GET_REGS] have filled after the image was loaded; the last
    statement prints the registers. *)
Definition main_init (file : option (list Z)) (m : memory) (s0 : kvm_sregs)
    (r0 : kvm_regs) : result (memory * kvm_sregs * kvm_regs * list event) :=
  match load_guest file m with
  | Died st tr => Died st tr
  | Done m1 =>
    let m2 := fill_magic_interrupt_table m1 in
    let seg := SET_SEGMENT_REG BASE_PARA in
    let s1 := mk_sregs seg seg seg seg seg (SET_SEGMENT_REG 0) in
    let sp := initial_sp in
    let r1 := set_rsp r0 sp in
    let m3 := memset m2 sp 0 2 in
    let r2 := set_rflags r1 (Z.shiftl 1 1) in
    let r3 := set_rip r2 0 in
    Done (m3, s1, r3, dump_regs r3 s1)
  end.

End Rev1.

(** ** Properties *)

(** *** Machine words *)

Ltac words :=
  unfold store_lo16, store_lo32, u8, u16, u32 in *;
  change (2 ^ 8) with 256 in *;
  change (2 ^ 16) with 65536 in *;
  change (2 ^ 32) with 4294967296 in *.

Lemma u8_range (x : Z) : 0 <= u8 x < 256.
Proof. words. apply Z.mod_pos_bound. lia. Qed.

Lemma u16_range (x : Z) : 0 <= u16 x < 65536.
Proof. words. apply Z.mod_pos_bound. lia. Qed.

Lemma u32_range (x : Z) : 0 <= u32 x < 4294967296.
Proof. words. apply Z.mod_pos_bound. lia. Qed.

Lemma u16_small (x : Z) : 0 <= x < 65536 -> u16 x = x.
Proof. intros H. words. apply Z.mod_small. exact H. Qed.

Lemma u32_small (x : Z) : 0 <= x < 4294967296 -> u32 x = x.
Proof. intros H. words. apply Z.mod_small. exact H. Qed.

Lemma u16_u32 (x : Z) : u16 (u32 x) = u16 x.
Proof. words. Z.div_mod_to_equations. lia. Qed.

Lemma u8_u32 (x : Z) : u8 (u32 x) = u8 x.
Proof. words. Z.div_mod_to_equations. lia. Qed.

Lemma u8_u8 (x : Z) : u8 (u8 x) = u8 x.
Proof. words. Z.div_mod_to_equations. lia. Qed.

Lemma land_ffff (x : Z) : Z.land x 0xffff = u16 x.
Proof. change 0xffff with (Z.ones 16). apply Z.land_ones. lia. Qed.

Lemma land_ff (x : Z) : Z.land x 0xff = u8 x.
Proof. change 0xff with (Z.ones 8). apply Z.land_ones. lia. Qed.

Lemma u16_store_lo16 (r v : Z) : u16 (store_lo16 r v) = u16 v.
Proof. words. Z.div_mod_to_equations. lia. Qed.

Lemma store_lo16_bits_low (r v i : Z) :
  0 <= i < 16 -> Z.testbit (store_lo16 r v) i = Z.testbit v i.
Proof.
  intros Hi.
  rewrite <- (Z.mod_pow2_bits_low (store_lo16 r v) 16 i) by lia.
  rewrite <- (Z.mod_pow2_bits_low v 16 i) by lia.
  fold (u16 (store_lo16 r v)). fold (u16 v).
  now rewrite u16_store_lo16.
Qed.

Lemma store_lo16_high (r v : Z) : store_lo16 r v / 2 ^ 16 = r / 2 ^ 16.
Proof. words. Z.div_mod_to_equations. lia. Qed.

Lemma store_lo16_bits_high (r v i : Z) :
  16 <= i -> Z.testbit (store_lo16 r v) i = Z.testbit r i.
Proof.
  intros Hi.
  replace i with ((i - 16) + 16) by lia.
  rewrite <- !Z.div_pow2_bits by lia.
  now rewrite store_lo16_high.
Qed.

Lemma CF_set_cf (f : Z) : CF (set_cf f) = true.
Proof.
  unfold CF, set_cf. rewrite store_lo16_bits_low by lia.
  rewrite Z.lor_spec. change (Z.testbit (Z.shiftl 1 0) 0) with true.
  apply orb_true_r.
Qed.

Lemma CF_clear_cf (f : Z) : CF (clear_cf f) = false.
Proof.
  unfold CF, clear_cf. rewrite store_lo16_bits_low by lia.
  rewrite Z.land_spec. change (Z.testbit (Z.lnot (Z.shiftl 1 0)) 0) with false.
  apply andb_false_r.
Qed.

Lemma u16_bits_low (x i : Z) : 0 <= i < 16 -> Z.testbit (u16 x) i = Z.testbit x i.
Proof. intros Hi. unfold u16. apply Z.mod_pow2_bits_low. lia. Qed.

Lemma set_cf_other_bits (f i : Z) :
  0 < i -> Z.testbit (set_cf f) i = Z.testbit f i.
Proof.
  intros Hi. unfold set_cf.
  destruct (Z_lt_le_dec i 16) as [Hlo | Hhi].
  - rewrite store_lo16_bits_low by lia.
    rewrite Z.lor_spec, u16_bits_low by lia.
    change (Z.shiftl 1 0) with 1.
    rewrite Z.bits_above_log2 with (a := 1) (n := i); simpl; try lia.
    apply orb_false_r.
  - now apply store_lo16_bits_high.
Qed.

Lemma clear_cf_other_bits (f i : Z) :
  0 < i -> Z.testbit (clear_cf f) i = Z.testbit f i.
Proof.
  intros Hi. unfold clear_cf.
  destruct (Z_lt_le_dec i 16) as [Hlo | Hhi].
  - rewrite store_lo16_bits_low by lia.
    rewrite Z.land_spec, u16_bits_low by lia.
    change (Z.shiftl 1 0) with 1.
    rewrite Z.lnot_spec by lia.
    rewrite Z.bits_above_log2 with (a := 1) (n := i); simpl; try lia.
    apply andb_true_r.
  - now apply store_lo16_bits_high.
Qed.

Lemma u16_advance_lo32 (x : Z) : u16 (store_lo32 x (u32 x + 6)) = u16 (u16 x + 6).
Proof. words. Z.div_mod_to_equations. lia. Qed.

Lemma advance_lo32_no_wrap (x : Z) :
  u32 x + 6 < 2 ^ 32 -> store_lo32 x (u32 x + 6) = x + 6.
Proof. words. intros H. Z.div_mod_to_equations. lia. Qed.

(** *** Real-mode addresses stay below 2 MiB *)

Lemma paragraph_base (sel : Z) :
  0 <= sel < 2 ^ 16 -> u32 (Z.shiftl (u32 sel) 4) = 16 * sel.
Proof.
  intros H. change (2 ^ 16) with 65536 in H.
  rewrite (u32_small sel) by lia.
  rewrite Z.shiftl_mul_pow2 by lia. change (2 ^ 4) with 16.
  rewrite u32_small by lia. lia.
Qed.

Lemma in_arena_true (a n : Z) : 0 <= a -> a + n <= 2097152 -> in_arena a n = true.
Proof.
  intros H1 H2. unfold in_arena. change MEM_SIZE with 2097152.
  apply andb_true_intro. split; apply Z.leb_le; lia.
Qed.

Lemma in_arena_inv (a n : Z) : in_arena a n = true -> 0 <= a /\ a + n <= 2097152.
Proof.
  unfold in_arena. change MEM_SIZE with 2097152. intros H.
  apply andb_prop in H. destruct H as [H1 H2].
  apply Z.leb_le in H1. apply Z.leb_le in H2. lia.
Qed.

Section RealModeAddresses.

Variable s : kvm_sregs.
Hypothesis Hs : wf_sregs s.

Lemma csip_ptr_range (r : kvm_regs) : 0 <= csip_ptr s r <= 0x10ffef.
Proof.
  destruct Hs as (_ & _ & _ & _ & _ & Hss). unfold csip_ptr.
  rewrite paragraph_base by exact Hss. rewrite land_ffff.
  pose proof (u16_range (u32 (rsp r))).
  unfold wf_segment in Hss. change (2 ^ 16) with 65536 in Hss. lia.
Qed.

Lemma ds_base_range : 0 <= ds_base s <= 0xffff0.
Proof.
  destruct Hs as (_ & Hds & _). unfold ds_base.
  rewrite paragraph_base by exact Hds.
  unfold wf_segment in Hds. change (2 ^ 16) with 65536 in Hds. lia.
Qed.

Lemma dsdx_addr_eq (r : kvm_regs) : dsdx_addr s r = ds_base s + DX r.
Proof. unfold dsdx_addr, DX. now rewrite land_ffff, u16_u32. Qed.

Lemma dsdx_addr_range (r : kvm_regs) : 0 <= dsdx_addr s r <= 0x10ffef.
Proof.
  rewrite dsdx_addr_eq.
  pose proof ds_base_range. pose proof (u16_range (rdx r)).
  unfold DX. lia.
Qed.

Lemma read_frame_some (m : memory) (r : kvm_regs) :
  read_frame m s r = Some (peek16 m (csip_ptr s r), peek16 m (csip_ptr s r + 2)).
Proof.
  pose proof (csip_ptr_range r).
  unfold read_frame, load16.
  rewrite !in_arena_true by lia. reflexivity.
Qed.

(** Every offset of the data segment, and the whole buffer DS:DX of CX
    bytes, are in the arena. *)
Lemma scan_in_arena (off : Z) : 0 <= off < 65536 -> in_arena (ds_base s + off) 1 = true.
Proof.
  intros Hoff. pose proof ds_base_range.
  apply in_arena_true; lia.
Qed.

Lemma buffer_in_arena (r : kvm_regs) : in_arena (dsdx_addr s r) (CX r) = true.
Proof.
  pose proof (dsdx_addr_range r).
  pose proof (u16_range (rcx r)). unfold CX.
  apply in_arena_true; lia.
Qed.

End RealModeAddresses.

Lemma peek16_range (m : memory) (a : Z) : 0 <= peek16 m a < 65536.
Proof.
  unfold peek16, peek8.
  pose proof (u8_range (m a)). pose proof (u8_range (m (a + 1))). lia.
Qed.

(** The magic-interrupt halt always reaches the handler chain, and its
    outcome is that of the chain followed by the return from interrupt. *)
Lemma handle_exit_int (h : host) (m : memory) (s : kvm_sregs) (r : kvm_regs) (n : Z) :
  wf_sregs s -> guest_int s r n ->
  handle_exit h KVM_EXIT_HLT m s r =
  return_from_interrupt s (peek16 m (csip_ptr s r)) (peek16 m (csip_ptr s r + 2))
    (int_handler h m s r n (ah_of r)).
Proof.
  intros Hs [Hmagic Hn]. unfold handle_exit. rewrite Hmagic.
  unfold dispatch_int. rewrite read_frame_some by exact Hs. now rewrite Hn.
Qed.

(** *** The scan of AH=0x09 *)

Lemma print_scan_total (m : memory) (p : Z) :
  (forall off, 0 <= off < 65536 -> in_arena (p + off) 1 = true) ->
  forall (fuel : nat) (dx0 : Z),
    0 <= dx0 < 65536 -> 65536 - dx0 <= Z.of_nat fuel ->
    (exists dx, first_dollar m p dx0 dx /\ print_scan m p fuel dx0 = ScanBreak dx) \/
    (no_dollar m p dx0 /\ print_scan m p fuel dx0 = ScanOverflow).
Proof.
  intros Hin. induction fuel as [| fuel IH]; intros dx0 Hdx Hfuel.
  - change (Z.of_nat 0) with 0 in Hfuel. lia.
  - cbn [print_scan]. unfold load8. rewrite Hin by exact Hdx.
    destruct (peek8 m (p + dx0) =? 36) eqn:Hc.
    + left. exists dx0. split; [| reflexivity].
      apply Z.eqb_eq in Hc. unfold first_dollar. change (2 ^ 16) with 65536.
      split; [lia | split; [exact Hc | intros k Hk; lia]].
    + apply Z.eqb_neq in Hc.
      destruct (Z.eq_dec dx0 65535) as [Hlast | Hmore].
      * right. subst dx0. split; [| reflexivity].
        unfold no_dollar. change (2 ^ 16) with 65536. intros k Hk.
        replace k with 65535 by lia. exact Hc.
      * rewrite (u16_small (dx0 + 1)) by lia.
        destruct (dx0 + 1 =? 0) eqn:Hz; [apply Z.eqb_eq in Hz; lia |].
        destruct (IH (dx0 + 1)) as [(dx & Hfd & Heq) | (Hno & Heq)]; try lia.
        -- left. exists dx. split; [| exact Heq].
           destruct Hfd as (Hr & Hd & Hbefore).
           unfold first_dollar. split; [lia | split; [exact Hd |]].
           intros k Hk. destruct (Z.eq_dec k dx0) as [-> | Hne]; [exact Hc |].
           apply Hbefore. lia.
        -- right. split; [| exact Heq].
           unfold no_dollar in *. intros k Hk.
           destruct (Z.eq_dec k dx0) as [-> | Hne]; [exact Hc |].
           apply Hno. lia.
Qed.

Lemma first_dollar_unique (m : memory) (p dx0 dx1 dx2 : Z) :
  first_dollar m p dx0 dx1 -> first_dollar m p dx0 dx2 -> dx1 = dx2.
Proof.
  intros (R1 & D1 & B1) (R2 & D2 & B2).
  destruct (Z.lt_trichotomy dx1 dx2) as [Hlt | [Heq | Hgt]]; [| exact Heq |].
  - exfalso. apply (B2 dx1); [lia | exact D1].
  - exfalso. apply (B1 dx2); [lia | exact D2].
Qed.

Lemma scan_fuel_enough (dx0 : Z) :
  0 <= dx0 < 65536 -> 65536 - dx0 <= Z.of_nat (scan_fuel dx0).
Proof. intros H. unfold scan_fuel. rewrite Z2Nat.id; lia. Qed.

Lemma int21_print_found (m : memory) (s : kvm_sregs) (r : kvm_regs) (dx : Z) :
  wf_sregs s -> first_dollar m (ds_base s) (DX r) dx ->
  int21_print m s r =
  Returns r m [EvWrite 1 (peek_bytes m (ds_base s + DX r) (dx - DX r))].
Proof.
  intros Hs Hfd. unfold int21_print. fold (DX r).
  pose proof (u16_range (rdx r)) as Hdx. fold (DX r) in Hdx.
  destruct (print_scan_total m (ds_base s) (scan_in_arena s Hs) (scan_fuel (DX r)) (DX r)
              Hdx (scan_fuel_enough (DX r) Hdx))
    as [(dx' & Hfd' & Heq) | (Hno & Heq)]; rewrite Heq.
  - rewrite (first_dollar_unique _ _ _ _ _ Hfd' Hfd).
    destruct Hfd as (Hr & _ & _). change (2 ^ 16) with 65536 in Hr.
    pose proof (ds_base_range s Hs).
    rewrite in_arena_true by lia. reflexivity.
  - exfalso. destruct Hfd as (Hr & Hd & _). exact (Hno dx ltac:(lia) Hd).
Qed.

Lemma int21_print_overflow (m : memory) (s : kvm_sregs) (r : kvm_regs) :
  wf_sregs s -> no_dollar m (ds_base s) (DX r) ->
  int21_print m s r = Exits 252 [EvStderr "fatal: !! offset overflow in print"].
Proof.
  intros Hs Hno. unfold int21_print. fold (DX r).
  pose proof (u16_range (rdx r)) as Hdx. fold (DX r) in Hdx.
  destruct (print_scan_total m (ds_base s) (scan_in_arena s Hs) (scan_fuel (DX r)) (DX r)
              Hdx (scan_fuel_enough (DX r) Hdx))
    as [(dx' & Hfd' & Heq) | (_ & Heq)]; rewrite Heq.
  - exfalso. destruct Hfd' as (Hr & Hd & _). exact (Hno dx' ltac:(lia) Hd).
  - reflexivity.
Qed.

Lemma int21_print_no_fault (m : memory) (s : kvm_sregs) (r : kvm_regs) :
  wf_sregs s -> int21_print m s r <> Faults.
Proof.
  intros Hs.
  pose proof (u16_range (rdx r)) as Hdx. fold (DX r) in Hdx.
  destruct (print_scan_total m (ds_base s) (scan_in_arena s Hs) (scan_fuel (DX r)) (DX r)
              Hdx (scan_fuel_enough (DX r) Hdx))
    as [(dx' & Hfd' & _) | (Hno & _)].
  - rewrite (int21_print_found m s r dx' Hs Hfd'). discriminate.
  - rewrite (int21_print_overflow m s r Hs Hno). discriminate.
Qed.

(** *** The handle services AH=0x40 and AH=0x3f *)

Lemma int21_write_bad_handle (h : host) (m : memory) (s : kvm_sregs) (r : kvm_regs) :
  4 < BX r ->
  int21_write h m s r = Returns (error_on_21 (set_rax r (store_lo16 (rax r) 6))) m [].
Proof.
  intros Hbx. unfold int21_write. fold (BX r).
  destruct (BX r >? 4) eqn:E; [reflexivity |].
  rewrite Z.gtb_ltb in E. apply Z.ltb_ge in E. lia.
Qed.

Lemma int21_write_call (h : host) (m : memory) (s : kvm_sregs) (r : kvm_regs) :
  wf_sregs s -> BX r <= 4 ->
  int21_write h m s r =
  let fd := map_handle (BX r) in
  let data := peek_bytes m (dsdx_addr s r) (CX r) in
  let got := host_write h fd data in
  Returns (if got <? 0 then error_on_21 (set_rax r (store_lo16 (rax r) 0x1d))
           else set_rax (set_rflags r (clear_cf (rflags r))) (store_lo16 (rax r) got))
          m [EvWrite fd data].
Proof.
  intros Hs Hbx. unfold int21_write. fold (BX r) (CX r).
  destruct (BX r >? 4) eqn:E.
  - rewrite Z.gtb_ltb in E. apply Z.ltb_lt in E. lia.
  - rewrite buffer_in_arena by exact Hs. cbv zeta.
    destruct (host_write h (map_handle (BX r)) (peek_bytes m (dsdx_addr s r) (CX r)) <? 0);
      reflexivity.
Qed.

Lemma int21_read_bad_handle (h : host) (m : memory) (s : kvm_sregs) (r : kvm_regs) :
  4 < BX r ->
  int21_read h m s r = Returns (error_on_21 (set_rax r (store_lo16 (rax r) 6))) m [].
Proof.
  intros Hbx. unfold int21_read. fold (BX r).
  destruct (BX r >? 4) eqn:E; [reflexivity |].
  rewrite Z.gtb_ltb in E. apply Z.ltb_ge in E. lia.
Qed.

Lemma int21_read_call (h : host) (m : memory) (s : kvm_sregs) (r : kvm_regs) :
  wf_sregs s -> BX r <= 4 ->
  int21_read h m s r =
  let fd := map_handle (BX r) in
  let got := fst (host_read h fd (CX r)) in
  let data := snd (host_read h fd (CX r)) in
  Returns (if got <? 0 then error_on_21 (set_rax r (store_lo16 (rax r) 0x1e))
           else set_rax (set_rflags r (clear_cf (rflags r))) (store_lo16 (rax r) got))
          (if got <? 0 then m
           else store_bytes m (dsdx_addr s r) (firstn (Z.to_nat got) data))
          [EvRead fd (CX r)].
Proof.
  intros Hs Hbx. unfold int21_read. fold (BX r) (CX r).
  destruct (BX r >? 4) eqn:E.
  - rewrite Z.gtb_ltb in E. apply Z.ltb_lt in E. lia.
  - rewrite buffer_in_arena by exact Hs. cbv zeta.
    destruct (host_read h (map_handle (BX r)) (CX r)) as [got data]. cbn [fst snd].
    destruct (got <? 0); reflexivity.
Qed.

Lemma map_handle_table (bx : Z) :
  0 <= bx <= 4 ->
  bx = 0 /\ map_handle bx = 0 \/ bx = 1 /\ map_handle bx = 1 \/
  bx = 2 /\ map_handle bx = 2 \/ bx = 3 /\ map_handle bx = 2 \/
  bx = 4 /\ map_handle bx = 0.
Proof.
  intros H.
  assert (bx = 0 \/ bx = 1 \/ bx = 2 \/ bx = 3 \/ bx = 4) as C by lia.
  destruct C as [-> | [-> | [-> | [-> | ->]]]]; cbv [map_handle Z.eqb]; tauto.
Qed.

(** *** No handler leaves the arena *)

Lemma int21_write_no_fault (h : host) (m : memory) (s : kvm_sregs) (r : kvm_regs) :
  wf_sregs s -> int21_write h m s r <> Faults.
Proof.
  intros Hs. destruct (Z_lt_le_dec 4 (BX r)) as [Hbad | Hok].
  - rewrite int21_write_bad_handle by exact Hbad. discriminate.
  - rewrite int21_write_call by assumption. discriminate.
Qed.

Lemma int21_read_no_fault (h : host) (m : memory) (s : kvm_sregs) (r : kvm_regs) :
  wf_sregs s -> int21_read h m s r <> Faults.
Proof.
  intros Hs. destruct (Z_lt_le_dec 4 (BX r)) as [Hbad | Hok].
  - rewrite int21_read_bad_handle by exact Hbad. discriminate.
  - rewrite int21_read_call by assumption. discriminate.
Qed.

Lemma int21_no_fault (h : host) (m : memory) (s : kvm_sregs) (r : kvm_regs) (ah : Z) :
  wf_sregs s -> int21 h m s r ah <> Faults.
Proof.
  intros Hs. unfold int21.
  repeat match goal with
         | |- context [if ?b then _ else _] => destruct b
         end;
    try discriminate.
  - now apply int21_write_no_fault.
  - now apply int21_read_no_fault.
  - now apply int21_print_no_fault.
Qed.

Lemma int_handler_no_fault (h : host) (m : memory) (s : kvm_sregs) (r : kvm_regs)
    (n ah : Z) :
  wf_sregs s -> int_handler h m s r n ah <> Faults.
Proof.
  intros Hs. unfold int_handler.
  destruct (n =? 0x29); [discriminate |].
  destruct (n =? 0x20); [discriminate |].
  destruct (n =? 0x21); [now apply int21_no_fault |].
  destruct (n =? 0x10); [destruct (ah =? 0x0e) |]; discriminate.
Qed.

Lemma handle_exit_no_fault (h : host) (reason : kvm_exit) (m : memory)
    (s : kvm_sregs) (r : kvm_regs) :
  wf_sregs s -> handle_exit h reason m s r <> Fault.
Proof.
  intros Hs. destruct reason; try discriminate.
  unfold handle_exit. destruct (is_magic_hlt s r); [| discriminate].
  unfold dispatch_int. rewrite read_frame_some by exact Hs.
  pose proof (int_handler_no_fault h m s r (int_num_of r) (ah_of r) Hs) as Hh.
  destruct (int_handler h m s r (int_num_of r) (ah_of r)); try discriminate.
  now elim Hh.
Qed.

(** *** Claims about the exit dispatcher *)

Ltac solve_wf :=
  unfold wf_sregs, wf_segment; cbv;
  repeat split; (reflexivity || (intro; discriminate)).

Lemma wf_sregs_in_int : wf_sregs sregs_in_int.
Proof. solve_wf. Qed.

Lemma guest_int_regs_in_int (n ax bx cx dx fl : Z) :
  0 <= n < 256 -> guest_int sregs_in_int (regs_in_int n ax bx cx dx fl) n.
Proof.
  intros Hn. unfold guest_int, is_magic_hlt, int_num_of, regs_in_int. cbn [rip cs sregs_in_int seg_of selector].
  rewrite (u32_small (n + 1)) by lia.
  replace (n + 1 - 1) with n by lia.
  rewrite (u32_small n) by lia. rewrite land_ff.
  split.
  - apply andb_true_intro. split; [reflexivity | apply Z.ltb_lt; lia].
  - words. apply Z.mod_small. lia.
Qed.

(** C3: for every register state with 16-bit selectors, the return frame
    at SS*16 + SP (six bytes), the CX-byte buffer at DS*16 + DX of
    AH=0x3f and AH=0x40, and every byte DS*16 + offset that the scan of
    AH=0x09 can touch lie inside the arena of 0x200000 bytes; hence no exit
    is ever served by an access outside the arena. *)
Theorem guest_accesses_stay_in_arena (h : host) (m : memory)
    (s : kvm_sregs) (r : kvm_regs) :
  wf_sregs s ->
  MEM_SIZE = 0x200000 /\
  csip_ptr s r = 16 * selector (ss s) + SP r /\
  (0 <= csip_ptr s r /\ csip_ptr s r + 6 <= MEM_SIZE) /\
  dsdx_addr s r = 16 * selector (ds s) + DX r /\
  (0 <= dsdx_addr s r /\ dsdx_addr s r + CX r <= MEM_SIZE) /\
  (forall off, 0 <= off < 2 ^ 16 ->
     0 <= 16 * selector (ds s) + off < MEM_SIZE /\
     in_arena (ds_base s + off) 1 = true) /\
  (forall reason, handle_exit h reason m s r <> Fault).
Proof.
  intros Hs.
  pose proof (csip_ptr_range s Hs r) as Hf.
  pose proof (dsdx_addr_range s Hs r) as Hb.
  pose proof (ds_base_range s Hs) as Hd.
  pose proof (u16_range (rcx r)) as Hcx. fold (CX r) in Hcx.
  assert (ds_base s = 16 * selector (ds s)) as Hds.
  { unfold ds_base. apply paragraph_base. apply Hs. }
  change MEM_SIZE with 2097152.
  split; [reflexivity |].
  split.
  { unfold csip_ptr, SP. rewrite paragraph_base by apply Hs.
    now rewrite land_ffff, u16_u32. }
  split; [lia |].
  split; [rewrite dsdx_addr_eq; lia |].
  split; [lia |].
  split.
  { intros off Hoff. change (2 ^ 16) with 65536 in Hoff.
    split; [lia | apply in_arena_true; lia]. }
  intros reason. now apply handle_exit_no_fault.
Qed.

Lemma guest_accesses_stay_in_arena_witness :
  wf_sregs sregs_in_int /\
  handle_exit host_ok KVM_EXIT_HLT mem_in_int sregs_in_int
    (regs_in_int 0x21 0x4000 1 0xffff 0xffff 2) <> Fault.
Proof.
  split; [exact wf_sregs_in_int |].
  apply (guest_accesses_stay_in_arena host_ok mem_in_int sregs_in_int
           (regs_in_int 0x21 0x4000 1 0xffff 0xffff 2) wf_sregs_in_int).
Defined.

(** The services that the dispatcher does not know end the process: an
    interrupt other than 0x29, 0x20, 0x21 and 0x10, and INT 10h with AH
    other than 0x0e, reach the label [exit]. *)
Lemma unrecognized_int_is_fatal (h : host) (m : memory) (s : kvm_sregs)
    (r : kvm_regs) (n : Z) :
  wf_sregs s -> guest_int s r n ->
  (n <> 0x29 /\ n <> 0x20 /\ n <> 0x21 /\ n <> 0x10) \/ (n = 0x10 /\ ah_of r <> 0x0e) ->
  handle_exit h KVM_EXIT_HLT m s r = exit_label [] /\
  exit_label [] = Exit 252 [EvClose; EvStderr "fatal: unexpected exit from KVM"].
Proof.
  intros Hs Hint Hn. split; [| reflexivity].
  rewrite (handle_exit_int h m s r n Hs Hint). unfold int_handler.
  destruct Hn as [(H1 & H2 & H3 & H4) | (-> & Hah)].
  - apply Z.eqb_neq in H1, H2, H3, H4. now rewrite H1, H2, H3, H4.
  - apply Z.eqb_neq in Hah. cbn. now rewrite Hah.
Qed.

Lemma int21_unlisted (h : host) (m : memory) (s : kvm_sregs) (r : kvm_regs) (ah : Z) :
  int21_listed ah = false -> int21 h m s r ah = Returns r m [].
Proof.
  unfold int21_listed, existsb. intros H.
  repeat (apply orb_false_elim in H; destruct H as [? H]).
  unfold int21.
  repeat match goal with
         | E : (ah =? _) = false |- _ => rewrite E; clear E
         end.
  reflexivity.
Qed.

(** C1 (what the code does where the claim fails): INT 21h with an AH that
    the [if] chain does not test for falls out of the chain, so the
    dispatcher returns to the guest with every register but CS, IP and SP
    untouched and without any host call, instead of ending the process
    with status 252. *)
Theorem int21_unlisted_ah_returns_to_guest (h : host) (m : memory)
    (s : kvm_sregs) (r : kvm_regs) :
  wf_sregs s -> guest_int s r 0x21 -> int21_listed (ah_of r) = false ->
  handle_exit h KVM_EXIT_HLT m s r =
  Resume (set_cs s (SET_SEGMENT_REG (peek16 m (csip_ptr s r + 2))))
         (iret_regs r (peek16 m (csip_ptr s r))) m [].
Proof.
  intros Hs Hint Hah.
  rewrite (handle_exit_int h m s r 0x21 Hs Hint).
  change (int_handler h m s r 33 (ah_of r)) with (int21 h m s r (ah_of r)).
  now rewrite int21_unlisted.
Qed.

Lemma int21_unlisted_ah_returns_to_guest_witness :
  let r := regs_in_int 0x21 0x0a00 0 0 0 2 in
  ah_of r = 0x0a /\
  handle_exit host_ok KVM_EXIT_HLT mem_in_int sregs_in_int r =
  Resume (set_cs sregs_in_int (SET_SEGMENT_REG (peek16 mem_in_int (csip_ptr sregs_in_int r + 2))))
         (iret_regs r (peek16 mem_in_int (csip_ptr sregs_in_int r))) mem_in_int [].
Proof.
  split; [reflexivity |].
  apply (int21_unlisted_ah_returns_to_guest host_ok mem_in_int sregs_in_int
           (regs_in_int 0x21 0x0a00 0 0 0 2) wf_sregs_in_int).
  - apply guest_int_regs_in_int. lia.
  - reflexivity.
Defined.

(** C6: INT 20h ends the host process with status 0, and INT 21h with
    AH=0x4c ends it with status AL, a value in [0, 256). *)
Theorem exit_code_mapping (h : host) (m : memory) (s : kvm_sregs) (r : kvm_regs) :
  wf_sregs s ->
  (guest_int s r 0x20 -> handle_exit h KVM_EXIT_HLT m s r = Exit 0 []) /\
  (guest_int s r 0x21 -> ah_of r = 0x4c ->
   handle_exit h KVM_EXIT_HLT m s r = Exit (AL r) [] /\ 0 <= AL r < 256).
Proof.
  intros Hs. split.
  - intros Hint. now rewrite (handle_exit_int h m s r 0x20 Hs Hint).
  - intros Hint Hah. split; [| apply u8_range].
    rewrite (handle_exit_int h m s r 0x21 Hs Hint), Hah.
    cbn. now rewrite land_ff, u8_u32.
Qed.

Lemma exit_code_mapping_witness :
  wf_sregs sregs_in_int /\
  handle_exit host_ok KVM_EXIT_HLT mem_in_int sregs_in_int
    (regs_in_int 0x20 0 0 0 0 2) = Exit 0 [] /\
  handle_exit host_ok KVM_EXIT_HLT mem_in_int sregs_in_int
    (regs_in_int 0x21 0x4c2a 0 0 0 2) = Exit 42 [] /\
  handle_exit host_ok KVM_EXIT_HLT mem_in_int sregs_in_int
    (regs_in_int 0x21 0x4c00 0 0 0 2) = Exit 0 [].
Proof.
  split; [exact wf_sregs_in_int |].
  split; [| split].
  - apply (proj1 (exit_code_mapping host_ok mem_in_int sregs_in_int
                    (regs_in_int 0x20 0 0 0 0 2) wf_sregs_in_int)).
    apply guest_int_regs_in_int. lia.
  - apply (proj2 (exit_code_mapping host_ok mem_in_int sregs_in_int
                    (regs_in_int 0x21 0x4c2a 0 0 0 2) wf_sregs_in_int)).
    + apply guest_int_regs_in_int. lia.
    + reflexivity.
  - apply (proj2 (exit_code_mapping host_ok mem_in_int sregs_in_int
                    (regs_in_int 0x21 0x4c00 0 0 0 2) wf_sregs_in_int)).
    + apply guest_int_regs_in_int. lia.
    + reflexivity.
Defined.

(** *** The synthesized interrupt return *)

Lemma load16_some (m : memory) (a v : Z) : load16 m a = Some v -> v = peek16 m a.
Proof. unfold load16. destruct (in_arena a 2); congruence. Qed.

Lemma read_frame_inv (m : memory) (s : kvm_sregs) (r : kvm_regs) (int_ip int_cs : Z) :
  read_frame m s r = Some (int_ip, int_cs) ->
  int_ip = peek16 m (csip_ptr s r) /\ int_cs = peek16 m (csip_ptr s r + 2).
Proof.
  unfold read_frame.
  destruct (load16 m (csip_ptr s r)) as [a |] eqn:Ea; [| discriminate].
  destruct (load16 m (csip_ptr s r + 2)) as [b |] eqn:Eb; [| discriminate].
  intros H. injection H as <- <-.
  split; now apply load16_some.
Qed.

Lemma read_frame_four_bytes (m m2 : memory) (s : kvm_sregs) (r : kvm_regs) :
  (forall a, csip_ptr s r <= a < csip_ptr s r + 4 -> m2 a = m a) ->
  read_frame m2 s r = read_frame m s r.
Proof.
  intros Hagree. unfold read_frame, load16, peek16, peek8.
  rewrite (Hagree (csip_ptr s r)) by lia.
  rewrite (Hagree (csip_ptr s r + 1)) by lia.
  rewrite (Hagree (csip_ptr s r + 2)) by lia.
  rewrite (Hagree (csip_ptr s r + 2 + 1)) by lia.
  reflexivity.
Qed.

(** A handler that returns leaves RSP alone and touches FLAGS at most
    through [error_on_21] or its CF=0 counterpart. *)
Lemma int_handler_flags (h : host) (m : memory) (s : kvm_sregs) (r : kvm_regs)
    (n ah : Z) (r1 : kvm_regs) (m1 : memory) (tr : list event) :
  int_handler h m s r n ah = Returns r1 m1 tr ->
  rsp r1 = rsp r /\
  (rflags r1 = rflags r \/ rflags r1 = set_cf (rflags r) \/
   rflags r1 = clear_cf (rflags r)).
Proof.
  unfold int_handler, int21, int21_write, int21_read, int21_print. intros H.
  repeat match type of H with
         | context [if ?b then _ else _] => destruct b
         | context [match ?x with _ => _ end] => destruct x
         end;
    try discriminate; injection H as <- <- <-; cbn; auto.
Qed.

(** C4: whenever the dispatcher resumes the guest, CS is the word at
    SS:SP+2 with base selector*16, IP is the word at SS:SP, the stack
    pointer has advanced by 6 (on the low 32 bits of RSP, hence on the
    16-bit SP), and FLAGS is what the handler left: every bit but the carry
    is the one the register had at the halt, whatever the frame holds; the
    frame read depends on the four bytes of IP and CS only.  The handler
    of the interrupt has returned some registers [r1], and the guest
    resumes with exactly these, IP and SP apart: its FLAGS register is the
    one of [r1], not the word the INT instruction pushed at SS:SP+4. *)
Theorem interrupt_return_frame (h : host) (reason : kvm_exit) (m : memory)
    (s : kvm_sregs) (r : kvm_regs) (s' : kvm_sregs) (r' : kvm_regs)
    (m' : memory) (tr : list event) :
  handle_exit h reason m s r = Resume s' r' m' tr ->
  let int_ip := peek16 m (csip_ptr s r) in
  let int_cs := peek16 m (csip_ptr s r + 2) in
  selector (cs s') = int_cs /\ base (cs s') = int_cs * 16 /\
  rip r' = int_ip /\
  rsp r' = store_lo32 (rsp r) (u32 (rsp r) + 6) /\
  SP r' = u16 (SP r + 6) /\
  (u32 (rsp r) + 6 < 2 ^ 32 -> rsp r' = rsp r + 6) /\
  (forall i, 0 < i -> Z.testbit (rflags r') i = Z.testbit (rflags r) i) /\
  (rflags r' = rflags r \/ rflags r' = set_cf (rflags r) \/
   rflags r' = clear_cf (rflags r)) /\
  (ds s', es s', fs s', gs s', ss s') = (ds s, es s, fs s, gs s, ss s) /\
  (forall m2, (forall a, csip_ptr s r <= a < csip_ptr s r + 4 -> m2 a = m a) ->
              read_frame m2 s r = read_frame m s r) /\
  s' = set_cs s (SET_SEGMENT_REG int_cs) /\
  (exists r1,
     int_handler h m s r (int_num_of r) (ah_of r) = Returns r1 m' tr /\
     r' = iret_regs r1 int_ip /\ rflags r' = rflags r1).
Proof.
  intros H int_ip int_cs.
  destruct reason; try discriminate H.
  unfold handle_exit in H.
  destruct (is_magic_hlt s r); [| discriminate H].
  unfold dispatch_int in H.
  assert (forall m2, (forall a, csip_ptr s r <= a < csip_ptr s r + 4 -> m2 a = m a) ->
                     read_frame m2 s r = read_frame m s r) as Hindep
      by (intros m2; apply read_frame_four_bytes).
  destruct (read_frame m s r) as [[ip0 cs0] |] eqn:Hframe; [| discriminate H].
  apply read_frame_inv in Hframe. destruct Hframe as [-> ->].
  fold int_ip int_cs in H.
  destruct (int_handler h m s r (int_num_of r) (ah_of r)) as [r1 m1 tr1 | | |] eqn:Hh;
    try discriminate H.
  cbn [return_from_interrupt] in H. injection H as <- <- <- <-.
  destruct (int_handler_flags _ _ _ _ _ _ _ _ _ Hh) as [Hsp Hfl].
  pose proof (peek16_range m (csip_ptr s r + 2)) as Hcs. fold int_cs in Hcs.
  unfold SP, iret_regs, set_cs, SET_SEGMENT_REG, set_rip, set_rsp.
  cbn [cs ds es fs gs ss selector base rip rsp rflags].
  rewrite (u16_small int_cs) by exact Hcs. rewrite Hsp.
  split; [reflexivity |].
  split; [rewrite Z.shiftl_mul_pow2 by lia; reflexivity |].
  split; [reflexivity |].
  split; [reflexivity |].
  split; [apply u16_advance_lo32 |].
  split; [apply advance_lo32_no_wrap |].
  split.
  { intros i Hi. destruct Hfl as [-> | [-> | ->]];
      [reflexivity | now apply set_cf_other_bits | now apply clear_cf_other_bits]. }
  split; [exact Hfl |].
  split; [reflexivity |].
  split; [exact Hindep |].
  split; [reflexivity |].
  exists r1. rewrite Hsp. split; [reflexivity |]. split; reflexivity.
Qed.

Lemma interrupt_return_frame_witness :
  (exists s' r' m' tr,
     handle_exit host_ok KVM_EXIT_HLT mem_in_int sregs_in_int
       (regs_in_int 0x21 0x3000 0 0 0 3) = Resume s' r' m' tr /\
     peek16 mem_in_int 0x10ffc = 0x0203 /\
     selector (cs s') = 0x5678 /\ base (cs s') = 0x56780 /\
     rip r' = 0x1234 /\ rsp r' = 0xfffe /\ rflags r' = 3) /\
  (exists s' r' m' tr r1,
     handle_exit host_ok KVM_EXIT_HLT mem_in_int sregs_in_int
       (regs_in_int 0x21 0x3000 0 0 0 2) = Resume s' r' m' tr /\
     CF (peek16 mem_in_int (csip_ptr sregs_in_int (regs_in_int 0x21 0x3000 0 0 0 2) + 4))
       = true /\
     int_handler host_ok mem_in_int sregs_in_int (regs_in_int 0x21 0x3000 0 0 0 2)
       0x21 0x30 = Returns r1 m' tr /\
     rflags r1 = 2 /\ rflags r' = rflags r1 /\ CF (rflags r') = false).
Proof.
  split.
  - eexists _, _, _, _.
    split; [reflexivity |].
    split; [reflexivity |].
    pose proof (interrupt_return_frame host_ok KVM_EXIT_HLT mem_in_int sregs_in_int
                  (regs_in_int 0x21 0x3000 0 0 0 3) _ _ _ _ eq_refl) as H.
    cbv zeta in H.
    destruct H as (Hsel & Hbase & Hip & Hsp & _).
    repeat split; (exact Hsel || exact Hbase || exact Hip || exact Hsp || reflexivity).
  - pose proof (interrupt_return_frame host_ok KVM_EXIT_HLT mem_in_int sregs_in_int
                  (regs_in_int 0x21 0x3000 0 0 0 2) _ _ _ _ eq_refl) as H.
    cbv zeta in H.
    destruct H as (_ & _ & _ & _ & _ & _ & _ & _ & _ & _ & _ & r1 & Hh & _ & Hfl).
    eexists _, _, _, _, r1.
    split; [reflexivity |].
    split; [reflexivity |].
    split; [exact Hh |].
    assert (rflags r1 = 2) as Hr1 by (rewrite <- Hfl; reflexivity).
    split; [exact Hr1 |].
    split; [exact Hfl |].
    reflexivity.
Defined.

(** *** Byte lists read from guest memory *)

Lemma length_peek_list (m : memory) (n : nat) (a : Z) :
  List.length (peek_list m a n) = n.
Proof.
  revert a. induction n as [| n IH]; intros a; cbn; [reflexivity |].
  now rewrite IH.
Qed.

Lemma length_peek_bytes (m : memory) (a n : Z) :
  0 <= n -> Z.of_nat (List.length (peek_bytes m a n)) = n.
Proof.
  intros Hn. unfold peek_bytes. rewrite length_peek_list. now apply Z2Nat.id.
Qed.

Lemma nth_peek_list (m : memory) (n i : nat) (a : Z) :
  (i < n)%nat -> nth i (peek_list m a n) 0 = peek8 m (a + Z.of_nat i).
Proof.
  revert i a. induction n as [| n IH]; intros i a Hi; [inversion Hi |].
  destruct i as [| i]; cbn [peek_list nth].
  - now rewrite Z.add_0_r.
  - rewrite IH by (apply PeanoNat.lt_S_n; exact Hi).
    f_equal. lia.
Qed.

Lemma nth_peek_bytes (m : memory) (a n i : Z) :
  0 <= i < n -> nth (Z.to_nat i) (peek_bytes m a n) 0 = peek8 m (a + i).
Proof.
  intros Hi. unfold peek_bytes.
  rewrite nth_peek_list by (apply Z2Nat.inj_lt; lia).
  now rewrite Z2Nat.id by lia.
Qed.

(** C8: AH=0x09 scans from DS:DX to the first ['$'] and asks the host to
    write to standard output exactly the bytes before it (one [write] on
    fd 1, [dx - DX] bytes, the bytes of guest memory from DS:DX on), then
    returns to the guest; with DX=0 and the ['$'] at 0xffff that is 0xffff
    bytes; with no ['$'] up to offset 0xffff the process ends with status
    252 and no [write] is issued. *)
Theorem print_string_until_dollar (h : host) (m : memory)
    (s : kvm_sregs) (r : kvm_regs) :
  wf_sregs s -> guest_int s r 0x21 -> ah_of r = 0x09 ->
  (forall dx, first_dollar m (ds_base s) (DX r) dx ->
     let data := peek_bytes m (ds_base s + DX r) (dx - DX r) in
     handle_exit h KVM_EXIT_HLT m s r =
       Resume (set_cs s (SET_SEGMENT_REG (peek16 m (csip_ptr s r + 2))))
              (iret_regs r (peek16 m (csip_ptr s r))) m [EvWrite 1 data] /\
     Z.of_nat (List.length data) = dx - DX r /\
     (forall i, 0 <= i < dx - DX r ->
        nth (Z.to_nat i) data 0 = peek8 m (ds_base s + DX r + i)) /\
     (DX r = 0 -> dx = 0xffff -> Z.of_nat (List.length data) = 0xffff)) /\
  (no_dollar m (ds_base s) (DX r) ->
     handle_exit h KVM_EXIT_HLT m s r =
       Exit 252 [EvStderr "fatal: !! offset overflow in print"]).
Proof.
  intros Hs Hint Hah.
  rewrite (handle_exit_int h m s r 0x21 Hs Hint), Hah.
  change (int_handler h m s r 33 9) with (int21_print m s r).
  split.
  - intros dx Hfd data.
    rewrite (int21_print_found m s r dx Hs Hfd).
    destruct Hfd as (Hr & _ & _).
    assert (Z.of_nat (List.length data) = dx - DX r) as Hlen
        by (apply length_peek_bytes; lia).
    split; [reflexivity |].
    split; [exact Hlen |].
    split; [intros i Hi; now apply nth_peek_bytes |].
    intros H0 Hff. rewrite Hlen. lia.
  - intros Hno. now rewrite (int21_print_overflow m s r Hs Hno).
Qed.

Lemma first_dollar_at_segment_end : first_dollar mem_dollar_last 0x1000 0 0xffff.
Proof.
  split; [split; [discriminate | reflexivity] |].
  split; [reflexivity |].
  intros k Hk. unfold peek8, mem_dollar_last, store8.
  destruct (0x1000 + k =? 0x10fff) eqn:E; [apply Z.eqb_eq in E; lia | discriminate].
Qed.

Lemma print_string_until_dollar_witness :
  wf_sregs sregs_in_int /\
  handle_exit host_ok KVM_EXIT_HLT mem_in_int sregs_in_int
    (regs_in_int 0x21 0x0900 0 0 0x200 2) =
  Resume (set_cs sregs_in_int (SET_SEGMENT_REG 0x5678))
         (iret_regs (regs_in_int 0x21 0x0900 0 0 0x200 2) 0x1234)
         mem_in_int [EvWrite 1 [72; 105]] /\
  (exists s' r',
     handle_exit host_ok KVM_EXIT_HLT mem_dollar_last sregs_in_int
       (regs_in_int 0x21 0x0900 0 0 0 2) =
     Resume s' r' mem_dollar_last [EvWrite 1 (peek_bytes mem_dollar_last 0x1000 0xffff)] /\
     Z.of_nat (List.length (peek_bytes mem_dollar_last 0x1000 0xffff)) = 0xffff) /\
  handle_exit host_ok KVM_EXIT_HLT zero_memory sregs_in_int
    (regs_in_int 0x21 0x0900 0 0 0xfffe 2) =
  Exit 252 [EvStderr "fatal: !! offset overflow in print"].
Proof.
  split; [exact wf_sregs_in_int |].
  split; [| split].
  - refine (proj1 (proj1 (print_string_until_dollar host_ok mem_in_int sregs_in_int
                     (regs_in_int 0x21 0x0900 0 0 0x200 2) wf_sregs_in_int _ _)
                     0x202 _)).
    + apply guest_int_regs_in_int. lia.
    + reflexivity.
    + split; [split; [discriminate | reflexivity] |].
      split; [reflexivity |].
      change (DX (regs_in_int 33 2304 0 0 512 2)) with 512.
      intros k Hk.
      assert (k = 512 \/ k = 513) as [-> | ->] by lia; discriminate.
  - destruct (proj1 (print_string_until_dollar host_ok mem_dollar_last sregs_in_int
                       (regs_in_int 0x21 0x0900 0 0 0 2) wf_sregs_in_int
                       (guest_int_regs_in_int 0x21 0x0900 0 0 0 2 ltac:(lia)) eq_refl)
                0xffff first_dollar_at_segment_end)
      as (Heq & _ & _ & Hfull).
    eexists _, _. split; [exact Heq |].
    exact (Hfull eq_refl eq_refl).
  - refine (proj2 (print_string_until_dollar host_ok zero_memory sregs_in_int
                     (regs_in_int 0x21 0x0900 0 0 0xfffe 2) wf_sregs_in_int _ _) _).
    + apply guest_int_regs_in_int. lia.
    + reflexivity.
    + change (DX (regs_in_int 33 2304 0 0 65534 2)) with 65534.
      intros k Hk. discriminate.
Defined.

(** *** Register effects of the handle services *)

Lemma error_on_21_regs (r : kvm_regs) (code : Z) :
  let r' := error_on_21 (set_rax r (store_lo16 (rax r) code)) in
  AX r' = u16 code /\ CF (rflags r') = true.
Proof.
  cbv zeta. unfold AX, error_on_21, set_rflags, set_rax. cbn [rax rflags].
  split; [apply u16_store_lo16 | apply CF_set_cf].
Qed.

Lemma success_regs (r : kvm_regs) (got : Z) :
  let r' := set_rax (set_rflags r (clear_cf (rflags r))) (store_lo16 (rax r) got) in
  AX r' = u16 got /\ CF (rflags r') = false.
Proof.
  cbv zeta. unfold AX, set_rflags, set_rax. cbn [rax rflags].
  split; [apply u16_store_lo16 | apply CF_clear_cf].
Qed.

Lemma return_resume_inv (s : kvm_sregs) (int_ip int_cs : Z) (hd : handled)
    (s' : kvm_sregs) (r' : kvm_regs) (m' : memory) (tr : list event) :
  return_from_interrupt s int_ip int_cs hd = Resume s' r' m' tr ->
  exists r1, hd = Returns r1 m' tr /\ r' = iret_regs r1 int_ip.
Proof.
  destruct hd as [r1 m1 tr1 | | |]; cbn; try discriminate.
  intros H. injection H as <- <- <- <-. now exists r1.
Qed.

Lemma rflags_iret_regs (r : kvm_regs) (int_ip : Z) : rflags (iret_regs r int_ip) = rflags r.
Proof. reflexivity. Qed.

Lemma AX_iret_regs (r : kvm_regs) (int_ip : Z) : AX (iret_regs r int_ip) = AX r.
Proof. reflexivity. Qed.

Lemma int21_print_keeps_regs (m : memory) (s : kvm_sregs) (r : kvm_regs)
    (r1 : kvm_regs) (m1 : memory) (tr : list event) :
  int21_print m s r = Returns r1 m1 tr -> r1 = r.
Proof.
  unfold int21_print.
  destruct (print_scan m (ds_base s) (scan_fuel (u16 (rdx r))) (u16 (rdx r)));
    try discriminate.
  destruct (in_arena (ds_base s + u16 (rdx r)) (dx - u16 (rdx r))); try discriminate.
  intros H. now injection H as <- _ _.
Qed.

(** The services that report no error leave FLAGS as it was at the halt. *)
Lemma int21_char_services_keep_flags (h : host) (m : memory) (s : kvm_sregs)
    (r : kvm_regs) (ah : Z) (r1 : kvm_regs) (m1 : memory) (tr : list event) :
  In ah [0x04; 0x05; 0x06; 0x09; 0x30] ->
  int21 h m s r ah = Returns r1 m1 tr -> rflags r1 = rflags r.
Proof.
  intros Hah H.
  destruct Hah as [<- | [<- | [<- | [<- | [<- | []]]]]].
  - change (int21 h m s r 4) with (Returns r m (put_char 2 (u8 (rdx r)))) in H.
    now injection H as <- _ _.
  - change (int21 h m s r 5) with (Returns r m (put_char 1 (u8 (rdx r)))) in H.
    now injection H as <- _ _.
  - change (int21 h m s r 6)
      with (if negb (u8 (rdx r) =? 0xff)
            then Returns r m (put_char 1 (u8 (rdx r))) else Returns r m []) in H.
    destruct (negb (u8 (rdx r) =? 0xff)); now injection H as <- _ _.
  - change (int21 h m s r 9) with (int21_print m s r) in H.
    now rewrite (int21_print_keeps_regs m s r r1 m1 tr H).
  - unfold int21 in H. cbn [Z.eqb Pos.eqb andb] in H.
    now injection H as <- _ _.
Qed.

Lemma write_bad_handle_regs (h : host) (m : memory) (s : kvm_sregs) (r : kvm_regs) :
  4 < BX r ->
  exists r', int21_write h m s r = Returns r' m [] /\
             AX r' = 6 /\ CF (rflags r') = true.
Proof.
  intros Hbx. rewrite int21_write_bad_handle by exact Hbx.
  eexists. split; [reflexivity |]. apply (error_on_21_regs r 6).
Qed.

Lemma read_bad_handle_regs (h : host) (m : memory) (s : kvm_sregs) (r : kvm_regs) :
  4 < BX r ->
  exists r', int21_read h m s r = Returns r' m [] /\
             AX r' = 6 /\ CF (rflags r') = true.
Proof.
  intros Hbx. rewrite int21_read_bad_handle by exact Hbx.
  eexists. split; [reflexivity |]. apply (error_on_21_regs r 6).
Qed.

Lemma write_call_regs (h : host) (m : memory) (s : kvm_sregs) (r : kvm_regs) :
  wf_sregs s -> BX r <= 4 ->
  let data := peek_bytes m (dsdx_addr s r) (CX r) in
  let got := write_result h m s r in
  exists r',
    int21_write h m s r = Returns r' m [EvWrite (map_handle (BX r)) data] /\
    (got < 0 -> AX r' = 0x1d /\ CF (rflags r') = true) /\
    (0 <= got -> AX r' = u16 got /\ CF (rflags r') = false).
Proof.
  intros Hs Hbx data got. rewrite int21_write_call by assumption. cbv zeta.
  change (host_write h (map_handle (BX r)) (peek_bytes m (dsdx_addr s r) (CX r)))
    with got.
  change (peek_bytes m (dsdx_addr s r) (CX r)) with data.
  destruct (got <? 0) eqn:Hgot; [apply Z.ltb_lt in Hgot | apply Z.ltb_ge in Hgot];
    eexists; (split; [reflexivity |]).
  - split; [intros _; apply (error_on_21_regs r 0x1d) | lia].
  - split; [lia | intros _; apply (success_regs r got)].
Qed.

Lemma read_call_regs (h : host) (m : memory) (s : kvm_sregs) (r : kvm_regs) :
  wf_sregs s -> BX r <= 4 ->
  let got := read_result h r in
  exists r' m',
    int21_read h m s r = Returns r' m' [EvRead (map_handle (BX r)) (CX r)] /\
    (got < 0 -> AX r' = 0x1e /\ CF (rflags r') = true /\ m' = m) /\
    (0 <= got -> AX r' = u16 got /\ CF (rflags r') = false).
Proof.
  intros Hs Hbx got. rewrite int21_read_call by assumption. cbv zeta.
  change (fst (host_read h (map_handle (BX r)) (CX r))) with got.
  destruct (got <? 0) eqn:Hgot; [apply Z.ltb_lt in Hgot | apply Z.ltb_ge in Hgot];
    eexists _, _; (split; [reflexivity |]).
  - split; [intros _ | lia].
    destruct (error_on_21_regs r 0x1e) as [Hax Hcf]. now repeat split.
  - split; [lia | intros _; apply (success_regs r got)].
Qed.

(** C5: AH=0x40 and AH=0x3f.  A handle above 4 gives AX=6 and CF=1 with no
    host call; otherwise one [write] (or [read]) of CX bytes at DS:DX is
    issued, a negative answer gives AX=0x1d (0x1e for [read]) and CF=1, and
    any other answer gives CF=0 and AX the number of bytes transferred.
    With CX=0 the [write] carries no byte and AX=0, CF=0 on success. *)
Theorem handle_io_results (h : host) (m : memory) (s : kvm_sregs) (r : kvm_regs) :
  wf_sregs s ->
  (4 < BX r ->
     exists r', int_handler h m s r 0x21 0x40 = Returns r' m [] /\
                AX r' = 6 /\ CF (rflags r') = true) /\
  (BX r <= 4 ->
     let data := peek_bytes m (dsdx_addr s r) (CX r) in
     let got := write_result h m s r in
     exists r',
       int_handler h m s r 0x21 0x40 = Returns r' m [EvWrite (map_handle (BX r)) data] /\
       Z.of_nat (List.length data) = CX r /\
       (got < 0 -> AX r' = 0x1d /\ CF (rflags r') = true) /\
       (0 <= got -> AX r' = u16 got /\ CF (rflags r') = false) /\
       (0 <= got <= CX r -> AX r' = got) /\
       (CX r = 0 -> data = [] /\ (0 <= got <= CX r -> AX r' = 0 /\ CF (rflags r') = false))) /\
  (4 < BX r ->
     exists r', int_handler h m s r 0x21 0x3f = Returns r' m [] /\
                AX r' = 6 /\ CF (rflags r') = true) /\
  (BX r <= 4 ->
     let got := read_result h r in
     exists r' m',
       int_handler h m s r 0x21 0x3f = Returns r' m' [EvRead (map_handle (BX r)) (CX r)] /\
       (got < 0 -> AX r' = 0x1e /\ CF (rflags r') = true /\ m' = m) /\
       (0 <= got -> AX r' = u16 got /\ CF (rflags r') = false) /\
       (0 <= got <= CX r -> AX r' = got)).
Proof.
  intros Hs.
  pose proof (u16_range (rcx r)) as Hcx. fold (CX r) in Hcx.
  change (int_handler h m s r 33 64) with (int21_write h m s r).
  change (int_handler h m s r 33 63) with (int21_read h m s r).
  split; [| split; [| split]].
  - apply write_bad_handle_regs.
  - intros Hbx data got.
    destruct (write_call_regs h m s r Hs Hbx) as (r' & Heq & Hfail & Hsucc).
    fold data got in Heq, Hfail, Hsucc.
    assert (Z.of_nat (List.length data) = CX r) as Hlen
        by (apply length_peek_bytes; lia).
    exists r'. split; [exact Heq |]. split; [exact Hlen |].
    split; [exact Hfail |]. split; [exact Hsucc |].
    split.
    + intros Hr. destruct (Hsucc (proj1 Hr)) as [-> _]. apply u16_small. lia.
    + intros H0. split; [subst data; now rewrite H0 |].
      intros Hr. destruct (Hsucc (proj1 Hr)) as [-> Hcf]. split; [| exact Hcf].
      replace got with 0 by lia. reflexivity.
  - apply read_bad_handle_regs.
  - intros Hbx got.
    destruct (read_call_regs h m s r Hs Hbx) as (r' & m' & Heq & Hfail & Hsucc).
    fold got in Hfail, Hsucc.
    exists r', m'. split; [exact Heq |]. split; [exact Hfail |].
    split; [exact Hsucc |].
    intros Hr. destruct (Hsucc (proj1 Hr)) as [-> _]. apply u16_small. lia.
Qed.

Lemma handle_io_results_witness :
  wf_sregs sregs_in_int /\
  (exists r',
     int_handler host_ok mem_in_int sregs_in_int
       (regs_in_int 0x21 0x4000 9 1 0x200 2) 0x21 0x40 = Returns r' mem_in_int [] /\
     AX r' = 6 /\ CF (rflags r') = true) /\
  (exists r',
     int_handler host_ok mem_in_int sregs_in_int
       (regs_in_int 0x21 0x4000 1 0 0x200 3) 0x21 0x40 =
       Returns r' mem_in_int [EvWrite 1 []] /\
     AX r' = 0 /\ CF (rflags r') = false) /\
  (exists r',
     int_handler host_failing mem_in_int sregs_in_int
       (regs_in_int 0x21 0x3f00 0 2 0x200 2) 0x21 0x3f =
       Returns r' mem_in_int [EvRead 0 2] /\
     AX r' = 0x1e /\ CF (rflags r') = true).
Proof.
  split; [exact wf_sregs_in_int |].
  split; [| split].
  - apply (proj1 (handle_io_results host_ok mem_in_int sregs_in_int
                    (regs_in_int 0x21 0x4000 9 1 0x200 2) wf_sregs_in_int)).
    reflexivity.
  - destruct (proj1 (proj2 (handle_io_results host_ok mem_in_int sregs_in_int
                              (regs_in_int 0x21 0x4000 1 0 0x200 3) wf_sregs_in_int)))
      as (r' & Heq & _ & _ & _ & _ & Hzero).
    { vm_compute. discriminate. }
    exists r'. split; [exact Heq |].
    destruct (Hzero eq_refl) as [_ Hok]. apply Hok.
    vm_compute. split; discriminate.
  - destruct (proj2 (proj2 (proj2 (handle_io_results host_failing mem_in_int sregs_in_int
                              (regs_in_int 0x21 0x3f00 0 2 0x200 2) wf_sregs_in_int))))
      as (r' & m' & Heq & Hfail & _).
    { vm_compute. discriminate. }
    destruct Hfail as (Hax & Hcf & ->); [reflexivity |].
    exists r'. split; [exact Heq | split; [exact Hax | exact Hcf]].
Defined.

(** C7: for AH=0x40 and AH=0x3f alike, a handle of at most 4 reaches the
    host as fd 0, 1, 2 for handles 0, 1, 2, as fd 2 for handle 3 and as
    fd 0 for handle 4. *)
Theorem dos_handle_to_host_fd (h : host) (m : memory) (s : kvm_sregs) (r : kvm_regs) :
  wf_sregs s -> guest_int s r 0x21 -> BX r <= 4 ->
  exists fd,
    (BX r = 0 /\ fd = 0 \/ BX r = 1 /\ fd = 1 \/ BX r = 2 /\ fd = 2 \/
     BX r = 3 /\ fd = 2 \/ BX r = 4 /\ fd = 0) /\
    (ah_of r = 0x40 ->
       exists s' r' m',
         handle_exit h KVM_EXIT_HLT m s r =
         Resume s' r' m' [EvWrite fd (peek_bytes m (dsdx_addr s r) (CX r))]) /\
    (ah_of r = 0x3f ->
       exists s' r' m',
         handle_exit h KVM_EXIT_HLT m s r = Resume s' r' m' [EvRead fd (CX r)]).
Proof.
  intros Hs Hint Hbx.
  pose proof (u16_range (rbx r)) as Hr. fold (BX r) in Hr.
  exists (map_handle (BX r)).
  split; [apply map_handle_table; lia |].
  rewrite (handle_exit_int h m s r 0x21 Hs Hint).
  split; intros ->.
  - change (int_handler h m s r 33 64) with (int21_write h m s r).
    rewrite int21_write_call by assumption. cbv zeta.
    cbn [return_from_interrupt]. now eexists _, _, _.
  - change (int_handler h m s r 33 63) with (int21_read h m s r).
    rewrite int21_read_call by assumption. cbv zeta.
    cbn [return_from_interrupt]. now eexists _, _, _.
Qed.

Lemma dos_handle_to_host_fd_witness :
  wf_sregs sregs_in_int /\
  exists s' r' m',
    handle_exit host_ok KVM_EXIT_HLT mem_in_int sregs_in_int
      (regs_in_int 0x21 0x4000 4 2 0x200 2) =
    Resume s' r' m' [EvWrite 0 [72; 105]].
Proof.
  split; [exact wf_sregs_in_int |].
  destruct (dos_handle_to_host_fd host_ok mem_in_int sregs_in_int
              (regs_in_int 0x21 0x4000 4 2 0x200 2) wf_sregs_in_int)
    as (fd & Htable & Hwrite & _).
  - apply guest_int_regs_in_int. lia.
  - vm_compute. discriminate.
  - change (BX (regs_in_int 33 16384 4 2 512 2)) with 4 in Htable.
    destruct Htable as [[E _] | [[E _] | [[E _] | [[E _] | [_ ->]]]]];
      try discriminate E.
    apply Hwrite. reflexivity.
Defined.

(** C2 fails for the services that report no error: AH=0x30 completes
    (AX=5 on return) with the carry still set when the guest had it set
    at the INT. *)
Lemma get_version_leaves_carry_set :
  exists s' r' m' tr,
    handle_exit host_ok KVM_EXIT_HLT mem_in_int sregs_in_int
      (regs_in_int 0x21 0x3000 0 0 0 3) = Resume s' r' m' tr /\
    AX r' = 5 /\ CF (rflags r') = true.
Proof. eexists _, _, _, _. split; [reflexivity | split; reflexivity]. Qed.

(** C2 as amended: on return from AH=0x40 and AH=0x3f the carry is 0 after
    a transfer and 1 with AX the DOS error code after an error (6 for a
    handle above 4, 0x1d for a failed write, 0x1e for a failed read),
    whatever FLAGS held at the INT; AH=0x04, 0x05, 0x06, 0x09 and 0x30
    return with FLAGS as it was at the halt. *)
Theorem int21_carry_flag (h : host) (m : memory) (s : kvm_sregs) (r : kvm_regs) :
  wf_sregs s -> guest_int s r 0x21 ->
  (ah_of r = 0x40 ->
     exists s' r' m' tr,
       handle_exit h KVM_EXIT_HLT m s r = Resume s' r' m' tr /\
       (4 < BX r -> CF (rflags r') = true /\ AX r' = 6) /\
       (BX r <= 4 -> write_result h m s r < 0 -> CF (rflags r') = true /\ AX r' = 0x1d) /\
       (BX r <= 4 -> 0 <= write_result h m s r -> CF (rflags r') = false)) /\
  (ah_of r = 0x3f ->
     exists s' r' m' tr,
       handle_exit h KVM_EXIT_HLT m s r = Resume s' r' m' tr /\
       (4 < BX r -> CF (rflags r') = true /\ AX r' = 6) /\
       (BX r <= 4 -> read_result h r < 0 -> CF (rflags r') = true /\ AX r' = 0x1e) /\
       (BX r <= 4 -> 0 <= read_result h r -> CF (rflags r') = false)) /\
  (In (ah_of r) [0x04; 0x05; 0x06; 0x09; 0x30] ->
     forall s' r' m' tr,
       handle_exit h KVM_EXIT_HLT m s r = Resume s' r' m' tr ->
       rflags r' = rflags r /\ CF (rflags r') = CF (rflags r)).
Proof.
  intros Hs Hint.
  rewrite (handle_exit_int h m s r 0x21 Hs Hint).
  split; [| split].
  - intros ->. change (int_handler h m s r 33 64) with (int21_write h m s r).
    destruct (Z_lt_le_dec 4 (BX r)) as [Hbad | Hok].
    + destruct (write_bad_handle_regs h m s r Hbad) as (r1 & -> & Hax & Hcf).
      cbn [return_from_interrupt]. eexists _, _, _, _. split; [reflexivity |].
      rewrite rflags_iret_regs, AX_iret_regs.
      split; [now intros _ |]. split; intros; lia.
    + destruct (write_call_regs h m s r Hs Hok) as (r1 & -> & Hfail & Hsucc).
      cbn [return_from_interrupt]. eexists _, _, _, _. split; [reflexivity |].
      rewrite rflags_iret_regs, AX_iret_regs.
      split; [intros; lia |].
      split; [intros _ Hneg; destruct (Hfail Hneg); now split |].
      intros _ Hpos. now destruct (Hsucc Hpos).
  - intros ->. change (int_handler h m s r 33 63) with (int21_read h m s r).
    destruct (Z_lt_le_dec 4 (BX r)) as [Hbad | Hok].
    + destruct (read_bad_handle_regs h m s r Hbad) as (r1 & -> & Hax & Hcf).
      cbn [return_from_interrupt]. eexists _, _, _, _. split; [reflexivity |].
      rewrite rflags_iret_regs, AX_iret_regs.
      split; [now intros _ |]. split; intros; lia.
    + destruct (read_call_regs h m s r Hs Hok) as (r1 & m1 & -> & Hfail & Hsucc).
      cbn [return_from_interrupt]. eexists _, _, _, _. split; [reflexivity |].
      rewrite rflags_iret_regs, AX_iret_regs.
      split; [intros; lia |].
      split; [intros _ Hneg; destruct (Hfail Hneg) as (? & ? & _); now split |].
      intros _ Hpos. now destruct (Hsucc Hpos).
  - intros Hah s' r' m' tr Hres.
    apply return_resume_inv in Hres. destruct Hres as (r1 & Hh & ->).
    change (int_handler h m s r 33 (ah_of r)) with (int21 h m s r (ah_of r)) in Hh.
    rewrite rflags_iret_regs.
    rewrite (int21_char_services_keep_flags h m s r (ah_of r) r1 m' tr Hah Hh).
    now split.
Qed.

Lemma int21_carry_flag_witness :
  wf_sregs sregs_in_int /\
  (forall s' r' m' tr,
     handle_exit host_ok KVM_EXIT_HLT mem_in_int sregs_in_int
       (regs_in_int 0x21 0x3000 0 0 0 3) = Resume s' r' m' tr ->
     rflags r' = 3 /\ CF (rflags r') = true) /\
  (exists s' r' m' tr,
     handle_exit host_ok KVM_EXIT_HLT mem_in_int sregs_in_int
       (regs_in_int 0x21 0x4000 1 2 0x200 3) = Resume s' r' m' tr /\
     CF (rflags r') = false).
Proof.
  split; [exact wf_sregs_in_int |].
  split.
  - apply (proj2 (proj2 (int21_carry_flag host_ok mem_in_int sregs_in_int
                           (regs_in_int 0x21 0x3000 0 0 0 3) wf_sregs_in_int
                           (guest_int_regs_in_int 0x21 0x3000 0 0 0 3 ltac:(lia))))).
    vm_compute. tauto.
  - destruct (proj1 (int21_carry_flag host_ok mem_in_int sregs_in_int
                       (regs_in_int 0x21 0x4000 1 2 0x200 3) wf_sregs_in_int
                       (guest_int_regs_in_int 0x21 0x4000 1 2 0x200 3 ltac:(lia)))
                eq_refl)
      as (s' & r' & m' & tr & Heq & _ & _ & Hok).
    exists s', r', m', tr. split; [exact Heq |].
    apply Hok; vm_compute; discriminate.
Defined.

(** *** Stores into guest memory *)

Lemma store8_same (m : memory) (a v : Z) : store8 m a v a = u8 v.
Proof. unfold store8. now rewrite Z.eqb_refl. Qed.

Lemma store8_other (m : memory) (a v x : Z) : x <> a -> store8 m a v x = m x.
Proof. intros H. unfold store8. apply Z.eqb_neq in H. now rewrite H. Qed.

Lemma store16_other (m : memory) (a v x : Z) :
  x < a \/ a + 2 <= x -> store16 m a v x = m x.
Proof. intros H. unfold store16. rewrite !store8_other by lia. reflexivity. Qed.

Lemma store32_other (m : memory) (a v x : Z) :
  x < a \/ a + 4 <= x -> store32 m a v x = m x.
Proof. intros H. unfold store32. rewrite !store16_other by lia. reflexivity. Qed.

Lemma store_bytes_outside (bs : list Z) (m : memory) (a x : Z) :
  x < a \/ a + Z.of_nat (List.length bs) <= x -> store_bytes m a bs x = m x.
Proof.
  revert m a. induction bs as [| b bs IH]; intros m a H; [reflexivity |].
  cbn [store_bytes]. cbn [List.length] in H.
  rewrite IH by lia. apply store8_other. lia.
Qed.

Lemma peek_list_ext (m1 m2 : memory) (n : nat) (a : Z) :
  (forall x, a <= x < a + Z.of_nat n -> m1 x = m2 x) ->
  peek_list m1 a n = peek_list m2 a n.
Proof.
  revert a. induction n as [| n IH]; intros a H; [reflexivity |].
  cbn [peek_list]. f_equal.
  - unfold peek8. now rewrite (H a) by lia.
  - apply IH. intros x Hx. apply H. lia.
Qed.

Lemma peek_list_app (m : memory) (n1 n2 : nat) (a : Z) :
  peek_list m a (n1 + n2) = peek_list m a n1 ++ peek_list m (a + Z.of_nat n1) n2.
Proof.
  revert a. induction n1 as [| n1 IH]; intros a.
  - cbn. now rewrite Z.add_0_r.
  - cbn [Nat.add peek_list app]. rewrite IH. do 3 f_equal. lia.
Qed.

Lemma peek_list_store_bytes (bs : list Z) (m : memory) (a : Z) :
  peek_list (store_bytes m a bs) a (List.length bs) = map u8 bs.
Proof.
  revert m a. induction bs as [| b bs IH]; intros m a; [reflexivity |].
  cbn [store_bytes List.length peek_list map]. f_equal.
  - unfold peek8. rewrite store_bytes_outside by lia.
    rewrite store8_same. apply u8_u8.
  - apply IH.
Qed.

(** *** The bytes of an argument *)

Lemma length_bytes_of (s : string) : List.length (bytes_of s) = String.length s.
Proof. induction s as [| c s IH]; cbn; [reflexivity | now rewrite IH]. Qed.

Lemma map_u8_bytes_of (s : string) : map u8 (bytes_of s) = bytes_of s.
Proof.
  induction s as [| c s IH]; cbn [bytes_of map]; [reflexivity |].
  rewrite IH. f_equal. words. apply Z.mod_small.
  pose proof (nat_ascii_bounded c). lia.
Qed.

Lemma strlen_bounds (s : string) : 0 <= strlen s.
Proof. unfold strlen. lia. Qed.

Lemma encoded_length_nil : encoded_length [] = 0.
Proof. reflexivity. Qed.

Lemma encoded_length_cons (arg : string) (args : list string) :
  encoded_length (arg :: args) = 1 + strlen arg + encoded_length args.
Proof.
  unfold encoded_length, strlen. cbn [encoded_tail List.length].
  rewrite length_app, length_bytes_of. lia.
Qed.

Lemma encoded_length_nonneg (args : list string) : 0 <= encoded_length args.
Proof. unfold encoded_length. lia. Qed.

(** *** The loop of [copy_args_to_dos_args] *)

(** While the tail fits, the loop runs to the end; [size] has advanced by
    the encoded length, the bytes from [p + size] on are the encoded tail
    and nothing else has changed. *)
Lemma copy_args_loop_ok (args : list string) :
  forall (m : memory) (p size : Z),
    args_fit args -> 1 <= size -> size + encoded_length args <= 128 ->
    exists m',
      copy_args_loop m p size args = Some (m', size + encoded_length args) /\
      (forall x, x < p + size \/ p + size + encoded_length args <= x -> m' x = m x) /\
      peek_list m' (p + size) (List.length (encoded_tail args)) = encoded_tail args.
Proof.
  induction args as [| arg args IH]; intros m p size Hfit Hsize Hlen.
  - exists m. rewrite encoded_length_nil, Z.add_0_r. cbn. auto.
  - rewrite encoded_length_cons in *.
    inversion Hfit as [| ? ? Harg Hrest]; subst.
    pose proof (strlen_bounds arg) as Hs0.
    pose proof (encoded_length_nonneg args) as He0.
    change (2 ^ 32) with 4294967296 in Harg.
    cbn [copy_args_loop]. cbv zeta.
    rewrite (u32_small (strlen arg)) by lia.
    rewrite (u32_small (size + strlen arg)) by lia.
    rewrite (u32_small (size + 1)) by lia.
    rewrite (u32_small (size + 1 + strlen arg)) by lia.
    destruct ((size + strlen arg <? size) || (size + strlen arg >? 127)) eqn:Hchk.
    { apply orb_prop in Hchk. destruct Hchk as [Hc | Hc].
      - apply Z.ltb_lt in Hc. lia.
      - rewrite Z.gtb_ltb in Hc. apply Z.ltb_lt in Hc. lia. }
    assert (List.length (bytes_of arg) = Z.to_nat (strlen arg)) as Hbl
        by (rewrite length_bytes_of; unfold strlen; lia).
    rewrite firstn_all2 by lia.
    set (m1 := store8 m (p + size) 32).
    set (m2 := store_bytes m1 (p + (size + 1)) (bytes_of arg)).
    destruct (IH m2 p (size + 1 + strlen arg) Hrest ltac:(lia) ltac:(lia))
      as (m' & Heq & Hframe & Hpeek).
    assert (forall x, x < p + (size + 1) \/ p + (size + 1) + strlen arg <= x ->
                      m2 x = m1 x) as Hm2.
    { intros x Hx. unfold m2. apply store_bytes_outside. lia. }
    exists m'. split; [rewrite Heq; do 2 f_equal; lia |].
    split.
    + intros x Hx. rewrite Hframe by lia. rewrite Hm2 by lia.
      unfold m1. apply store8_other. lia.
    + cbn [encoded_tail List.length peek_list]. f_equal.
      * unfold peek8. rewrite Hframe by lia. rewrite Hm2 by lia.
        unfold m1. now rewrite store8_same.
      * rewrite length_app, peek_list_app. f_equal.
        -- rewrite (peek_list_ext m' m2) by (intros x Hx; apply Hframe; lia).
           replace (p + size + 1) with (p + (size + 1)) by lia.
           unfold m2. rewrite peek_list_store_bytes. apply map_u8_bytes_of.
        -- rewrite <- Hpeek at 2. f_equal. lia.
Qed.

(** Once an argument would take the tail past 127 bytes, the loop stops
    at the fatal branch. *)
Lemma copy_args_loop_overflow (args : list string) :
  forall (m : memory) (p size : Z),
    args_fit args -> 1 <= size <= 128 -> 128 < size + encoded_length args ->
    copy_args_loop m p size args = None.
Proof.
  induction args as [| arg args IH]; intros m p size Hfit Hsize Hlen.
  - rewrite encoded_length_nil in Hlen. lia.
  - rewrite encoded_length_cons in Hlen.
    inversion Hfit as [| ? ? Harg Hrest]; subst.
    pose proof (strlen_bounds arg) as Hs0.
    change (2 ^ 32) with 4294967296 in Harg.
    cbn [copy_args_loop]. cbv zeta.
    rewrite (u32_small (strlen arg)) by lia.
    destruct ((u32 (size + strlen arg) <? size) || (u32 (size + strlen arg) >? 127))
      eqn:Hchk; [reflexivity |].
    apply orb_false_elim in Hchk. destruct Hchk as [Hc1 Hc2].
    apply Z.ltb_ge in Hc1. rewrite Z.gtb_ltb in Hc2. apply Z.ltb_ge in Hc2.
    assert (size + strlen arg <= 127) as Hfits.
    { revert Hc1 Hc2. words. intros Hc1 Hc2. Z.div_mod_to_equations. lia. }
    rewrite (u32_small (size + 1)) by lia.
    rewrite (u32_small (size + 1 + strlen arg)) by lia.
    apply IH; [exact Hrest | lia | lia].
Qed.

(** [copy_args_to_dos_args] on a tail of at most 127 bytes. *)
Lemma copy_args_done (m : memory) (p : Z) (args : list string) :
  args_fit args -> encoded_length args <= 127 ->
  exists m',
    copy_args_to_dos_args m p args = Done m' /\
    peek8 m' p = encoded_length args /\
    peek_bytes m' (p + 1) (encoded_length args) = encoded_tail args /\
    m' (p + 1 + encoded_length args) = 13 /\
    (forall x, x < p \/ p + 1 + encoded_length args < x -> m' x = m x).
Proof.
  intros Hfit Hlen.
  pose proof (encoded_length_nonneg args) as He0.
  destruct (copy_args_loop_ok args m p 1 Hfit ltac:(lia) ltac:(lia))
    as (m1 & Heq & Hframe & Hpeek).
  unfold copy_args_to_dos_args. rewrite Heq.
  replace (1 + encoded_length args - 1) with (encoded_length args) by lia.
  rewrite (u32_small (encoded_length args)) by lia.
  eexists. split; [reflexivity |].
  split; [| split; [| split]].
  - unfold peek8. rewrite store8_same. rewrite u8_u8. words. apply Z.mod_small. lia.
  - unfold peek_bytes.
    replace (Z.to_nat (encoded_length args)) with (List.length (encoded_tail args))
      by (unfold encoded_length; now rewrite Nat2Z.id).
    transitivity (peek_list m1 (p + 1) (List.length (encoded_tail args)));
      [| exact Hpeek].
    apply peek_list_ext. intros x Hx. fold (encoded_length args) in Hx.
    rewrite !store8_other by lia. reflexivity.
  - rewrite store8_other by lia. replace (p + 1 + encoded_length args)
      with (p + (1 + encoded_length args)) by lia.
    now rewrite store8_same.
  - intros x Hx. rewrite !store8_other by lia. apply Hframe. lia.
Qed.

Lemma copy_args_died (m : memory) (p : Z) (args : list string) :
  args_fit args -> 128 <= encoded_length args ->
  copy_args_to_dos_args m p args =
  Died 252 [EvStderr "fatal: DOS command line args too long"].
Proof.
  intros Hfit Hlen. unfold copy_args_to_dos_args.
  now rewrite (copy_args_loop_overflow args m p 1 Hfit) by lia.
Qed.

(** *** The bootstrap around [copy_args_to_dos_args] *)

Lemma fold_store32_above (f : nat -> Z) (us : list nat) (m : memory) (x : Z) :
  (forall u, In u us -> 4 * Z.of_nat u + 4 <= x) ->
  fold_left (fun m' u => store32 m' (4 * Z.of_nat u) (f u)) us m x = m x.
Proof.
  revert m. induction us as [| u us IH]; intros m H; [reflexivity |].
  cbn [fold_left]. rewrite IH by (intros u' Hu'; apply H; now right).
  apply store32_other. right. apply H. now left.
Qed.

Lemma fill_magic_above (m : memory) (x : Z) :
  0x500 <= x -> fill_magic_interrupt_table m x = m x.
Proof.
  intros Hx. unfold fill_magic_interrupt_table, memset.
  rewrite store_bytes_outside
    by (rewrite repeat_length, Z2Nat.id by lia; lia).
  apply (fold_store32_above (fun u => Z.lor 0x400000 (Z.of_nat u))).
  intros u Hu. apply in_seq in Hu. lia.
Qed.

Lemma image_fits_nop_ret : image_fits image_nop_ret.
Proof. unfold image_fits. vm_compute. discriminate. Qed.

Lemma load_guest_fits (image : list Z) (m : memory) :
  image_fits image ->
  load_guest (Some image) m = Done (store_bytes m (psp + 0x100) image).
Proof.
  intros Himg. unfold image_fits in Himg. unfold load_guest. cbv zeta.
  change (Z.shiftl BASE_PARA 4) with psp in *.
  change psp with 4096 in *. change MEM_SIZE with 2097152 in Himg.
  now rewrite in_arena_true by lia.
Qed.

Lemma load_guest_too_long (image : list Z) (m : memory) :
  ~ image_fits image -> load_guest (Some image) m = Died 252 [EvStderr "read"].
Proof.
  intros Himg. unfold load_guest. cbv zeta.
  destruct (in_arena (Z.shiftl BASE_PARA 4 + 256) (Z.of_nat (List.length image)))
    eqn:E; [| reflexivity].
  exfalso. apply Himg. apply in_arena_inv in E. unfold image_fits.
  change MEM_SIZE with 2097152. lia.
Qed.

Lemma load_guest_done_inv (file : option (list Z)) (m m1 : memory) :
  load_guest file m = Done m1 ->
  exists image,
    file = Some image /\ image_fits image /\ m1 = store_bytes m (psp + 0x100) image.
Proof.
  destruct file as [image |]; [| discriminate].
  unfold load_guest. cbv zeta.
  destruct (in_arena (Z.shiftl BASE_PARA 4 + 256) (Z.of_nat (List.length image)))
    eqn:E; [| discriminate].
  intros H. injection H as <-. exists image.
  split; [reflexivity |]. split; [| reflexivity].
  apply in_arena_inv in E. unfold image_fits. change MEM_SIZE with 2097152. lia.
Qed.

Lemma main_init_done (image : list Z) (args : list string) (m : memory)
    (s0 : kvm_sregs) (r0 : kvm_regs) :
  image_fits image -> args_fit args -> encoded_length args <= 127 ->
  exists m6 m' s r,
    main_init (Some image) args m s0 r0 = Done (m', s, r) /\
    copy_args_to_dos_args m6 (psp + 0x80) args = Done m' /\
    m6 (psp + 0x100) = store_bytes m (psp + 0x100) image (psp + 0x100).
Proof.
  intros Himg Hfit Hlen. unfold main_init.
  rewrite (load_guest_fits image m Himg). cbv zeta.
  fold psp.
  set (m6 := store8 _ (psp + 0x80) 0).
  destruct (copy_args_done m6 (psp + 0x80) args Hfit Hlen) as (m' & Heq & _).
  exists m6, m'. rewrite Heq. eexists _, _.
  split; [reflexivity |]. split; [reflexivity |].
  unfold m6. change psp with 4096.
  rewrite store8_other by lia. rewrite !store16_other by lia.
  apply fill_magic_above. lia.
Qed.

Lemma main_init_died (file : option (list Z)) (args : list string) (m : memory)
    (s0 : kvm_sregs) (r0 : kvm_regs) :
  args_fit args -> 128 <= encoded_length args ->
  exists tr, main_init file args m s0 r0 = Died 252 tr.
Proof.
  intros Hfit Hlen. unfold main_init.
  destruct (load_guest file m) as [m1 | st tr] eqn:Hload.
  - cbv zeta. rewrite copy_args_died by assumption. now eexists.
  - exists tr. destruct file as [image |]; unfold load_guest in Hload.
    + cbv zeta in Hload.
      destruct (in_arena (Z.shiftl BASE_PARA 4 + 256) (Z.of_nat (List.length image)));
        [discriminate Hload | now injection Hload as <- <-].
    + now injection Hload as <- <-.
Qed.

Lemma load_guest_first_byte (b : Z) (rest : list Z) (m : memory) :
  store_bytes m (psp + 0x100) (b :: rest) (psp + 0x100) = u8 b.
Proof.
  cbn [store_bytes]. rewrite store_bytes_outside by lia. apply store8_same.
Qed.

Lemma args_fit_args127 : args_fit args127.
Proof. repeat constructor. Qed.

Lemma args_fit_args128 : args_fit args128.
Proof. repeat constructor. Qed.

(** C9: the command line is accepted exactly when its encoded length (one
    space before each argument) is at most 127.  Then the byte at [p]
    (PSP offset 0x80) is that length, the encoded tail follows it and 0x0d
    follows the tail, and the bootstrap of an image that fits the arena
    succeeds; from 128 on the process ends with status 252 inside the
    bootstrap, whatever the image file. *)
Theorem command_tail_limit (file : option (list Z)) (args : list string)
    (m : memory) (p : Z) (s0 : kvm_sregs) (r0 : kvm_regs) :
  args_fit args ->
  (encoded_length args <= 127 ->
     (exists m',
        copy_args_to_dos_args m p args = Done m' /\
        peek8 m' p = encoded_length args /\
        peek_bytes m' (p + 1) (encoded_length args) = encoded_tail args /\
        peek8 m' (p + 1 + encoded_length args) = 13) /\
     (forall image, image_fits image ->
        exists m' s r,
          main_init (Some image) args m s0 r0 = Done (m', s, r) /\
          peek8 m' (psp + 0x80) = encoded_length args)) /\
  (128 <= encoded_length args ->
     copy_args_to_dos_args m p args =
       Died 252 [EvStderr "fatal: DOS command line args too long"] /\
     exists tr, main_init file args m s0 r0 = Died 252 tr).
Proof.
  intros Hfit. split.
  - intros Hlen. split.
    + destruct (copy_args_done m p args Hfit Hlen) as (m' & Heq & Hn & Htail & Hcr & _).
      exists m'. split; [exact Heq |]. split; [exact Hn |]. split; [exact Htail |].
      unfold peek8. now rewrite Hcr.
    + intros image Himg.
      destruct (main_init_done image args m s0 r0 Himg Hfit Hlen)
        as (m6 & m' & s & r & Hmain & Hcopy & _).
      destruct (copy_args_done m6 (psp + 0x80) args Hfit Hlen) as (m2 & Heq & Hn & _).
      rewrite Hcopy in Heq. injection Heq as <-.
      now exists m', s, r.
  - intros Hlen. split.
    + now apply copy_args_died.
    + now apply main_init_died.
Qed.

Lemma command_tail_limit_witness :
  args_fit args127 /\ encoded_length args127 = 127 /\
  (exists m', copy_args_to_dos_args zero_memory (psp + 0x80) args127 = Done m' /\
              peek8 m' (psp + 0x80) = 127) /\
  image_fits image_nop_ret /\
  (exists m' s r,
     main_init (Some image_nop_ret) args127 zero_memory sregs_in_int
       (regs_in_int 0 0 0 0 0 0) = Done (m', s, r) /\
     peek8 m' (psp + 0x80) = 127) /\
  args_fit args128 /\ encoded_length args128 = 128 /\
  copy_args_to_dos_args zero_memory (psp + 0x80) args128 =
    Died 252 [EvStderr "fatal: DOS command line args too long"].
Proof.
  split; [exact args_fit_args127 |]. split; [reflexivity |].
  split.
  - destruct (proj1 (proj1 (command_tail_limit None args127 zero_memory (psp + 0x80)
                              sregs_in_int (regs_in_int 0 0 0 0 0 0) args_fit_args127)
                       ltac:(vm_compute; discriminate)))
      as (m' & Heq & Hn & _).
    exists m'. split; [exact Heq | exact Hn].
  - split; [exact image_fits_nop_ret |].
    split.
    { exact (proj2 (proj1 (command_tail_limit None args127 zero_memory (psp + 0x80)
                             sregs_in_int (regs_in_int 0 0 0 0 0 0) args_fit_args127)
                      ltac:(vm_compute; discriminate))
               image_nop_ret image_fits_nop_ret). }
    split; [exact args_fit_args128 |]. split; [reflexivity |].
    apply (proj2 (command_tail_limit None args128 zero_memory (psp + 0x80)
                    sregs_in_int (regs_in_int 0 0 0 0 0 0) args_fit_args128)).
    vm_compute. discriminate.
Defined.

(** C10: a command line of encoded length 127 puts its 0x0d terminator at
    offset 0x100 of the program segment, the byte where [load_guest] has
    put the first byte of the image, so the bootstrap of an image that
    fits the arena hands the guest an image whose entry byte is 0x0d; with
    an encoded length of at most 126
    [copy_args_to_dos_args] changes nothing outside PSP offsets 0x80 to
    0xff and the entry byte of the image is the file's. *)
Theorem max_tail_overwrites_image (image : list Z) (args : list string)
    (m : memory) (s0 : kvm_sregs) (r0 : kvm_regs) :
  args_fit args -> image_fits image ->
  psp + 0x100 = Z.shiftl BASE_PARA 4 + 0x100 /\
  (forall b rest m1,
     load_guest (Some (b :: rest)) m = Done m1 -> peek8 m1 (psp + 0x100) = u8 b) /\
  (encoded_length args = 127 ->
     (forall m0, exists m1,
        copy_args_to_dos_args m0 (psp + 0x80) args = Done m1 /\
        peek8 m1 (psp + 0x100) = 13) /\
     (exists m' s r,
        main_init (Some image) args m s0 r0 = Done (m', s, r) /\
        peek8 m' (psp + 0x100) = 13)) /\
  (encoded_length args <= 126 ->
     (forall m0, exists m1,
        copy_args_to_dos_args m0 (psp + 0x80) args = Done m1 /\
        forall x, x < psp + 0x80 \/ psp + 0x100 <= x -> m1 x = m0 x) /\
     (forall b rest, image_fits (b :: rest) ->
        exists m' s r,
          main_init (Some (b :: rest)) args m s0 r0 = Done (m', s, r) /\
          peek8 m' (psp + 0x100) = u8 b)).
Proof.
  intros Hfit Himg.
  split; [reflexivity |].
  split.
  { intros b rest m1 H.
    destruct (load_guest_done_inv _ _ _ H) as (image' & Hfile & _ & ->).
    injection Hfile as <-.
    unfold peek8. rewrite load_guest_first_byte. apply u8_u8. }
  split.
  - intros Hlen.
    assert (forall m0, exists m1,
              copy_args_to_dos_args m0 (psp + 0x80) args = Done m1 /\
              peek8 m1 (psp + 0x100) = 13) as Hcopy.
    { intros m0.
      destruct (copy_args_done m0 (psp + 0x80) args Hfit ltac:(lia))
        as (m1 & Heq & _ & _ & Hcr & _).
      exists m1. split; [exact Heq |].
      rewrite Hlen in Hcr. unfold peek8.
      replace (psp + 0x100) with (psp + 0x80 + 1 + 127) by lia.
      now rewrite Hcr. }
    split; [exact Hcopy |].
    destruct (main_init_done image args m s0 r0 Himg Hfit ltac:(lia))
      as (m6 & m' & s & r & Hmain & Hdone & _).
    destruct (Hcopy m6) as (m1 & Heq & Hcr).
    rewrite Hdone in Heq. injection Heq as <-.
    now exists m', s, r.
  - intros Hlen.
    pose proof (encoded_length_nonneg args) as He0.
    assert (forall m0, exists m1,
              copy_args_to_dos_args m0 (psp + 0x80) args = Done m1 /\
              forall x, x < psp + 0x80 \/ psp + 0x100 <= x -> m1 x = m0 x) as Hcopy.
    { intros m0.
      destruct (copy_args_done m0 (psp + 0x80) args Hfit ltac:(lia))
        as (m1 & Heq & _ & _ & _ & Hframe).
      exists m1. split; [exact Heq |].
      intros x Hx. apply Hframe. lia. }
    split; [exact Hcopy |].
    intros b rest Hbfits.
    destruct (main_init_done (b :: rest) args m s0 r0 Hbfits Hfit ltac:(lia))
      as (m6 & m' & s & r & Hmain & Hdone & Hm6).
    destruct (Hcopy m6) as (m1 & Heq & Hframe).
    rewrite Hdone in Heq. injection Heq as <-.
    exists m', s, r. split; [exact Hmain |].
    unfold peek8. rewrite Hframe by lia. rewrite Hm6, load_guest_first_byte.
    apply u8_u8.
Qed.

Lemma max_tail_overwrites_image_witness :
  args_fit args127 /\ image_fits image_nop_ret /\
  encoded_length args127 = 127 /\
  (exists m1, load_guest (Some image_nop_ret) zero_memory = Done m1 /\
              peek8 m1 (psp + 0x100) = 0x90) /\
  (exists m' s r,
     main_init (Some image_nop_ret) args127 zero_memory sregs_in_int
       (regs_in_int 0 0 0 0 0 0) = Done (m', s, r) /\
     peek8 m' (psp + 0x100) = 13).
Proof.
  split; [exact args_fit_args127 |].
  split; [exact image_fits_nop_ret |]. split; [reflexivity |].
  pose proof (max_tail_overwrites_image image_nop_ret args127 zero_memory
                sregs_in_int (regs_in_int 0 0 0 0 0 0) args_fit_args127
                image_fits_nop_ret)
    as (_ & Hload & Hmax & _).
  split.
  - exists (store_bytes zero_memory (psp + 0x100) image_nop_ret).
    pose proof (load_guest_fits image_nop_ret zero_memory image_fits_nop_ret) as H.
    split; [exact H | exact (Hload 0x90 [0xc3] _ H)].
  - exact (proj2 (Hmax eq_refl)).
Defined.

(** *** One turn of the loop: which exits resume the guest, which end the process *)

Lemma resume_inv (h : host) (reason : kvm_exit) (m : memory) (s : kvm_sregs)
    (r : kvm_regs) (s' : kvm_sregs) (r' : kvm_regs) (m' : memory) (tr : list event) :
  handle_exit h reason m s r = Resume s' r' m' tr ->
  exists r1,
    reason = KVM_EXIT_HLT /\ is_magic_hlt s r = true /\
    int_handler h m s r (int_num_of r) (ah_of r) = Returns r1 m' tr /\
    s' = set_cs s (SET_SEGMENT_REG (peek16 m (csip_ptr s r + 2))) /\
    r' = iret_regs r1 (peek16 m (csip_ptr s r)).
Proof.
  intros H. destruct reason; try discriminate H.
  unfold handle_exit in H.
  destruct (is_magic_hlt s r); [| discriminate H].
  unfold dispatch_int in H.
  destruct (read_frame m s r) as [[ip0 cs0] |] eqn:Hframe; [| discriminate H].
  apply read_frame_inv in Hframe. destruct Hframe as [-> ->].
  destruct (return_resume_inv _ _ _ _ _ _ _ _ H) as (r1 & Hh & ->).
  exists r1. repeat split; try assumption.
  rewrite Hh in H. cbn [return_from_interrupt] in H. congruence.
Qed.

Lemma magic_hlt_rip (x : Z) :
  (u32 (u32 x - 1) <? 0x100) = true <-> 1 <= u32 x <= 256.
Proof.
  rewrite Z.ltb_lt. pose proof (u32_range x) as Hx.
  split; intros H.
  - revert H. words. intros H. Z.div_mod_to_equations. lia.
  - rewrite u32_small by lia. lia.
Qed.

(** X1: a HLT is taken for an interrupt of the guest exactly when the CS
    selector is 0x40 and IP is between 1 and 256; the interrupt number is
    then IP - 1, [handle_exit] runs the handler of that number and ends
    with the synthesized return from the frame at SS:SP.  Every other HLT
    is fatal: [handle_exit] ends the process with status 252 after
    [fatal: hlt], and no handler runs. *)
Theorem magic_hlt_exact (h : host) (m : memory) (s : kvm_sregs) (r : kvm_regs) :
  (is_magic_hlt s r = true <->
   u32 (selector (cs s)) = 0x40 /\ 1 <= u32 (rip r) <= 256) /\
  (is_magic_hlt s r = true ->
   0 <= int_num_of r < 256 /\ u32 (rip r) = int_num_of r + 1) /\
  (wf_sregs s -> u32 (selector (cs s)) = 0x40 -> 1 <= u32 (rip r) <= 256 ->
   handle_exit h KVM_EXIT_HLT m s r =
     return_from_interrupt s (peek16 m (csip_ptr s r)) (peek16 m (csip_ptr s r + 2))
       (int_handler h m s r (u32 (rip r) - 1) (ah_of r))) /\
  (u32 (selector (cs s)) <> 0x40 \/ u32 (rip r) = 0 \/ 256 < u32 (rip r) ->
   handle_exit h KVM_EXIT_HLT m s r =
     Exit 252 [EvStderr "fatal: hlt"; EvClose;
               EvStderr "fatal: unexpected exit from KVM"]).
Proof.
  assert (is_magic_hlt s r = true <->
          u32 (selector (cs s)) = 0x40 /\ 1 <= u32 (rip r) <= 256) as Hiff
      by (unfold is_magic_hlt; rewrite andb_true_iff, Z.eqb_eq, magic_hlt_rip; tauto).
  assert (is_magic_hlt s r = true ->
          0 <= int_num_of r < 256 /\ u32 (rip r) = int_num_of r + 1) as Hnum.
  { intros Hmagic. apply Hiff in Hmagic. destruct Hmagic as [_ Hip].
    unfold int_num_of. rewrite land_ff.
    rewrite (u32_small (u32 (rip r) - 1)) by lia.
    words. rewrite (Z.mod_small (_ - 1)) by lia. lia. }
  split; [exact Hiff |]. split; [exact Hnum |]. split.
  - intros Hs Hsel Hip.
    assert (is_magic_hlt s r = true) as Hmagic by (apply Hiff; split; assumption).
    apply handle_exit_int; [exact Hs |].
    split; [exact Hmagic |]. destruct (Hnum Hmagic) as [_ Heq]. lia.
  - intros Hnot. unfold handle_exit.
    pose proof (proj1 Hiff) as Hmagic. clear Hiff Hnum.
    destruct (is_magic_hlt s r); [| reflexivity].
    specialize (Hmagic eq_refl). lia.
Qed.

Lemma magic_hlt_exact_witness :
  is_magic_hlt sregs_in_int (regs_in_int 0x21 0 0 0 0 2) = true /\
  int_num_of (regs_in_int 0x21 0 0 0 0 2) = 0x21 /\
  is_magic_hlt sregs_in_int (regs_in_int (-1) 0 0 0 0 2) = false /\
  wf_sregs sregs_in_int /\
  handle_exit host_ok KVM_EXIT_HLT mem_in_int sregs_in_int
    (regs_in_int 0x21 0x4c07 0 0 0 2) = Exit 7 [] /\
  handle_exit host_ok KVM_EXIT_HLT mem_in_int sregs_in_int
    (regs_in_int 256 0x4c07 0 0 0 2) =
    Exit 252 [EvStderr "fatal: hlt"; EvClose;
              EvStderr "fatal: unexpected exit from KVM"].
Proof.
  assert (is_magic_hlt sregs_in_int (regs_in_int 0x21 0 0 0 0 2) = true) as H
      by (apply (proj1 (magic_hlt_exact host_ok mem_in_int _ _));
          split; [reflexivity | split; discriminate]).
  split; [exact H |].
  split.
  { destruct (proj1 (proj2 (magic_hlt_exact host_ok mem_in_int _ _)) H) as [_ Hip].
    change (u32 (rip (regs_in_int 33 0 0 0 0 2))) with 34 in Hip. lia. }
  split.
  { destruct (is_magic_hlt sregs_in_int (regs_in_int (-1) 0 0 0 0 2)) eqn:E; [| reflexivity].
    apply (proj1 (magic_hlt_exact host_ok mem_in_int _ _)) in E. destruct E as [_ [E _]].
    exfalso. apply E. reflexivity. }
  split; [exact wf_sregs_in_int |].
  split.
  - assert (1 <= u32 (rip (regs_in_int 0x21 0x4c07 0 0 0 2)) <= 256) as Hip
        by (split; discriminate).
    rewrite (proj1 (proj2 (proj2 (magic_hlt_exact host_ok mem_in_int sregs_in_int
                                    (regs_in_int 0x21 0x4c07 0 0 0 2))))
               wf_sregs_in_int eq_refl Hip).
    vm_compute. reflexivity.
  - apply (proj2 (proj2 (proj2 (magic_hlt_exact host_ok mem_in_int sregs_in_int
                                  (regs_in_int 256 0x4c07 0 0 0 2))))).
    right. right. reflexivity.
Defined.

Lemma int21_exits (h : host) (m : memory) (s : kvm_sregs) (r : kvm_regs) (ah : Z)
    (st : Z) (tr : list event) :
  int21 h m s r ah = Exits st tr ->
  st = 252 \/ (ah = 0x4c /\ st = AL r /\ tr = []).
Proof.
  unfold int21. destruct (ah =? 0x4c) eqn:E.
  - intros H. injection H as <- <-. right. apply Z.eqb_eq in E.
    unfold AL. now rewrite land_ff, u8_u32.
  - unfold int21_write, int21_read, int21_print. intros H.
    repeat match type of H with
           | context [if ?b then _ else _] => destruct b
           | context [match ?x with _ => _ end] => destruct x
           end;
      try discriminate; injection H as <- <-; now left.
Qed.

Lemma int_handler_exits (h : host) (m : memory) (s : kvm_sregs) (r : kvm_regs)
    (n ah : Z) (st : Z) (tr : list event) :
  int_handler h m s r n ah = Exits st tr ->
  st = 252 \/ (n = 0x20 /\ st = 0 /\ tr = []) \/
  (n = 0x21 /\ ah = 0x4c /\ st = AL r /\ tr = []).
Proof.
  unfold int_handler.
  destruct (n =? 0x29); [discriminate |].
  destruct (n =? 0x20) eqn:E20.
  { intros H. injection H as <- <-. apply Z.eqb_eq in E20. auto. }
  destruct (n =? 0x21) eqn:E21.
  { intros H. apply int21_exits in H. apply Z.eqb_eq in E21. tauto. }
  destruct (n =? 0x10); [destruct (ah =? 0x0e) |]; discriminate.
Qed.

Lemma exit_cases (h : host) (reason : kvm_exit) (m : memory)
    (s : kvm_sregs) (r : kvm_regs) (st : Z) (tr : list event) :
  handle_exit h reason m s r = Exit st tr ->
  st = 252 \/
  (reason = KVM_EXIT_HLT /\ is_magic_hlt s r = true /\
   (int_num_of r = 0x20 /\ st = 0 \/
    int_num_of r = 0x21 /\ ah_of r = 0x4c /\ st = AL r) /\ tr = []).
Proof.
  intros H.
  destruct reason; cbn in H; try (injection H as <- _; now left); try discriminate H.
  destruct (is_magic_hlt s r) eqn:Hm; [| injection H as <- _; now left].
  unfold dispatch_int in H.
  destruct (read_frame m s r) as [[ip0 cs0] |]; [| discriminate H].
  destruct (int_handler h m s r (int_num_of r) (ah_of r)) as [| st1 tr1 | tr1 |] eqn:Hh;
    cbn in H; try discriminate H.
  - injection H as <- <-. apply int_handler_exits in Hh.
    destruct Hh as [-> | [(Hn & -> & ->) | (Hn & Ha & -> & ->)]]; [now left | |];
      right; repeat split; auto.
  - injection H as <- _. now left.
Qed.

Lemma AL_range (r : kvm_regs) : 0 <= AL r < 256.
Proof. apply u8_range. Qed.

(** X2: the process ends with a status other than 252 only on the guest's
    own request: status 0 for INT 20h and status AL for INT 21h with
    AH=0x4c, both without any host call; every other way out of a turn
    (shutdown, MMIO, an unknown exit reason, a halt that is no interrupt,
    an interrupt the chain sends to [exit], the wrap of AH=0x09) is status
    252.  The status is always in [0, 256). *)
Theorem exit_status_classified (h : host) (reason : kvm_exit) (m : memory)
    (s : kvm_sregs) (r : kvm_regs) (st : Z) (tr : list event) :
  handle_exit h reason m s r = Exit st tr ->
  0 <= st < 256 /\
  (st = 252 \/
   (reason = KVM_EXIT_HLT /\ is_magic_hlt s r = true /\
    (int_num_of r = 0x20 /\ st = 0 \/
     int_num_of r = 0x21 /\ ah_of r = 0x4c /\ st = AL r) /\ tr = [])).
Proof.
  intros H. pose proof (exit_cases _ _ _ _ _ _ _ H) as Hc.
  split; [| exact Hc].
  destruct Hc as [-> | (_ & _ & [[_ ->] | (_ & _ & ->)] & _)].
  - lia.
  - lia.
  - apply AL_range.
Qed.

Lemma exit_status_classified_witness :
  handle_exit host_ok KVM_EXIT_HLT mem_in_int sregs_in_int
    (regs_in_int 0x21 0x4c07 0 0 0 2) = Exit 7 [] /\
  (0 <= 7 < 256 /\
   (7 = 252 \/
    (KVM_EXIT_HLT = KVM_EXIT_HLT /\
     is_magic_hlt sregs_in_int (regs_in_int 0x21 0x4c07 0 0 0 2) = true /\
     (int_num_of (regs_in_int 0x21 0x4c07 0 0 0 2) = 0x20 /\ 7 = 0 \/
      int_num_of (regs_in_int 0x21 0x4c07 0 0 0 2) = 0x21 /\
      ah_of (regs_in_int 0x21 0x4c07 0 0 0 2) = 0x4c /\
      7 = AL (regs_in_int 0x21 0x4c07 0 0 0 2)) /\ @nil event = []))).
Proof.
  split; [reflexivity |].
  exact (exit_status_classified host_ok KVM_EXIT_HLT mem_in_int sregs_in_int
           (regs_in_int 0x21 0x4c07 0 0 0 2) 7 [] eq_refl).
Defined.

(** *** What a turn leaves as it was *)

Lemma segment_ok_SET_SEGMENT_REG (v : Z) : segment_ok (SET_SEGMENT_REG v).
Proof.
  unfold segment_ok, wf_segment, SET_SEGMENT_REG. cbn [selector base].
  pose proof (u16_range v). change (2 ^ 16) with 65536. split; [lia | reflexivity].
Qed.

Lemma sregs_ok_wf (s : kvm_sregs) : sregs_ok s -> wf_sregs s.
Proof. unfold sregs_ok, segment_ok, wf_sregs. tauto. Qed.

(** X3: the segment file that the emulator hands back to KVM keeps, for
    all six registers, a 16-bit selector with base [selector << 4]: only CS
    is rewritten, through [SET_SEGMENT_REG], and the five others are the
    ones read at the exit. *)
Theorem resume_keeps_segments (h : host) (reason : kvm_exit) (m : memory)
    (s : kvm_sregs) (r : kvm_regs) (s' : kvm_sregs) (r' : kvm_regs)
    (m' : memory) (tr : list event) :
  sregs_ok s ->
  handle_exit h reason m s r = Resume s' r' m' tr ->
  sregs_ok s' /\ wf_sregs s' /\
  (ds s', es s', fs s', gs s', ss s') = (ds s, es s, fs s, gs s, ss s).
Proof.
  intros (_ & Hds & Hes & Hfs & Hgs & Hss) H.
  destruct (resume_inv _ _ _ _ _ _ _ _ _ H) as (r1 & _ & _ & _ & -> & _).
  assert (sregs_ok (set_cs s (SET_SEGMENT_REG (peek16 m (csip_ptr s r + 2))))) as Hok.
  { unfold sregs_ok, set_cs. cbn [cs ds es fs gs ss].
    split; [apply segment_ok_SET_SEGMENT_REG | tauto]. }
  split; [exact Hok |]. split; [now apply sregs_ok_wf | reflexivity].
Qed.

Lemma sregs_ok_in_int : sregs_ok sregs_in_int.
Proof.
  unfold sregs_ok, segment_ok, wf_segment. cbv.
  repeat split; (reflexivity || (intro; discriminate)).
Qed.

Lemma resume_keeps_segments_witness :
  sregs_ok sregs_in_int /\
  exists s' r' m' tr,
    handle_exit host_ok KVM_EXIT_HLT mem_in_int sregs_in_int
      (regs_in_int 0x29 0x0041 0 0 0 2) = Resume s' r' m' tr /\
    sregs_ok s' /\ selector (cs s') = 0x5678 /\ base (cs s') = 0x56780.
Proof.
  split; [exact sregs_ok_in_int |].
  eexists _, _, _, _. split; [reflexivity |].
  split; [| split; reflexivity].
  exact (proj1 (resume_keeps_segments host_ok KVM_EXIT_HLT mem_in_int sregs_in_int
                  (regs_in_int 0x29 0x0041 0 0 0 2) _ _ _ _ sregs_ok_in_int eq_refl)).
Defined.

Ltac eqb_facts :=
  repeat match goal with
         | E : (_ =? _) = true |- _ => apply Z.eqb_eq in E
         | E : (_ =? _) = false |- _ => apply Z.eqb_neq in E
         end.

(** What the handler chain may change of the general registers and of
    guest memory. *)
Lemma int_handler_frame (h : host) (m : memory) (s : kvm_sregs) (r : kvm_regs)
    (n ah : Z) (r1 : kvm_regs) (m1 : memory) (tr : list event) :
  int_handler h m s r n ah = Returns r1 m1 tr ->
  (rdx r1 = rdx r /\ rsi r1 = rsi r /\ rdi r1 = rdi r /\ rbp r1 = rbp r /\
   rsp r1 = rsp r) /\
  (rax r1 / 2 ^ 16 = rax r / 2 ^ 16 /\ rbx r1 / 2 ^ 16 = rbx r / 2 ^ 16 /\
   rcx r1 / 2 ^ 16 = rcx r / 2 ^ 16) /\
  (~ (n = 0x21 /\ ah = 0x30) -> rbx r1 = rbx r /\ rcx r1 = rcx r) /\
  (~ (n = 0x21 /\ (ah = 0x30 \/ ah = 0x3f \/ ah = 0x40)) ->
   rax r1 = rax r /\ rflags r1 = rflags r) /\
  (~ (n = 0x21 /\ ah = 0x3f) -> m1 = m).
Proof.
  unfold int_handler, int21, int21_write, int21_read, int21_print. intros H.
  repeat match type of H with
         | context [if ?b then _ else _] => destruct b eqn:?
         | context [match ?x with _ => _ end] => destruct x eqn:?
         end;
    try discriminate; injection H as <- <- <-; eqb_facts;
    cbn [rax rbx rcx rdx rsi rdi rsp rbp rip rflags set_rax set_rbx set_rcx
         set_rflags error_on_21];
    rewrite ?store_lo16_high;
    (split; [repeat split |]);
    (split; [repeat split |]);
    (split; [| split]);
    try (intros _; split; reflexivity);
    try (intros _; reflexivity);
    try (intros Hn; exfalso; apply Hn; subst; tauto).
Qed.

(** X4: a turn that resumes the guest leaves DX, SI, DI, BP and the bits
    above the low 16 of AX, BX and CX as they were; BX and CX change only
    for AH=0x30, AX and FLAGS only for AH=0x30, 0x3f and 0x40, and guest
    memory only for AH=0x3f.  Every other service, known or not, returns
    with nothing changed but CS, IP and SP. *)
Theorem resume_frame (h : host) (reason : kvm_exit) (m : memory)
    (s : kvm_sregs) (r : kvm_regs) (s' : kvm_sregs) (r' : kvm_regs)
    (m' : memory) (tr : list event) :
  handle_exit h reason m s r = Resume s' r' m' tr ->
  (rdx r' = rdx r /\ rsi r' = rsi r /\ rdi r' = rdi r /\ rbp r' = rbp r) /\
  (rax r' / 2 ^ 16 = rax r / 2 ^ 16 /\ rbx r' / 2 ^ 16 = rbx r / 2 ^ 16 /\
   rcx r' / 2 ^ 16 = rcx r / 2 ^ 16) /\
  (~ (int_num_of r = 0x21 /\ ah_of r = 0x30) -> rbx r' = rbx r /\ rcx r' = rcx r) /\
  (~ (int_num_of r = 0x21 /\ (ah_of r = 0x30 \/ ah_of r = 0x3f \/ ah_of r = 0x40)) ->
   rax r' = rax r /\ rflags r' = rflags r) /\
  (~ (int_num_of r = 0x21 /\ ah_of r = 0x3f) -> m' = m).
Proof.
  intros H.
  destruct (resume_inv _ _ _ _ _ _ _ _ _ H) as (r1 & _ & _ & Hh & _ & ->).
  destruct (int_handler_frame _ _ _ _ _ _ _ _ _ Hh)
    as ((Hdx & Hsi & Hdi & Hbp & _) & Hhigh & Hbc & Haf & Hm).
  unfold iret_regs, set_rsp, set_rip.
  cbn [rax rbx rcx rdx rsi rdi rsp rbp rip rflags].
  repeat split; try tauto.
Qed.

Lemma resume_frame_witness :
  exists s' r' m' tr,
    handle_exit host_ok KVM_EXIT_HLT mem_in_int sregs_in_int
      (regs_in_int 0x21 0x0a77 1 2 3 2) = Resume s' r' m' tr /\
    rax r' = 0x0a77 /\ rbx r' = 1 /\ rcx r' = 2 /\ rdx r' = 3 /\ rflags r' = 2 /\
    m' = mem_in_int.
Proof.
  eexists _, _, _, _. split; [reflexivity |].
  destruct (resume_frame host_ok KVM_EXIT_HLT mem_in_int sregs_in_int
              (regs_in_int 0x21 0x0a77 1 2 3 2) _ _ _ _ eq_refl)
    as ((Hdx & _) & _ & Hbc & Haf & Hm).
  destruct Hbc as [Hb Hc]; [intros [_ E]; discriminate E |].
  destruct Haf as [Ha Hf];
    [intros [_ [E | [E | E]]]; discriminate E |].
  split; [exact Ha |]. split; [exact Hb |]. split; [exact Hc |].
  split; [exact Hdx |]. split; [exact Hf |].
  apply Hm. intros [_ E]. discriminate E.
Defined.

(** *** The run loop *)

Lemma after_faulted (tr : list event) (e : run_end) (tr2 : list event) :
  after tr e = Faulted tr2 -> exists tr1, e = Faulted tr1.
Proof.
  destruct e as [st1 tr1 | v1 tr1 | tr1]; cbn; try discriminate.
  intros _. now exists tr1.
Qed.

(** X5: however long the guest runs and whatever it does, the emulator
    never reads or writes outside the 2 MiB arena on the guest's behalf:
    no number of turns of the loop ends in an out-of-arena access. *)
Theorem run_loop_never_faults (g : guest) (hs : nat -> host) :
  guest_wf g ->
  forall (turns i : nat) (v : vm) (tr : list event),
    run_loop g hs turns i v <> Faulted tr.
Proof.
  intros Hg. induction turns as [| turns IH]; intros i v tr; [discriminate |].
  cbn [run_loop].
  destruct (g v) as [reason v1 | msg] eqn:Hrun; [| discriminate].
  pose proof (handle_exit_no_fault (hs i) reason (vm_mem v1) (vm_sregs v1) (vm_regs v1)
                (Hg v reason v1 Hrun)) as Hnf.
  destruct (handle_exit (hs i) reason (vm_mem v1) (vm_sregs v1) (vm_regs v1))
    as [s r m tr1 | tr1 | st tr1 |]; try discriminate.
  - intros H. apply after_faulted in H. destruct H as [tr2 H]. exact (IH _ _ _ H).
  - intros H. apply after_faulted in H. destruct H as [tr2 H]. exact (IH _ _ _ H).
  - now elim Hnf.
Qed.

Lemma guest_wf_version_then_exit : guest_wf guest_version_then_exit.
Proof.
  intros v reason v1 H. unfold guest_version_then_exit in H.
  destruct (AX (vm_regs v) =? 5); injection H as _ <-; exact wf_sregs_in_int.
Qed.

Lemma run_loop_never_faults_witness :
  guest_wf guest_version_then_exit /\
  forall tr,
    run_loop guest_version_then_exit (fun _ => host_ok) 2 0
      (mk_vm mem_in_int sregs_in_int (regs_in_int 0 0 0 0 0 2)) <> Faulted tr.
Proof.
  split; [exact guest_wf_version_then_exit |].
  intros tr.
  apply (run_loop_never_faults guest_version_then_exit (fun _ => host_ok)
           guest_wf_version_then_exit).
Defined.

Lemma after_ended_trace (tr : list event) (e : run_end) (st : Z) (tr2 : list event) :
  after tr e = Ended st tr2 -> exists tr1, e = Ended st tr1 /\ tr2 = tr ++ tr1.
Proof.
  destruct e as [st1 tr1 | v1 tr1 | tr1]; cbn; try discriminate.
  intros H. injection H as <- <-. now exists tr1.
Qed.

(** X6: when the loop ends the process with status [st], the status is in
    [0, 256) and the end is the work of one turn: after some number [k] of
    turns that resumed the guest, in the state [vk] these turns led to,
    either an ioctl failed, and the status is 252 after its message, or
    the guest ran to an exit that [handle_exit] answered with this status;
    the events of the run are those of the [k] turns followed by those of
    the last one.  A status other than 252 means that this last exit was
    INT 20h (status 0) or INT 21h with AH=0x4c (status AL), with nothing
    printed by the last turn. *)
Theorem run_loop_exit_status (g : guest) (hs : nat -> host) (turns : nat) :
  forall (i : nat) (v : vm) (st : Z) (tr : list event),
    run_loop g hs turns i v = Ended st tr ->
    0 <= st < 256 /\
    exists (k : nat) (vk : vm) (trk : list event),
      (k < turns)%nat /\
      run_loop g hs k i v = Running vk trk /\
      ((exists msg,
          g vk = RunFails msg /\ st = 252 /\ tr = trk ++ [EvStderr msg]) \/
       (exists reason v1 tr1,
          g vk = RunExits reason v1 /\
          handle_exit (hs (i + k)%nat) reason (vm_mem v1) (vm_sregs v1) (vm_regs v1)
            = Exit st tr1 /\
          tr = trk ++ tr1 /\
          (st <> 252 ->
           reason = KVM_EXIT_HLT /\
           is_magic_hlt (vm_sregs v1) (vm_regs v1) = true /\
           (int_num_of (vm_regs v1) = 0x20 /\ st = 0 \/
            int_num_of (vm_regs v1) = 0x21 /\ ah_of (vm_regs v1) = 0x4c /\
            st = AL (vm_regs v1)) /\
           tr1 = []))).
Proof.
  induction turns as [| turns IH]; intros i v st tr H; [discriminate H |].
  cbn [run_loop] in H.
  assert (forall tr0 v' tr2,
            run_loop g hs turns (S i) v' = Ended st tr2 ->
            (forall k, run_loop g hs (S k) i v = after tr0 (run_loop g hs k (S i) v')) ->
            0 <= st < 256 /\
            exists (k : nat) (vk : vm) (trk : list event),
              (k < S turns)%nat /\
              run_loop g hs k i v = Running vk trk /\
              ((exists msg,
                  g vk = RunFails msg /\ st = 252 /\
                  tr0 ++ tr2 = trk ++ [EvStderr msg]) \/
               (exists reason v1 tr1,
                  g vk = RunExits reason v1 /\
                  handle_exit (hs (i + k)%nat) reason (vm_mem v1) (vm_sregs v1)
                    (vm_regs v1) = Exit st tr1 /\
                  tr0 ++ tr2 = trk ++ tr1 /\
                  (st <> 252 ->
                   reason = KVM_EXIT_HLT /\
                   is_magic_hlt (vm_sregs v1) (vm_regs v1) = true /\
                   (int_num_of (vm_regs v1) = 0x20 /\ st = 0 \/
                    int_num_of (vm_regs v1) = 0x21 /\ ah_of (vm_regs v1) = 0x4c /\
                    st = AL (vm_regs v1)) /\
                   tr1 = [])))) as Hturn.
  { intros tr0 v' tr2 Hrest Hstep.
    destruct (IH _ _ _ _ Hrest) as (Hr & k & vk & trk & Hk & Hrun & Hlast).
    split; [exact Hr |].
    exists (S k), vk, (tr0 ++ trk).
    split; [lia |].
    split.
    { now rewrite Hstep, Hrun. }
    replace (i + S k)%nat with (S i + k)%nat by lia.
    destruct Hlast as [(msg & Hg & Hst & ->) | (reason & v1 & tr1 & Hg & Hx & -> & Hc)].
    - left. exists msg. now rewrite app_assoc.
    - right. exists reason, v1, tr1. now rewrite app_assoc. }
  destruct (g v) as [reason v1 | msg] eqn:Hrun.
  - destruct (handle_exit (hs i) reason (vm_mem v1) (vm_sregs v1) (vm_regs v1))
      as [s r m tr1 | tr1 | st1 tr1 |] eqn:Hexit; try discriminate H.
    + apply after_ended_trace in H. destruct H as (tr2 & H & ->).
      apply (Hturn tr1 _ tr2 H).
      intros k. cbn [run_loop]. now rewrite Hrun, Hexit.
    + apply after_ended_trace in H. destruct H as (tr2 & H & ->).
      apply (Hturn tr1 _ tr2 H).
      intros k. cbn [run_loop]. now rewrite Hrun, Hexit.
    + injection H as <- <-.
      pose proof (exit_cases _ _ _ _ _ _ _ Hexit) as Hcases.
      split.
      { destruct Hcases as [-> | (_ & _ & [[_ ->] | (_ & _ & ->)] & _)];
          [lia | lia | apply AL_range]. }
      exists O, v, []. split; [lia |]. split; [reflexivity |].
      right. exists reason, v1, tr1.
      rewrite Nat.add_0_r.
      split; [exact Hrun |]. split; [exact Hexit |]. split; [reflexivity |].
      intros Hst. destruct Hcases as [-> | Hc]; [now elim Hst | exact Hc].
  - injection H as <- <-.
    split; [lia |].
    exists O, v, []. split; [lia |]. split; [reflexivity |].
    left. now exists msg.
Qed.

Lemma run_loop_exit_status_witness :
  run_loop guest_version_then_exit (fun _ => host_ok) 2 0
    (mk_vm mem_in_int sregs_in_int (regs_in_int 0 0 0 0 0 2)) = Ended 0 [] /\
  0 <= 0 < 256 /\
  exists (k : nat) (vk : vm) (trk : list event),
    (k < 2)%nat /\
    run_loop guest_version_then_exit (fun _ => host_ok) k 0
      (mk_vm mem_in_int sregs_in_int (regs_in_int 0 0 0 0 0 2)) = Running vk trk /\
    exists v1,
      guest_version_then_exit vk = RunExits KVM_EXIT_HLT v1 /\
      int_num_of (vm_regs v1) = 0x20.
Proof.
  split; [reflexivity |].
  destruct (run_loop_exit_status guest_version_then_exit (fun _ => host_ok) 2 0
              (mk_vm mem_in_int sregs_in_int (regs_in_int 0 0 0 0 0 2)) 0 []
              eq_refl)
    as (Hr & k & vk & trk & Hk & Hrun & Hlast).
  split; [exact Hr |].
  exists k, vk, trk. split; [exact Hk |]. split; [exact Hrun |].
  destruct Hlast as [(msg & _ & Hst & _) | (reason & v1 & tr1 & Hg & Hx & _ & Hc)];
    [discriminate Hst |].
  destruct (Hc ltac:(discriminate)) as (-> & _ & [[Hn _] | (Hn & Hah & _)] & _).
  - now exists v1.
  - exfalso. revert Hg Hn Hah. unfold guest_version_then_exit.
    destruct (AX (vm_regs vk) =? 5); intros Hg Hn Hah; injection Hg as <-;
      vm_compute in Hn, Hah; discriminate.
Defined.

(** *** Words in guest memory *)

Lemma peek16_ext (m1 m2 : memory) (a : Z) :
  m1 a = m2 a -> m1 (a + 1) = m2 (a + 1) -> peek16 m1 a = peek16 m2 a.
Proof. intros H0 H1. unfold peek16, peek8. now rewrite H0, H1. Qed.

Lemma peek16_store16 (m : memory) (a v : Z) : peek16 (store16 m a v) a = u16 v.
Proof.
  unfold peek16, peek8, store16.
  rewrite store8_other by lia. rewrite !store8_same, !u8_u8.
  rewrite Z.shiftr_div_pow2 by lia.
  words. Z.div_mod_to_equations. lia.
Qed.

Lemma peek16_store32_low (m : memory) (a v : Z) : peek16 (store32 m a v) a = u16 v.
Proof.
  unfold store32.
  rewrite (peek16_ext _ (store16 m a v)) by (apply store16_other; lia).
  apply peek16_store16.
Qed.

Lemma peek16_store32_high (m : memory) (a v : Z) :
  peek16 (store32 m a v) (a + 2) = u16 (Z.shiftr v 16).
Proof. unfold store32. apply peek16_store16. Qed.

Lemma vector_value (n : Z) :
  0 <= n < 256 ->
  u16 (Z.lor 0x400000 n) = n /\ u16 (Z.shiftr (Z.lor 0x400000 n) 16) = 0x40.
Proof.
  intros Hn.
  assert (Z.lor 0x400000 n = 0x400000 + n) as ->.
  { assert (Z.land 0x400000 n = 0) as Hdisjoint.
    { apply Z.bits_inj'. intros i Hi.
      rewrite Z.land_spec, Z.bits_0.
      destruct (Z_lt_le_dec i 8) as [Hlo | Hhi].
      - change 0x400000 with (2 ^ 22). rewrite Z.pow2_bits_false by lia. reflexivity.
      - rewrite (Z.bits_above_log2 n i); [apply andb_false_r | lia |].
        destruct (Z.eq_dec n 0) as [-> | Hnz]; [cbn; lia |].
        apply Z.log2_lt_pow2; [lia |].
        apply Z.lt_le_trans with (2 ^ 8); [change (2 ^ 8) with 256; lia |].
        apply Z.pow_le_mono_r; lia. }
    rewrite <- Z.lxor_lor by exact Hdisjoint.
    symmetry. now apply Z.add_nocarry_lxor. }
  rewrite Z.shiftr_div_pow2 by lia.
  split; words; Z.div_mod_to_equations; lia.
Qed.

(** The vector loop, turn by turn: after the first [k] turns the first
    [k] vectors are in place. *)
Lemma vectors_filled (f : nat -> Z) (k : nat) (m : memory) (n : nat) :
  (n < k)%nat ->
  let mk := fold_left (fun m' u => store32 m' (4 * Z.of_nat u) (f u)) (seq 0 k) m in
  peek16 mk (4 * Z.of_nat n) = u16 (f n) /\
  peek16 mk (4 * Z.of_nat n + 2) = u16 (Z.shiftr (f n) 16).
Proof.
  induction k as [| k IH]; intros Hn; [inversion Hn |].
  cbv zeta in *. rewrite seq_S, fold_left_app. cbn [fold_left Nat.add].
  destruct (PeanoNat.Nat.eq_dec n k) as [-> | Hne].
  - split; [apply peek16_store32_low | apply peek16_store32_high].
  - assert (n < k)%nat as Hlt by lia. destruct (IH Hlt) as [Hlo Hhi].
    rewrite <- Hlo, <- Hhi.
    split; apply peek16_ext; apply store32_other; lia.
Qed.

Lemma peek8_memset (m : memory) (a c n i : Z) :
  0 <= i < n -> peek8 (memset m a c n) (a + i) = u8 c.
Proof.
  intros Hi. unfold memset.
  assert (List.length (repeat c (Z.to_nat n)) = Z.to_nat n) as Hlen
      by apply repeat_length.
  pose proof (peek_list_store_bytes (repeat c (Z.to_nat n)) m a) as Hp.
  rewrite Hlen in Hp.
  assert (Z.to_nat i < Z.to_nat n)%nat as Hlt by (apply Z2Nat.inj_lt; lia).
  pose proof (nth_peek_list (store_bytes m a (repeat c (Z.to_nat n)))
                (Z.to_nat n) (Z.to_nat i) a Hlt) as Hnth.
  rewrite Z2Nat.id in Hnth by lia. rewrite <- Hnth, Hp.
  change (nth (Z.to_nat i) (map u8 (repeat c (Z.to_nat n))) 0)
    with (nth (Z.to_nat i) (map u8 (repeat c (Z.to_nat n))) (u8 0)).
  rewrite map_nth. f_equal. apply nth_repeat_lt. exact Hlt.
Qed.

Lemma magic_table_filled (m : memory) (n : Z) :
  0 <= n < 256 ->
  let m' := fill_magic_interrupt_table m in
  peek16 m' (4 * n) = n /\ peek16 m' (4 * n + 2) = 0x40 /\
  peek8 m' (0x400 + n) = 0xf4.
Proof.
  intros Hn. cbv zeta. unfold fill_magic_interrupt_table.
  set (m1 := fold_left _ (seq 0 256) m).
  assert (Z.to_nat n < 256)%nat as Hlt by lia.
  destruct (vectors_filled (fun u => Z.lor 0x400000 (Z.of_nat u)) 256 m (Z.to_nat n) Hlt)
    as [Hlo Hhi].
  cbv zeta in Hlo, Hhi. fold m1 in Hlo, Hhi. rewrite Z2Nat.id in Hlo, Hhi by lia.
  destruct (vector_value n Hn) as [Vlo Vhi].
  split; [| split].
  - rewrite <- Vlo at 2. rewrite <- Hlo.
    apply peek16_ext; apply store_bytes_outside;
      rewrite repeat_length, Z2Nat.id by lia; lia.
  - rewrite <- Vhi. rewrite <- Hhi.
    apply peek16_ext; apply store_bytes_outside;
      rewrite repeat_length, Z2Nat.id by lia; lia.
  - now rewrite peek8_memset by lia.
Qed.

(** *** What the bootstrap leaves in guest memory, for any arguments *)

(** The test of the loop, whatever the length of the argument. *)
Lemma tail_test_passes (size asz : Z) :
  0 <= size <= 128 -> 0 <= asz < 4294967296 ->
  (u32 (size + asz) <? size) || (u32 (size + asz) >? 127) = false ->
  size + asz <= 127.
Proof.
  intros Hsize Hasz Hchk.
  apply orb_false_elim in Hchk. destruct Hchk as [Hc1 Hc2].
  apply Z.ltb_ge in Hc1. rewrite Z.gtb_ltb in Hc2. apply Z.ltb_ge in Hc2.
  revert Hc1 Hc2. words. intros Hc1 Hc2. Z.div_mod_to_equations. lia.
Qed.

Lemma copy_args_loop_bounds (args : list string) :
  forall (m : memory) (p size : Z) (m' : memory) (size' : Z),
    0 <= size <= 128 ->
    copy_args_loop m p size args = Some (m', size') ->
    size <= size' <= 128 /\
    (forall x, x < p + size \/ p + size' <= x -> m' x = m x).
Proof.
  induction args as [| arg args IH]; intros m p size m' size' Hsize H.
  - cbn in H. injection H as <- <-. split; [lia | reflexivity].
  - cbn [copy_args_loop] in H. cbv zeta in H.
    pose proof (u32_range (strlen arg)) as Hasz.
    set (asz := u32 (strlen arg)) in *.
    destruct ((u32 (size + asz) <? size) || (u32 (size + asz) >? 127)) eqn:Hchk;
      [discriminate H |].
    pose proof (tail_test_passes size asz Hsize Hasz Hchk) as Hfits.
    rewrite (u32_small (size + 1)) in H by lia.
    rewrite (u32_small (size + 1 + asz)) in H by lia.
    apply IH in H; [| lia]. destruct H as [Hs' Hframe].
    split; [lia |].
    intros x Hx. rewrite Hframe by lia.
    rewrite store_bytes_outside.
    + apply store8_other. lia.
    + pose proof (firstn_le_length (Z.to_nat asz) (bytes_of arg)) as Hlen. lia.
Qed.

Lemma copy_args_frame (m : memory) (p : Z) (args : list string) (m' : memory) :
  copy_args_to_dos_args m p args = Done m' ->
  forall x, x < p \/ p + 128 < x -> m' x = m x.
Proof.
  unfold copy_args_to_dos_args.
  destruct (copy_args_loop m p 1 args) as [[m1 size] |] eqn:Hloop; [| discriminate].
  intros H x Hx. injection H as <-.
  apply copy_args_loop_bounds in Hloop; [| lia]. destruct Hloop as [Hsize Hframe].
  rewrite !store8_other by lia. apply Hframe. lia.
Qed.

(** X7: whatever the arguments, [copy_args_to_dos_args] either ends the
    process with status 252 or returns having written inside the 129 bytes
    from [p] only: with [p] at PSP offset 0x80, nothing before it and
    nothing beyond PSP offset 0x100 is touched, the length byte at [p] is
    at most 127 and the byte 0x0d follows the tail it counts. *)
Theorem copy_args_writes_129_bytes (m : memory) (p : Z) (args : list string) :
  (exists tr, copy_args_to_dos_args m p args = Died 252 tr) \/
  (exists m',
     copy_args_to_dos_args m p args = Done m' /\
     (forall x, x < p \/ p + 128 < x -> m' x = m x) /\
     0 <= peek8 m' p <= 127 /\
     peek8 m' (p + 1 + peek8 m' p) = 13).
Proof.
  destruct (copy_args_to_dos_args m p args) as [m' | st tr] eqn:H.
  - right. exists m'. split; [reflexivity |].
    split; [now apply (copy_args_frame m p args) |].
    unfold copy_args_to_dos_args in H.
    destruct (copy_args_loop m p 1 args) as [[m1 size] |] eqn:Hloop; [| discriminate H].
    injection H as <-.
    apply copy_args_loop_bounds in Hloop; [| lia]. destruct Hloop as [Hsize _].
    assert (peek8 (store8 (store8 m1 (p + size) 13) p (u32 (size - 1))) p = size - 1)
      as Hlen.
    { unfold peek8. rewrite store8_same, u8_u8, u32_small by lia.
      words. apply Z.mod_small. lia. }
    rewrite Hlen. split; [lia |].
    unfold peek8. rewrite store8_other by lia.
    replace (p + 1 + (size - 1)) with (p + size) by lia.
    now rewrite store8_same.
  - left. exists tr. unfold copy_args_to_dos_args in H.
    destruct (copy_args_loop m p 1 args) as [[m1 size] |]; [discriminate H |].
    injection H as <- <-. reflexivity.
Qed.

Lemma main_init_inv (file : option (list Z)) (args : list string) (m : memory)
    (s0 : kvm_sregs) (r0 : kvm_regs) (m' : memory) (s : kvm_sregs) (r : kvm_regs) :
  main_init file args m s0 r0 = Done (m', s, r) ->
  exists image m6,
    file = Some image /\
    m6 = store8 (store16 (store16 (store16
           (fill_magic_interrupt_table (store_bytes m (psp + 0x100) image))
           (psp + 0xfffe) 0) psp 0x20cd) (psp + 2) 0xa000) (psp + 0x80) 0 /\
    copy_args_to_dos_args m6 (psp + 0x80) args = Done m' /\
    s = (let seg := SET_SEGMENT_REG BASE_PARA in mk_sregs seg seg seg seg seg seg) /\
    r = set_rip (set_rflags (set_rsp r0 0xfffe) (Z.shiftl 1 1)) 0x100.
Proof.
  unfold main_init.
  destruct (load_guest file m) as [m1 | st tr] eqn:Hload; [| discriminate].
  destruct (load_guest_done_inv _ _ _ Hload) as (image & -> & _ & ->).
  cbv zeta.
  destruct (copy_args_to_dos_args _ (psp + 128) args) as [m7 | st tr] eqn:Hcopy;
    [| discriminate].
  intros H. injection H as <- <- <-.
  eexists image, _. repeat split. exact Hcopy.
Qed.

(** X8: after a bootstrap that succeeds, whatever the image and the
    arguments, every interrupt vector [n] is the far pointer 0040:n and the
    byte at 0040:n is the opcode 0xf4 of HLT, so that every INT of the
    guest halts at an address the dispatcher recognises. *)
Theorem magic_table_installed (file : option (list Z)) (args : list string)
    (m : memory) (s0 : kvm_sregs) (r0 : kvm_regs)
    (m' : memory) (s : kvm_sregs) (r : kvm_regs) :
  main_init file args m s0 r0 = Done (m', s, r) ->
  forall n, 0 <= n < 256 ->
    peek16 m' (4 * n) = n /\ peek16 m' (4 * n + 2) = 0x40 /\
    peek8 m' (0x40 * 16 + n) = 0xf4.
Proof.
  intros H n Hn.
  destruct (main_init_inv _ _ _ _ _ _ _ _ H) as (image & m6 & _ & Hm6 & Hcopy & _).
  pose proof (copy_args_frame _ _ _ _ Hcopy) as Hframe.
  assert (forall x, x < 0x1000 -> m' x = fill_magic_interrupt_table
                                            (store_bytes m (psp + 0x100) image) x) as Hlow.
  { intros x Hx. change psp with 4096 in *. rewrite Hframe by lia. subst m6.
    rewrite store8_other by lia. rewrite !store16_other by lia. reflexivity. }
  destruct (magic_table_filled (store_bytes m (psp + 0x100) image) n Hn)
    as (Hoff & Hsel & Hhlt).
  cbv zeta in Hoff, Hsel, Hhlt.
  split; [| split].
  - rewrite <- Hoff at 2. apply peek16_ext; apply Hlow; lia.
  - rewrite <- Hsel. apply peek16_ext; apply Hlow; lia.
  - rewrite <- Hhlt. unfold peek8. rewrite Hlow by lia. reflexivity.
Qed.

Lemma magic_table_installed_witness :
  exists m' s r,
    main_init (Some image_nop_ret) args127 zero_memory sregs_in_int
      (regs_in_int 0 0 0 0 0 0) = Done (m', s, r) /\
    peek16 m' (4 * 0x21) = 0x21 /\ peek16 m' (4 * 0x21 + 2) = 0x40 /\
    peek8 m' (0x40 * 16 + 0x21) = 0xf4.
Proof.
  destruct (main_init_done image_nop_ret args127 zero_memory sregs_in_int
              (regs_in_int 0 0 0 0 0 0) image_fits_nop_ret args_fit_args127
              ltac:(vm_compute; discriminate))
    as (m6 & m' & s & r & Hmain & _).
  exists m', s, r. split; [exact Hmain |].
  apply (magic_table_installed _ _ _ _ _ _ _ _ Hmain 0x21). lia.
Defined.

(** X9: the machine that a successful bootstrap hands to the first
    [KVM_RUN]: all six segment registers hold [BASE_PARA] with base
    [BASE_PARA << 4], SP is 0xfffe, IP is 0x100 and FLAGS is 2; the other
    general registers are as KVM gave them; the PSP starts with the bytes
    CD 20 (INT 20h) followed by the word 0xa000, and the word at SS:SP is
    0, so that a near RET of the program lands on the INT 20h at offset 0,
    whatever the image and the arguments. *)
Theorem initial_machine_state (file : option (list Z)) (args : list string)
    (m : memory) (s0 : kvm_sregs) (r0 : kvm_regs)
    (m' : memory) (s : kvm_sregs) (r : kvm_regs) :
  main_init file args m s0 r0 = Done (m', s, r) ->
  (sregs_ok s /\
   forall g, In g [cs s; ds s; es s; fs s; gs s; ss s] ->
             selector g = BASE_PARA /\ base g = BASE_PARA * 16) /\
  (rsp r = 0xfffe /\ rip r = 0x100 /\ rflags r = 2) /\
  (rax r, rbx r, rcx r, rdx r, rsi r, rdi r, rbp r) =
  (rax r0, rbx r0, rcx r0, rdx r0, rsi r0, rdi r0, rbp r0) /\
  (peek8 m' psp = 0xcd /\ peek8 m' (psp + 1) = 0x20 /\ peek16 m' (psp + 2) = 0xa000) /\
  (csip_ptr s r = psp + 0xfffe /\ peek16 m' (csip_ptr s r) = 0).
Proof.
  intros H.
  destruct (main_init_inv _ _ _ _ _ _ _ _ H) as (image & m6 & _ & Hm6 & Hcopy & -> & ->).
  pose proof (copy_args_frame _ _ _ _ Hcopy) as Hframe.
  subst m6. cbv zeta.
  assert (sregs_ok (mk_sregs (SET_SEGMENT_REG BASE_PARA) (SET_SEGMENT_REG BASE_PARA)
                      (SET_SEGMENT_REG BASE_PARA) (SET_SEGMENT_REG BASE_PARA)
                      (SET_SEGMENT_REG BASE_PARA) (SET_SEGMENT_REG BASE_PARA))) as Hok
      by (unfold sregs_ok; cbn [cs ds es fs gs ss];
          repeat split; apply segment_ok_SET_SEGMENT_REG).
  split; [split; [exact Hok |] |].
  { cbn [cs ds es fs gs ss]. intros g Hg.
    assert (g = SET_SEGMENT_REG BASE_PARA) as ->
        by (cbn [In] in Hg; intuition congruence).
    split; reflexivity. }
  split; [repeat split |]. split; [reflexivity |].
  assert (csip_ptr
            (mk_sregs (SET_SEGMENT_REG BASE_PARA) (SET_SEGMENT_REG BASE_PARA)
               (SET_SEGMENT_REG BASE_PARA) (SET_SEGMENT_REG BASE_PARA)
               (SET_SEGMENT_REG BASE_PARA) (SET_SEGMENT_REG BASE_PARA))
            (set_rip (set_rflags (set_rsp r0 0xfffe) (Z.shiftl 1 1)) 0x100)
          = psp + 0xfffe) as Hptr by reflexivity.
  rewrite Hptr. change psp with 4096 in *.
  set (m6 := store8 _ (4096 + 128) 0) in Hframe.
  assert (forall x, x < 4096 + 128 \/ 4096 + 128 + 128 < x -> m' x = m6 x) as Hsame
      by (intros x Hx; apply Hframe; lia).
  subst m6.
  split; [| split; [reflexivity |]].
  - unfold peek8. rewrite !Hsame by lia.
    rewrite !(store8_other _ (4096 + 128)) by lia.
    rewrite !(store16_other _ (4096 + 2)) by lia.
    split; [| split].
    + unfold store16. rewrite store8_other by lia. now rewrite store8_same.
    + unfold store16. now rewrite store8_same.
    + change (u8 (m' 4096)) with (peek8 m' 4096).
      rewrite (peek16_ext m' (store16 (store16 (store16
                 (fill_magic_interrupt_table (store_bytes m (4096 + 256) image))
                 (4096 + 65534) 0) 4096 8397) (4096 + 2) 40960)).
      * apply peek16_store16.
      * rewrite Hsame by lia. now rewrite store8_other by lia.
      * rewrite Hsame by lia. now rewrite store8_other by lia.
  - rewrite (peek16_ext m' (store16 (fill_magic_interrupt_table
                                       (store_bytes m (4096 + 256) image))
                              (4096 + 65534) 0)).
    + apply peek16_store16.
    + rewrite Hsame by lia.
      rewrite store8_other by lia. now rewrite !store16_other by lia.
    + rewrite Hsame by lia.
      rewrite store8_other by lia. now rewrite !store16_other by lia.
Qed.

Lemma initial_machine_state_witness :
  exists m' s r,
    main_init (Some image_nop_ret) args127 zero_memory sregs_in_int
      (regs_in_int 0 1 2 3 4 5) = Done (m', s, r) /\
    rsp r = 0xfffe /\ rip r = 0x100 /\ rflags r = 2 /\ rax r = 1 /\
    peek8 m' psp = 0xcd /\ peek16 m' (csip_ptr s r) = 0.
Proof.
  destruct (main_init_done image_nop_ret args127 zero_memory sregs_in_int
              (regs_in_int 0 1 2 3 4 5) image_fits_nop_ret args_fit_args127
              ltac:(vm_compute; discriminate))
    as (m6 & m' & s & r & Hmain & _).
  exists m', s, r. split; [exact Hmain |].
  destruct (initial_machine_state _ _ _ _ _ _ _ _ Hmain)
    as (_ & (Hsp & Hip & Hfl) & Hregs & (Hcd & _) & (_ & Hret)).
  injection Hregs as Hax _.
  repeat split; assumption.
Defined.

(** *** Services against one another *)

(** X10: printing a ['$']-terminated string with AH=0x09 asks the host
    for the very [write] that AH=0x40 asks for with handle 1, the same
    DS:DX and CX the number of bytes before the ['$']; neither changes
    guest memory. *)
Theorem print_is_write_to_stdout (h : host) (m : memory) (s : kvm_sregs)
    (r9 r40 : kvm_regs) (dx : Z) :
  wf_sregs s ->
  guest_int s r9 0x21 -> ah_of r9 = 0x09 ->
  guest_int s r40 0x21 -> ah_of r40 = 0x40 ->
  first_dollar m (ds_base s) (DX r9) dx ->
  BX r40 = 1 -> DX r40 = DX r9 -> CX r40 = dx - DX r9 ->
  exists s9 r9' s40 r40' tr,
    handle_exit h KVM_EXIT_HLT m s r9 = Resume s9 r9' m tr /\
    handle_exit h KVM_EXIT_HLT m s r40 = Resume s40 r40' m tr /\
    tr = [EvWrite 1 (peek_bytes m (ds_base s + DX r9) (dx - DX r9))].
Proof.
  intros Hs Hint9 Hah9 Hint40 Hah40 Hfd Hbx Hdx Hcx.
  rewrite (handle_exit_int h m s r9 0x21 Hs Hint9), Hah9.
  rewrite (handle_exit_int h m s r40 0x21 Hs Hint40), Hah40.
  change (int_handler h m s r9 33 9) with (int21_print m s r9).
  change (int_handler h m s r40 33 64) with (int21_write h m s r40).
  rewrite (int21_print_found m s r9 dx Hs Hfd).
  rewrite int21_write_call by (try assumption; lia).
  cbv zeta. rewrite dsdx_addr_eq, Hbx, Hdx, Hcx.
  change (map_handle 1) with 1.
  cbn [return_from_interrupt]. eexists _, _, _, _, _.
  split; [reflexivity |]. split; reflexivity.
Qed.

Lemma print_is_write_to_stdout_witness :
  exists s9 r9' s40 r40',
    handle_exit host_ok KVM_EXIT_HLT mem_in_int sregs_in_int
      (regs_in_int 0x21 0x0900 0 0 0x200 2) = Resume s9 r9' mem_in_int [EvWrite 1 [72; 105]] /\
    handle_exit host_ok KVM_EXIT_HLT mem_in_int sregs_in_int
      (regs_in_int 0x21 0x4000 1 2 0x200 2) = Resume s40 r40' mem_in_int [EvWrite 1 [72; 105]].
Proof.
  destruct (print_is_write_to_stdout host_ok mem_in_int sregs_in_int
              (regs_in_int 0x21 0x0900 0 0 0x200 2)
              (regs_in_int 0x21 0x4000 1 2 0x200 2) 0x202 wf_sregs_in_int
              (guest_int_regs_in_int 0x21 0x0900 0 0 0x200 2 ltac:(lia)) eq_refl
              (guest_int_regs_in_int 0x21 0x4000 1 2 0x200 2 ltac:(lia)) eq_refl)
    as (s9 & r9' & s40 & r40' & tr & H9 & H40 & ->); try reflexivity.
  - split; [split; [discriminate | reflexivity] |].
    split; [reflexivity |].
    change (DX (regs_in_int 33 2304 0 0 512 2)) with 512.
    intros k Hk. assert (k = 512 \/ k = 513) as [-> | ->] by lia; discriminate.
  - exists s9, r9', s40, r40'. split; [exact H9 | exact H40].
Defined.

Lemma length_firstn_le (A : Type) (n : nat) (l : list A) :
  (n <= List.length l)%nat -> List.length (firstn n l) = n.
Proof. intros H. rewrite length_firstn. lia. Qed.

(** X11: a [read] through AH=0x3f that transfers [got] bytes puts exactly
    those bytes at DS:DX, changes no other byte of guest memory and returns
    AX=[got] with the carry clear; an AH=0x40 that follows with the same
    DS:DX and CX=[got] hands those very bytes to the host. *)
Theorem read_places_bytes (h : host) (m : memory) (s : kvm_sregs) (r : kvm_regs)
    (got : Z) (data : list Z) :
  wf_sregs s -> guest_int s r 0x21 -> ah_of r = 0x3f -> BX r <= 4 ->
  host_read h (map_handle (BX r)) (CX r) = (got, data) ->
  0 <= got <= Z.of_nat (List.length data) -> got <= CX r ->
  exists s' r' m',
    handle_exit h KVM_EXIT_HLT m s r =
      Resume s' r' m' [EvRead (map_handle (BX r)) (CX r)] /\
    AX r' = got /\ CF (rflags r') = false /\
    peek_bytes m' (dsdx_addr s r) got = map u8 (firstn (Z.to_nat got) data) /\
    (forall x, x < dsdx_addr s r \/ dsdx_addr s r + got <= x -> m' x = m x) /\
    (forall h2 r2,
       guest_int s r2 0x21 -> ah_of r2 = 0x40 -> BX r2 <= 4 ->
       DX r2 = DX r -> CX r2 = got ->
       exists s2 r2',
         handle_exit h2 KVM_EXIT_HLT m' s r2 =
           Resume s2 r2' m'
             [EvWrite (map_handle (BX r2)) (map u8 (firstn (Z.to_nat got) data))]).
Proof.
  intros Hs Hint Hah Hbx Hread Hgot Hcx.
  pose proof (u16_range (rcx r)) as Hcxr. fold (CX r) in Hcxr.
  rewrite (handle_exit_int h m s r 0x21 Hs Hint), Hah.
  change (int_handler h m s r 33 63) with (int21_read h m s r).
  rewrite int21_read_call by assumption. cbv zeta. rewrite Hread. cbn [fst snd].
  destruct (got <? 0) eqn:Hneg; [apply Z.ltb_lt in Hneg; lia |].
  cbn [return_from_interrupt].
  set (bs := firstn (Z.to_nat got) data).
  assert (List.length bs = Z.to_nat got) as Hlen
      by (apply length_firstn_le; lia).
  assert (peek_bytes (store_bytes m (dsdx_addr s r) bs) (dsdx_addr s r) got = map u8 bs)
    as Hpeek.
  { unfold peek_bytes. rewrite <- Hlen. apply peek_list_store_bytes. }
  eexists _, _, _. split; [reflexivity |].
  destruct (success_regs r got) as [Hax Hcf].
  split; [rewrite AX_iret_regs, Hax; apply u16_small; lia |].
  split; [rewrite rflags_iret_regs; exact Hcf |].
  split; [exact Hpeek |].
  split.
  - intros x Hx. apply store_bytes_outside. lia.
  - intros h2 r2 Hint2 Hah2 Hbx2 Hdx2 Hcx2.
    rewrite (handle_exit_int h2 _ s r2 0x21 Hs Hint2), Hah2.
    change (int_handler h2 (store_bytes m (dsdx_addr s r) bs) s r2 33 64)
      with (int21_write h2 (store_bytes m (dsdx_addr s r) bs) s r2).
    rewrite int21_write_call by assumption. cbv zeta.
    rewrite (dsdx_addr_eq s r2), Hdx2, Hcx2, <- dsdx_addr_eq, Hpeek.
    cbn [return_from_interrupt]. now eexists _, _.
Qed.

Lemma read_places_bytes_witness :
  exists s' r' m',
    handle_exit host_ok KVM_EXIT_HLT mem_in_int sregs_in_int
      (regs_in_int 0x21 0x3f00 0 3 0x300 3) = Resume s' r' m' [EvRead 0 3] /\
    AX r' = 3 /\ CF (rflags r') = false /\
    peek_bytes m' 0x1300 3 = [65; 65; 65].
Proof.
  destruct (read_places_bytes host_ok mem_in_int sregs_in_int
              (regs_in_int 0x21 0x3f00 0 3 0x300 3) 3 [65; 65; 65] wf_sregs_in_int
              (guest_int_regs_in_int 0x21 0x3f00 0 3 0x300 3 ltac:(lia)) eq_refl)
    as (s' & r' & m' & Heq & Hax & Hcf & Hpeek & _);
    try (vm_compute; (reflexivity || discriminate || (split; discriminate))).
  exists s', r', m'. repeat split; assumption.
Defined.

(** *** The character services and the version query *)

(** X12: which descriptor each character service writes to.  INT 29h and
    INT 10h with AH=0x0e write the byte AL to fd 1; INT 21h writes the byte
    DL to fd 2 for AH=0x04 and to fd 1 for AH=0x05 and for AH=0x06 with DL
    other than 0xff; AH=0x06 with DL=0xff (the input form) asks nothing of
    the host.  Each returns with registers and memory as they were, CS, IP
    and SP apart. *)
Theorem character_output_services (h : host) (m : memory) (s : kvm_sregs)
    (r : kvm_regs) (n : Z) :
  wf_sregs s -> guest_int s r n ->
  let resumed tr :=
    handle_exit h KVM_EXIT_HLT m s r =
    Resume (set_cs s (SET_SEGMENT_REG (peek16 m (csip_ptr s r + 2))))
           (iret_regs r (peek16 m (csip_ptr s r))) m tr in
  (n = 0x29 -> resumed [EvWrite 1 [AL r]]) /\
  (n = 0x10 -> ah_of r = 0x0e -> resumed [EvWrite 1 [AL r]]) /\
  (n = 0x21 -> ah_of r = 0x04 -> resumed [EvWrite 2 [DL r]]) /\
  (n = 0x21 -> ah_of r = 0x05 -> resumed [EvWrite 1 [DL r]]) /\
  (n = 0x21 -> ah_of r = 0x06 -> DL r <> 0xff -> resumed [EvWrite 1 [DL r]]) /\
  (n = 0x21 -> ah_of r = 0x06 -> DL r = 0xff -> resumed []).
Proof.
  intros Hs Hint resumed. subst resumed. cbv beta.
  rewrite (handle_exit_int h m s r n Hs Hint).
  unfold AL, DL.
  repeat split.
  - intros ->. reflexivity.
  - intros -> ->. reflexivity.
  - intros -> ->. cbn. unfold put_char. now rewrite u8_u8.
  - intros -> ->. cbn. unfold put_char. now rewrite u8_u8.
  - intros -> -> Hdl. unfold int_handler, int21. cbn [Z.eqb Pos.eqb andb].
    apply Z.eqb_neq in Hdl. rewrite Hdl. cbn [negb return_from_interrupt].
    unfold put_char. now rewrite u8_u8.
  - intros -> -> Hdl. unfold int_handler, int21. cbn [Z.eqb Pos.eqb andb].
    rewrite Hdl. reflexivity.
Qed.

Lemma character_output_services_witness :
  (exists s' r',
     handle_exit host_ok KVM_EXIT_HLT mem_in_int sregs_in_int
       (regs_in_int 0x21 0x0400 0 0 0x1241 2) = Resume s' r' mem_in_int [EvWrite 2 [0x41]]) /\
  (exists s' r',
     handle_exit host_ok KVM_EXIT_HLT mem_in_int sregs_in_int
       (regs_in_int 0x21 0x0600 0 0 0x12ff 2) = Resume s' r' mem_in_int []).
Proof.
  pose proof (character_output_services host_ok mem_in_int sregs_in_int
                (regs_in_int 0x21 0x0400 0 0 0x1241 2) 0x21 wf_sregs_in_int
                (guest_int_regs_in_int 0x21 0x0400 0 0 0x1241 2 ltac:(lia))) as H4.
  pose proof (character_output_services host_ok mem_in_int sregs_in_int
                (regs_in_int 0x21 0x0600 0 0 0x12ff 2) 0x21 wf_sregs_in_int
                (guest_int_regs_in_int 0x21 0x0600 0 0 0x12ff 2 ltac:(lia))) as H6.
  cbv zeta in H4, H6.
  destruct H4 as (_ & _ & H4 & _). destruct H6 as (_ & _ & _ & _ & _ & H6).
  split; eexists _, _.
  - exact (H4 eq_refl eq_refl).
  - exact (H6 eq_refl eq_refl eq_refl).
Defined.

(** X13: the version query AH=0x30 returns AX=5, BX=0xff00 and CX=0,
    leaves FLAGS, the other registers and guest memory alone and asks
    nothing of the host. *)
Theorem get_dos_version (h : host) (m : memory) (s : kvm_sregs) (r : kvm_regs) :
  wf_sregs s -> guest_int s r 0x21 -> ah_of r = 0x30 ->
  exists s' r',
    handle_exit h KVM_EXIT_HLT m s r = Resume s' r' m [] /\
    AX r' = 5 /\ BX r' = 0xff00 /\ CX r' = 0 /\
    rflags r' = rflags r /\
    (rdx r', rsi r', rdi r', rbp r') = (rdx r, rsi r, rdi r, rbp r).
Proof.
  intros Hs Hint Hah.
  rewrite (handle_exit_int h m s r 0x21 Hs Hint), Hah.
  unfold int_handler, int21. cbn [Z.eqb Pos.eqb andb return_from_interrupt].
  eexists _, _. split; [reflexivity |].
  unfold AX, BX, CX, iret_regs, set_rsp, set_rip, set_rcx, set_rbx, set_rax.
  cbn [rax rbx rcx rdx rsi rdi rsp rbp rip rflags].
  rewrite !u16_store_lo16.
  repeat split.
Qed.

Lemma get_dos_version_witness :
  exists s' r',
    handle_exit host_ok KVM_EXIT_HLT mem_in_int sregs_in_int
      (regs_in_int 0x21 0x30ff 0x1234 0x5678 7 3) = Resume s' r' mem_in_int [] /\
    AX r' = 5 /\ BX r' = 0xff00 /\ CX r' = 0 /\ rflags r' = 3.
Proof.
  destruct (get_dos_version host_ok mem_in_int sregs_in_int
              (regs_in_int 0x21 0x30ff 0x1234 0x5678 7 3) wf_sregs_in_int
              (guest_int_regs_in_int 0x21 0x30ff 0x1234 0x5678 7 3 ltac:(lia)) eq_refl)
    as (s' & r' & Heq & Hax & Hbx & Hcx & Hfl & _).
  exists s', r'. repeat split; assumption.
Defined.

(** *** The read loop of [load_guest] *)

Lemma store_bytes_app (bs1 bs2 : list Z) (m : memory) (a : Z) :
  store_bytes m a (bs1 ++ bs2) =
  store_bytes (store_bytes m a bs1) (a + Z.of_nat (List.length bs1)) bs2.
Proof.
  revert m a. induction bs1 as [| b bs1 IH]; intros m a.
  - cbn. now rewrite Z.add_0_r.
  - cbn [app store_bytes List.length]. rewrite IH.
    replace (a + 1 + Z.of_nat (List.length bs1))
      with (a + Z.of_nat (S (List.length bs1))) by lia.
    reflexivity.
Qed.

Lemma load_guest_reads_step (m : memory) (p : Z) (bs : list Z)
    (reads : list (option (list Z))) :
  bs <> [] ->
  load_guest_reads m p (Some bs :: reads) =
  load_guest_reads (store_bytes m p bs) (p + Z.of_nat (List.length bs)) reads.
Proof. intros H. destruct bs as [| b bs]; [now elim H | reflexivity]. Qed.

(** X14: [load_guest] places the file as one contiguous image however
    [read] cuts it: for reads that return the non-empty pieces [chunks],
    memory ends as if their concatenation had been stored at once, the
    reads after the first empty one are never looked at, and a failing
    read ends the process with status 252; for pieces that together fit
    between the load address and the end of the arena, the loop started
    at the load address is [load_guest] on their concatenation. *)
Theorem load_guest_reads_concat (chunks : list (list Z)) :
  Forall (fun bs => bs <> []) chunks ->
  forall (m : memory) (p : Z) (later : list (option (list Z))),
    load_guest_reads m p (map Some chunks) = Done (store_bytes m p (List.concat chunks)) /\
    load_guest_reads m p (map Some chunks ++ Some [] :: later) =
      Done (store_bytes m p (List.concat chunks)) /\
    load_guest_reads m p (map Some chunks ++ None :: later) =
      Died 252 [EvStderr "read"] /\
    (p = Z.shiftl BASE_PARA 4 + 0x100 ->
     image_fits (List.concat chunks) ->
     load_guest_reads m p (map Some chunks) = load_guest (Some (List.concat chunks)) m).
Proof.
  induction 1 as [| bs chunks Hbs Hrest IH]; intros m p later.
  - cbn [map List.concat app load_guest_reads].
    do 3 (split; [reflexivity |]).
    intros -> Himg. now rewrite (load_guest_fits [] m Himg).
  - cbn [map List.concat app]. rewrite !load_guest_reads_step by exact Hbs.
    rewrite store_bytes_app.
    destruct (IH (store_bytes m p bs) (p + Z.of_nat (List.length bs)) later)
      as (H1 & H2 & H3 & _).
    do 3 (split; [assumption |]).
    intros -> Himg. rewrite (load_guest_fits _ m Himg).
    rewrite store_bytes_app. exact H1.
Qed.

Lemma load_guest_reads_concat_witness :
  Forall (fun bs : list Z => bs <> []) [[0x90]; [0xc3]] /\
  image_fits (List.concat [[0x90]; [0xc3]]) /\
  load_guest_reads zero_memory (Z.shiftl BASE_PARA 4 + 0x100) [Some [0x90]; Some [0xc3]] =
  load_guest (Some image_nop_ret) zero_memory.
Proof.
  assert (Forall (fun bs : list Z => bs <> []) [[0x90]; [0xc3]]) as H
      by (repeat constructor; discriminate).
  split; [exact H |]. split; [exact image_fits_nop_ret |].
  exact (proj2 (proj2 (proj2 (load_guest_reads_concat [[0x90]; [0xc3]] H zero_memory
                                (Z.shiftl BASE_PARA 4 + 0x100) [])))
           eq_refl image_fits_nop_ret).
Defined.

(** *** What the command-line tail cannot tell apart *)

Lemma bytes_of_append (s1 s2 : string) :
  bytes_of (s1 ++ s2) = bytes_of s1 ++ bytes_of s2.
Proof.
  induction s1 as [| c s1 IH]; [reflexivity |].
  cbn [String.append bytes_of app]. now rewrite IH.
Qed.

Lemma strlen_append (s1 s2 : string) : strlen (s1 ++ s2) = strlen s1 + strlen s2.
Proof.
  unfold strlen. rewrite <- !length_bytes_of, bytes_of_append, length_app. lia.
Qed.

(** Two accepted argument lists with the same encoded tail leave the same
    bytes in memory. *)
Lemma copy_args_same_tail (m : memory) (p : Z) (l1 l2 : list string) :
  args_fit l1 -> args_fit l2 -> encoded_tail l1 = encoded_tail l2 ->
  encoded_length l1 <= 127 ->
  exists m1 m2,
    copy_args_to_dos_args m p l1 = Done m1 /\
    copy_args_to_dos_args m p l2 = Done m2 /\
    forall x, peek8 m1 x = peek8 m2 x.
Proof.
  intros Hfit1 Hfit2 Htail Hlen.
  assert (encoded_length l2 = encoded_length l1) as Hlen2
      by (unfold encoded_length; now rewrite Htail).
  pose proof (encoded_length_nonneg l1) as He0.
  destruct (copy_args_done m p l1 Hfit1 Hlen) as (m1 & H1 & Hn1 & Ht1 & Hc1 & Hf1).
  destruct (copy_args_done m p l2 Hfit2 ltac:(lia)) as (m2 & H2 & Hn2 & Ht2 & Hc2 & Hf2).
  rewrite Hlen2 in *. rewrite <- Htail in Ht2.
  exists m1, m2. split; [exact H1 |]. split; [exact H2 |].
  intros x.
  destruct (Z_lt_le_dec x p) as [Hlo | Hge].
  { unfold peek8. now rewrite Hf1, Hf2 by lia. }
  destruct (Z_lt_le_dec (p + 1 + encoded_length l1) x) as [Hhi | Hle].
  { unfold peek8. now rewrite Hf1, Hf2 by lia. }
  destruct (Z.eq_dec x p) as [-> | Hnp]; [now rewrite Hn1, Hn2 |].
  destruct (Z.eq_dec x (p + 1 + encoded_length l1)) as [-> | Hnc].
  { unfold peek8. now rewrite Hc1, Hc2. }
  replace x with (p + 1 + (x - p - 1)) by lia.
  rewrite <- (nth_peek_bytes m1 (p + 1) (encoded_length l1) (x - p - 1)) by lia.
  rewrite <- (nth_peek_bytes m2 (p + 1) (encoded_length l1) (x - p - 1)) by lia.
  now rewrite Ht1, Ht2.
Qed.

(** X15: the tail does not keep the boundaries of the arguments: one
    argument [a b] with a space in it and the two arguments [a] and [b]
    give the same encoded tail, are accepted or refused alike, and when
    accepted leave the same bytes in guest memory. *)
Theorem tail_forgets_argument_boundaries (a b : string) (rest : list string)
    (m : memory) (p : Z) :
  let joined := (a ++ " " ++ b)%string :: rest in
  let apart := a :: b :: rest in
  args_fit joined ->
  encoded_tail joined = encoded_tail apart /\
  (encoded_length joined <= 127 ->
   exists m1 m2,
     copy_args_to_dos_args m p joined = Done m1 /\
     copy_args_to_dos_args m p apart = Done m2 /\
     forall x, peek8 m1 x = peek8 m2 x) /\
  (128 <= encoded_length joined ->
   exists tr,
     copy_args_to_dos_args m p joined = Died 252 tr /\
     copy_args_to_dos_args m p apart = Died 252 tr).
Proof.
  intros joined apart Hfit.
  assert (encoded_tail joined = encoded_tail apart) as Htail.
  { unfold joined, apart. cbn [encoded_tail].
    rewrite !bytes_of_append. cbn [bytes_of app nat_of_ascii].
    rewrite <- app_assoc. reflexivity. }
  assert (args_fit apart) as Hfit2.
  { unfold joined, apart, args_fit in *.
    inversion Hfit as [| ? ? Hab Hrest]; subst.
    rewrite !strlen_append in Hab.
    pose proof (strlen_bounds a). pose proof (strlen_bounds b).
    assert (strlen (String " " b) = 1 + strlen b) as Hsp
        by (unfold strlen; cbn [String.length]; lia).
    rewrite Hsp in Hab.
    repeat constructor; try assumption; cbv beta; lia. }
  assert (encoded_length apart = encoded_length joined) as Hlen
      by (unfold encoded_length; now rewrite Htail).
  split; [exact Htail |]. split.
  - intros Hle. now apply copy_args_same_tail.
  - intros Hge. eexists. split.
    + now apply copy_args_died.
    + apply copy_args_died; [exact Hfit2 | lia].
Qed.

Lemma tail_forgets_argument_boundaries_witness :
  args_fit ["a b"%string] /\
  encoded_tail ["a b"%string] = encoded_tail ["a"%string; "b"%string] /\
  exists m1 m2,
    copy_args_to_dos_args zero_memory (psp + 0x80) ["a b"%string] = Done m1 /\
    copy_args_to_dos_args zero_memory (psp + 0x80) ["a"%string; "b"%string] = Done m2 /\
    forall x, peek8 m1 x = peek8 m2 x.
Proof.
  assert (args_fit ["a b"%string]) as Hfit by repeat constructor.
  split; [exact Hfit |].
  destruct (tail_forgets_argument_boundaries "a" "b" [] zero_memory (psp + 0x80) Hfit)
    as (Htail & Hsame & _).
  split; [exact Htail |].
  apply Hsame. vm_compute. discriminate.
Defined.

(** *** The services that are not served *)

Lemma int21_not_exit_label (h : host) (m : memory) (s : kvm_sregs) (r : kvm_regs)
    (ah int_ip int_cs : Z) :
  return_from_interrupt s int_ip int_cs (int21 h m s r ah) <> exit_label [].
Proof.
  unfold int21, int21_write, int21_read, int21_print.
  repeat match goal with
         | |- context [if ?b then _ else _] => destruct b
         | |- context [match ?x with _ => _ end] => destruct x
         end;
    discriminate.
Qed.

(** X16: the label [exit] (close the KVM descriptor, report an unexpected
    exit, status 252) is where a synthetic interrupt ends exactly when its
    number is none of 0x29, 0x20, 0x21 and 0x10, or it is INT 10h with AH
    other than 0x0e; no INT 21h, whatever AH, is refused this way. *)
Theorem goto_exit_exactly (h : host) (m : memory) (s : kvm_sregs)
    (r : kvm_regs) (n : Z) :
  wf_sregs s -> guest_int s r n ->
  (handle_exit h KVM_EXIT_HLT m s r =
     Exit 252 [EvClose; EvStderr "fatal: unexpected exit from KVM"] <->
   (n <> 0x29 /\ n <> 0x20 /\ n <> 0x21 /\ n <> 0x10) \/
   (n = 0x10 /\ ah_of r <> 0x0e)).
Proof.
  intros Hs Hint. split.
  - rewrite (handle_exit_int h m s r n Hs Hint). unfold int_handler.
    destruct (n =? 0x29) eqn:E29; [discriminate |].
    destruct (n =? 0x20) eqn:E20; [discriminate |].
    destruct (n =? 0x21) eqn:E21.
    { intros H. now apply int21_not_exit_label in H. }
    destruct (n =? 0x10) eqn:E10.
    + destruct (ah_of r =? 0x0e) eqn:Eah; [discriminate |].
      intros _. right. eqb_facts. now split.
    + intros _. left. eqb_facts. tauto.
  - intros Hn.
    destruct (unrecognized_int_is_fatal h m s r n Hs Hint Hn) as [H1 H2].
    now rewrite H1.
Qed.

Lemma goto_exit_exactly_witness :
  wf_sregs sregs_in_int /\
  handle_exit host_ok KVM_EXIT_HLT mem_in_int sregs_in_int
    (regs_in_int 0x13 0x0200 0 0 0 2) =
    Exit 252 [EvClose; EvStderr "fatal: unexpected exit from KVM"] /\
  handle_exit host_ok KVM_EXIT_HLT mem_in_int sregs_in_int
    (regs_in_int 0x10 0x0f00 0 0 0 2) =
    Exit 252 [EvClose; EvStderr "fatal: unexpected exit from KVM"] /\
  handle_exit host_ok KVM_EXIT_HLT mem_in_int sregs_in_int
    (regs_in_int 0x21 0x0a00 0 0 0 2) <>
    Exit 252 [EvClose; EvStderr "fatal: unexpected exit from KVM"].
Proof.
  split; [exact wf_sregs_in_int |].
  split; [| split].
  - apply (proj2 (goto_exit_exactly host_ok mem_in_int sregs_in_int
                    (regs_in_int 0x13 0x0200 0 0 0 2) 0x13 wf_sregs_in_int
                    (guest_int_regs_in_int 0x13 0x0200 0 0 0 2 ltac:(lia)))).
    left. repeat split; discriminate.
  - apply (proj2 (goto_exit_exactly host_ok mem_in_int sregs_in_int
                    (regs_in_int 0x10 0x0f00 0 0 0 2) 0x10 wf_sregs_in_int
                    (guest_int_regs_in_int 0x10 0x0f00 0 0 0 2 ltac:(lia)))).
    right. split; [reflexivity | discriminate].
  - intros H.
    apply (proj1 (goto_exit_exactly host_ok mem_in_int sregs_in_int
                    (regs_in_int 0x21 0x0a00 0 0 0 2) 0x21 wf_sregs_in_int
                    (guest_int_regs_in_int 0x21 0x0a00 0 0 0 2 ltac:(lia)))) in H.
    destruct H as [(_ & _ & H & _) | (H & _)]; [now elim H | discriminate H].
Defined.

(** *** The image in guest memory *)

Lemma peek_bytes_stored (m m' : memory) (a : Z) (bs : list Z) :
  (forall x, a <= x < a + Z.of_nat (List.length bs) -> m' x = store_bytes m a bs x) ->
  peek_bytes m' a (Z.of_nat (List.length bs)) = map u8 bs.
Proof.
  intros H. unfold peek_bytes. rewrite Nat2Z.id.
  rewrite <- (peek_list_store_bytes bs m a).
  apply peek_list_ext. exact H.
Qed.

(** X17: when the tail is at most 126 bytes and the image at most 0xfefe
    bytes, the bootstrap leaves the image byte for byte at offset 0x100 of
    the program segment, where CS:IP points: neither the interrupt table,
    nor the PSP fields, nor the tail, nor the zero word at SS:SP reach it. *)
Theorem image_loaded_intact (image : list Z) (args : list string) (m : memory)
    (s0 : kvm_sregs) (r0 : kvm_regs) :
  args_fit args -> encoded_length args <= 126 ->
  Z.of_nat (List.length image) <= 0xfefe ->
  exists m' s r,
    main_init (Some image) args m s0 r0 = Done (m', s, r) /\
    peek_bytes m' (psp + 0x100) (Z.of_nat (List.length image)) = map u8 image /\
    16 * selector (cs s) + rip r = psp + 0x100.
Proof.
  intros Hfit Hlen Himg.
  assert (image_fits image) as Hfits
      by (unfold image_fits; change (MEM_SIZE - (Z.shiftl BASE_PARA 4 + 0x100))
            with 2092800; lia).
  destruct (main_init_done image args m s0 r0 Hfits Hfit ltac:(lia))
    as (m6 & m' & s & r & Hmain & _).
  exists m', s, r. split; [exact Hmain |].
  destruct (main_init_inv _ _ _ _ _ _ _ _ Hmain)
    as (image' & m6' & Himage & -> & Hcopy & -> & ->).
  injection Himage as <-.
  pose proof (encoded_length_nonneg args) as He0.
  set (m6' := store8 _ (psp + 128) 0) in Hcopy.
  destruct (copy_args_done m6' (psp + 0x80) args Hfit ltac:(lia))
    as (m2 & Heq & _ & _ & _ & Hframe).
  rewrite Hcopy in Heq. injection Heq as <-. subst m6'.
  split; [| reflexivity].
  apply peek_bytes_stored with (m := m). intros x Hx.
  change psp with 4096 in *.
  rewrite Hframe by lia.
  rewrite store8_other by lia. rewrite !store16_other by lia.
  apply fill_magic_above. lia.
Qed.

Lemma image_loaded_intact_witness :
  exists m' s r,
    main_init (Some image_nop_ret) ["ab"%string; "c"%string] zero_memory sregs_in_int
      (regs_in_int 0 0 0 0 0 0) = Done (m', s, r) /\
    peek_bytes m' (psp + 0x100) 2 = [0x90; 0xc3].
Proof.
  destruct (image_loaded_intact image_nop_ret ["ab"%string; "c"%string] zero_memory
              sregs_in_int (regs_in_int 0 0 0 0 0 0))
    as (m' & s & r & Hmain & Hbytes & _).
  - repeat constructor.
  - vm_compute. discriminate.
  - vm_compute. discriminate.
  - exists m', s, r. split; [exact Hmain | exact Hbytes].
Defined.

(** *** The first revision *)

(** X18: the first revision returns from an interrupt to the CS:IP of
    the frame, as the current one does, but leaves the frame on the guest
    stack: RSP, like every register but RIP and CS, is as it was at the
    halt, where the current revision has advanced SP by 6.  Where its
    [switch] ends the process (shutdown, a plain halt, an unknown exit
    reason), the status is 0. *)
Theorem rev1_interrupt_return (reason : Rev1.kvm_exit) (m : memory)
    (s : kvm_sregs) (r : kvm_regs) :
  (forall s' r' tr,
     Rev1.handle_exit reason m s r = Rev1.Resume s' r' tr ->
     reason = Rev1.KVM_EXIT_HLT /\ is_magic_hlt s r = true /\
     s' = set_cs s (SET_SEGMENT_REG (peek16 m (csip_ptr s r + 2))) /\
     r' = set_rip r (peek16 m (csip_ptr s r)) /\ rsp r' = rsp r /\
     forall h s2 r2 m2 tr2,
       handle_exit h KVM_EXIT_HLT m s r = Resume s2 r2 m2 tr2 ->
       s2 = s' /\ rip r2 = rip r' /\ SP r2 = u16 (SP r' + 6)) /\
  (forall st tr, Rev1.handle_exit reason m s r = Rev1.Return st tr -> st = 0).
Proof.
  split.
  - intros s' r' tr H.
    destruct reason; cbn [Rev1.handle_exit] in H; try discriminate H.
    destruct (is_magic_hlt s r) eqn:Hm; [| discriminate H].
    destruct (read_frame m s r) as [[ip0 cs0] |] eqn:Hframe; [| discriminate H].
    apply read_frame_inv in Hframe. destruct Hframe as [-> ->].
    injection H as <- <- _.
    do 5 (split; [reflexivity |]).
    intros h s2 r2 m2 tr2 H2.
    destruct (resume_inv _ _ _ _ _ _ _ _ _ H2) as (r1 & _ & _ & Hh & -> & ->).
    destruct (int_handler_flags _ _ _ _ _ _ _ _ _ Hh) as [Hsp _].
    split; [reflexivity |]. split; [reflexivity |].
    unfold SP, iret_regs, set_rsp, set_rip. cbn [rsp]. rewrite Hsp.
    apply u16_advance_lo32.
  - intros st tr H.
    destruct reason; cbn [Rev1.handle_exit] in H; try discriminate H;
      try (unfold Rev1.exit_label in H; now injection H as <- _).
    destruct (is_magic_hlt s r).
    + destruct (read_frame m s r) as [[ip0 cs0] |]; discriminate H.
    + unfold Rev1.exit_label in H. now injection H as <- _.
Qed.

Lemma rev1_interrupt_return_witness :
  exists s1 r1 tr1 s2 r2 m2 tr2,
    Rev1.handle_exit Rev1.KVM_EXIT_HLT mem_in_int sregs_in_int
      (regs_in_int 0x29 0x0041 0 0 0 2) = Rev1.Resume s1 r1 tr1 /\
    handle_exit host_ok KVM_EXIT_HLT mem_in_int sregs_in_int
      (regs_in_int 0x29 0x0041 0 0 0 2) = Resume s2 r2 m2 tr2 /\
    rsp r1 = 0xfff8 /\ SP r2 = 0xfffe /\ rip r1 = 0x1234 /\ rip r2 = 0x1234.
Proof.
  eexists _, _, _, _, _, _, _.
  split; [reflexivity |]. split; [reflexivity |].
  destruct (proj1 (rev1_interrupt_return Rev1.KVM_EXIT_HLT mem_in_int sregs_in_int
                     (regs_in_int 0x29 0x0041 0 0 0 2)) _ _ _ eq_refl)
    as (_ & _ & _ & _ & Hsp & Hboth).
  destruct (Hboth host_ok _ _ _ _ eq_refl) as (_ & Hip & Hsp2).
  split; [exact Hsp |]. split; [exact Hsp2 |]. split; [reflexivity | exact Hip].
Defined.

Lemma peek16_memset_zero (m : memory) (a : Z) : peek16 (memset m a 0 2) a = 0.
Proof.
  unfold peek16.
  rewrite <- (Z.add_0_r a) at 2. rewrite !peek8_memset by lia. reflexivity.
Qed.

(** X19: the bootstrap of the first revision.  An image that fits between
    [CODE_LOAD_OFS] and the end of the arena reaches the first [KVM_RUN]
    in this machine: the image lies byte for byte at [CODE_LOAD_OFS],
    where CS:IP = 0500:0000 points; the stack is in segment 0 and starts
    just below the image with one zero word at SS:SP; every interrupt
    vector [n] is 0040:n with a HLT at that address; and the registers
    have been printed once.  A longer image, or a file that cannot be
    opened, ends the process with status 1. *)
Theorem rev1_initial_state (image : list Z) (m : memory)
    (s0 : kvm_sregs) (r0 : kvm_regs) :
  (Z.of_nat (List.length image) <= MEM_SIZE - Rev1.CODE_LOAD_OFS ->
   exists m' s r,
     Rev1.main_init (Some image) m s0 r0 = Done (m', s, r, Rev1.dump_regs r s) /\
     peek_bytes m' Rev1.CODE_LOAD_OFS (Z.of_nat (List.length image)) = map u8 image /\
     16 * selector (cs s) + rip r = Rev1.CODE_LOAD_OFS /\
     (selector (ss s) = 0 /\ csip_ptr s r = Rev1.CODE_LOAD_OFS - 2 /\
      peek16 m' (csip_ptr s r) = 0) /\
     rflags r = 2 /\ sregs_ok s /\
     (forall n, 0 <= n < 256 ->
        peek16 m' (4 * n) = n /\ peek16 m' (4 * n + 2) = 0x40 /\
        peek8 m' (0x40 * 16 + n) = 0xf4)) /\
  (MEM_SIZE - Rev1.CODE_LOAD_OFS < Z.of_nat (List.length image) ->
   Rev1.main_init (Some image) m s0 r0 = Died 1 [EvStderr "read"]) /\
  Rev1.main_init None m s0 r0 = Died 1 [EvStderr "can not open binary file"].
Proof.
  split; [| split; [| reflexivity]].
  - intros Himg. unfold Rev1.main_init, Rev1.load_guest.
    change Rev1.initial_sp with 0x4ffe. change Rev1.CODE_LOAD_OFS with 0x5000 in *.
    change MEM_SIZE with 2097152 in Himg.
    rewrite in_arena_true by lia. cbv zeta.
    set (m2 := fill_magic_interrupt_table (store_bytes m 0x5000 image)).
    eexists _, _, _. split; [reflexivity |].
    assert (forall x, x < 0x4ffe \/ 0x5000 <= x -> memset m2 0x4ffe 0 2 x = m2 x) as Hout.
    { intros x Hx. unfold memset. apply store_bytes_outside.
      rewrite repeat_length, Z2Nat.id by lia. lia. }
    split; [| split; [reflexivity | split; [| split; [reflexivity | split]]]].
    + apply peek_bytes_stored with (m := m). intros x Hx.
      rewrite Hout by lia. unfold m2. apply fill_magic_above. lia.
    + split; [reflexivity |]. split; [reflexivity |].
      change (csip_ptr _ _) with 0x4ffe. apply peek16_memset_zero.
    + unfold sregs_ok. cbn [cs ds es fs gs ss].
      repeat split; apply segment_ok_SET_SEGMENT_REG.
    + intros n Hn.
      destruct (magic_table_filled (store_bytes m 0x5000 image) n Hn) as (Hoff & Hsel & Hhlt).
      cbv zeta in Hoff, Hsel, Hhlt. fold m2 in Hoff, Hsel, Hhlt.
      split; [| split].
      * rewrite <- Hoff at 2. apply peek16_ext; apply Hout; lia.
      * rewrite <- Hsel. apply peek16_ext; apply Hout; lia.
      * rewrite <- Hhlt. unfold peek8. now rewrite Hout by lia.
  - intros Himg. unfold Rev1.main_init, Rev1.load_guest.
    destruct (in_arena Rev1.CODE_LOAD_OFS (Z.of_nat (List.length image))) eqn:E;
      [| reflexivity].
    apply in_arena_inv in E. change Rev1.CODE_LOAD_OFS with 0x5000 in *.
    change MEM_SIZE with 2097152 in Himg. lia.
Qed.

Lemma rev1_initial_state_witness :
  Z.of_nat (List.length image_nop_ret) <= MEM_SIZE - Rev1.CODE_LOAD_OFS /\
  (exists m' s r,
     Rev1.main_init (Some image_nop_ret) zero_memory sregs_in_int
       (regs_in_int 0 1 2 3 4 5) = Done (m', s, r, Rev1.dump_regs r s) /\
     peek_bytes m' Rev1.CODE_LOAD_OFS 2 = [0x90; 0xc3] /\
     16 * selector (cs s) + rip r = 0x5000 /\
     selector (ss s) = 0 /\ csip_ptr s r = 0x4ffe /\ rflags r = 2) /\
  Rev1.main_init None zero_memory sregs_in_int (regs_in_int 0 1 2 3 4 5) =
    Died 1 [EvStderr "can not open binary file"].
Proof.
  assert (Z.of_nat (List.length image_nop_ret) <= MEM_SIZE - Rev1.CODE_LOAD_OFS) as Himg
      by (vm_compute; discriminate).
  split; [exact Himg |].
  destruct (rev1_initial_state image_nop_ret zero_memory sregs_in_int
              (regs_in_int 0 1 2 3 4 5)) as (Hboot & _ & Hnone).
  split; [| exact Hnone].
  destruct (Hboot Himg) as (m' & s & r & Hmain & Hbytes & Hcs & (Hss & Hsp & _) & Hfl & _).
  exists m', s, r. split; [exact Hmain |].
  split; [exact Hbytes |]. split; [exact Hcs |]. split; [exact Hss |].
  split; [exact Hsp | exact Hfl].
Defined.
